(** * bastepin: the paste service and the login path, embedded in Rocq

    The development follows the Go sources: [hash.go] (content
    fingerprint), [paste.go] (random identifiers), the models
    ([User], [Paste]), [paste_service.go] and the [Login] method of the
    authentication service.  The persistent store is GORM over SQLite; its
    tables are modelled as lists of rows and the few GORM calls the
    services make ([First], [Create], [Save], [Delete]) as functions on
    those lists. *)

From Stdlib Require Import ZArith NArith List Bool Ascii String Lia.
From Stdlib Require Import Sorted Permutation.
Import ListNotations.

Local Open Scope string_scope.
Local Open Scope list_scope.
Local Open Scope Z_scope.

(** ** Machine integers and time *)

Module GoInt.

(** Go's [int64] arithmetic wraps silently; [wrap64] is the two's
    complement representative of an integer. *)
Definition wrap64 (z : Z) : Z := (z + 2 ^ 63) mod 2 ^ 64 - 2 ^ 63.

Definition wrap32 (z : Z) : Z := z mod 2 ^ 32.

End GoInt.

Module time.

(** An instant ([time.Time]) is a count of nanoseconds since the epoch;
    a [time.Duration] is an [int64] count of nanoseconds.  The clock
    readings made during one call of a service method, those of GORM's
    timestamp columns included, are taken to be one instant [now]. *)
Definition Time := Z.
Definition Duration := Z.

Definition Minute : Duration := 60 * 1000000000.

(** [time.Duration(n) * time.Minute], an [int64] product. *)
Definition minutes (n : Z) : Duration := GoInt.wrap64 (GoInt.wrap64 n * Minute).

(** [t.Add(d)]. *)
Definition Add (t : Time) (d : Duration) : Time := t + d.

(** [t.After(u)]: strictly later. *)
Definition After (t u : Time) : bool := u <? t.

End time.

(** ** hash.go: the content fingerprint

    [computeFileHash] feeds the bytes to [crypto/md5] and prints the 16
    digest bytes with [%x].  MD5 is written out (RFC 1321) so that the
    fingerprint of a concrete content can be evaluated. *)

Module md5.

Import GoInt.

Definition K : list Z :=
  [ 3614090360; 3905402710; 606105819; 3250441966; 4118548399; 1200080426;
    2821735955; 4249261313; 1770035416; 2336552879; 4294925233; 2304563134;
    1804603682; 4254626195; 2792965006; 1236535329; 4129170786; 3225465664;
    643717713; 3921069994; 3593408605; 38016083; 3634488961; 3889429448;
    568446438; 3275163606; 4107603335; 1163531501; 2850285829; 4243563512;
    1735328473; 2368359562; 4294588738; 2272392833; 1839030562; 4259657740;
    2763975236; 1272893353; 4139469664; 3200236656; 681279174; 3936430074;
    3572445317; 76029189; 3654602809; 3873151461; 530742520; 3299628645;
    4096336452; 1126891415; 2878612391; 4237533241; 1700485571; 2399980690;
    4293915773; 2240044497; 1873313359; 4264355552; 2734768916; 1309151649;
    4149444226; 3174756917; 718787259; 3951481745 ].

Definition S : list Z :=
  [ 7; 12; 17; 22; 7; 12; 17; 22; 7; 12; 17; 22; 7; 12; 17; 22;
    5; 9; 14; 20; 5; 9; 14; 20; 5; 9; 14; 20; 5; 9; 14; 20;
    4; 11; 16; 23; 4; 11; 16; 23; 4; 11; 16; 23; 4; 11; 16; 23;
    6; 10; 15; 21; 6; 10; 15; 21; 6; 10; 15; 21; 6; 10; 15; 21 ].

Definition not32 (x : Z) : Z := Z.lxor x (2 ^ 32 - 1).

Definition rotl32 (x s : Z) : Z :=
  Z.lor (wrap32 (Z.shiftl x s)) (Z.shiftr x (32 - s)).

(** Little-endian 32-bit word of four bytes. *)
Definition word_of (bs : list Z) : Z :=
  nth 0 bs 0 + Z.shiftl (nth 1 bs 0) 8 + Z.shiftl (nth 2 bs 0) 16
  + Z.shiftl (nth 3 bs 0) 24.

Fixpoint le_bytes (n : nat) (x : Z) : list Z :=
  match n with
  | O => []
  | Datatypes.S n' => Z.land x 255 :: le_bytes n' (Z.shiftr x 8)
  end.

Definition words_of (block : list Z) : list Z :=
  map (fun i => word_of (firstn 4 (skipn (4 * i) block))) (seq 0 16).

Record state := mkState { sa : Z; sb : Z; sc : Z; sd : Z }.

Definition init : state :=
  mkState 1732584193 4023233417 2562383102 271733878.

Definition round (M : list Z) (st : state) (i : nat) : state :=
  let '(mkState a b c d) := st in
  let zi := Z.of_nat i in
  let '(f, g) :=
    if zi <? 16 then (Z.lor (Z.land b c) (Z.land (not32 b) d), zi)
    else if zi <? 32 then
      (Z.lor (Z.land d b) (Z.land (not32 d) c), (5 * zi + 1) mod 16)
    else if zi <? 48 then (Z.lxor (Z.lxor b c) d, (3 * zi + 5) mod 16)
    else (Z.lxor c (Z.lor b (not32 d)), (7 * zi) mod 16) in
  let f' := wrap32 (f + a + nth i K 0 + nth (Z.to_nat g) M 0) in
  mkState d (wrap32 (b + rotl32 f' (nth i S 0))) b c.

Definition block (st : state) (blk : list Z) : state :=
  let '(mkState a b c d) := fold_left (round (words_of blk)) (seq 0 64) st in
  mkState (wrap32 (sa st + a)) (wrap32 (sb st + b))
          (wrap32 (sc st + c)) (wrap32 (sd st + d)).

Fixpoint blocks (n : nat) (st : state) (bs : list Z) : state :=
  match n with
  | O => st
  | Datatypes.S n' => blocks n' (block st (firstn 64 bs)) (skipn 64 bs)
  end.

Definition pad (msg : list Z) : list Z :=
  let len := Z.of_nat (List.length msg) in
  let zeros := Z.to_nat ((55 - len) mod 64) in
  msg ++ [128] ++ repeat 0 zeros ++ le_bytes 8 ((8 * len) mod 2 ^ 64).

(** The 16 digest bytes. *)
Definition Sum (msg : list Z) : list Z :=
  let p := pad msg in
  let st := blocks (List.length p / 64) init p in
  le_bytes 4 (sa st) ++ le_bytes 4 (sb st) ++ le_bytes 4 (sc st)
  ++ le_bytes 4 (sd st).

End md5.

Definition hex_digit (d : Z) : ascii :=
  if d <? 10 then ascii_of_nat (Z.to_nat (48 + d))
  else ascii_of_nat (Z.to_nat (87 + d)).

(** [fmt.Sprintf("%x", bytes)]: two lower-case hexadecimal digits a byte. *)
Fixpoint sprintf_x (bs : list Z) : string :=
  match bs with
  | [] => EmptyString
  | b :: bs' => String (hex_digit (b / 16)) (String (hex_digit (b mod 16)) (sprintf_x bs'))
  end.

Definition bytes_of (s : string) : list Z :=
  map (fun c => Z.of_nat (nat_of_ascii c)) (list_ascii_of_string s).

(** hash.go, [computeFileHash], applied to [bytes.NewReader([]byte(content))]:
    reading an in-memory reader and seeking it back cannot fail, so the
    error component is always nil and only the digest string is kept. *)
Definition computeFileHash (content : string) : string :=
  sprintf_x (firstn 16 (md5.Sum (bytes_of content))).

(** ** paste.go: random identifiers

    [randfilename] seeds a generator from the clock and draws one letter
    per position with [rand.Intn(len(letterRunes))].  The generator is not
    part of the repository: [draws i] stands for the value it yields at
    the [i]-th call, reduced to the range of [Intn]. *)

Definition letterRunes : string :=
  "abcdefghijklmnopqrstuvwxyzABCDEFGHIJKLMNOPQRSTUVWXYZ".

Definition Intn (draws : nat -> N) (i : nat) (n : nat) : nat :=
  N.to_nat (draws i) mod n.

Definition randfilename (draws : nat -> N) (length : nat) (extension : string) : string :=
  let rune i :=
    match String.get (Intn draws i (String.length letterRunes)) letterRunes with
    | Some c => c
    | None => "a"%char
    end in
  (string_of_list_ascii (map rune (seq 0 length)) ++ extension)%string.

(** ** The models *)

(** [User]; the has-many association [Pastes] is never loaded by the
    services below and is left out. *)
Record User := mkUser {
  uID : N;
  Username : string;
  PasswordHash : string;
  uCreatedAt : time.Time
}.

(** [Paste].  [User_] is the belongs-to association [User], filled by
    [Preload("User")] only; [DeletedAt] is GORM's soft-delete column
    ([None] is the SQL NULL of a live row). *)
Record Paste := mkPaste {
  ID : string;
  Title : string;
  Content : string;
  ContentHash : string;
  Language : string;
  IsPrivate : bool;
  Unlisted : bool;
  ExpiresAt : option time.Time;
  UserID : option N;
  User_ : option User;
  CreatedAt : time.Time;
  UpdatedAt : time.Time;
  DeletedAt : option time.Time
}.

(** Errors are the messages given to [errors.New]; [sqlite_error] is an
    error raised by the store itself. *)
Inductive error : Type :=
| errors_New (msg : string)
| sqlite_error (msg : string).

Inductive result (A : Type) : Type :=
| Ok (a : A)
| Err (e : error).

Arguments Ok {A} a.
Arguments Err {A} e.

(** The two tables the services below touch. *)
Record DB := mkDB {
  users : list User;
  pastes : list Paste
}.

(** ** The GORM calls *)

Module gorm.

(** A row whose [deleted_at] is NULL.  Every query on a model that has a
    [gorm.DeletedAt] field carries this condition. *)
Definition live (p : Paste) : bool :=
  match DeletedAt p with
  | None => true
  | Some _ => false
  end.

(** [ORDER BY id LIMIT 1] over the selected rows. *)
Fixpoint least (rows : list Paste) : option Paste :=
  match rows with
  | [] => None
  | p :: rest =>
      match least rest with
      | None => Some p
      | Some q => if (ID p <=? ID q)%string then Some p else Some q
      end
  end.

Definition Where (cond : Paste -> bool) (t : list Paste) : list Paste :=
  filter (fun p => cond p && live p) t.

(** [db.Where(cond).First(&paste)]; [None] is [ErrRecordNotFound]. *)
Definition First (cond : Paste -> bool) (t : list Paste) : option Paste :=
  least (Where cond t).

(** [db.Create(paste)]: the primary key must be new among all rows,
    tombstoned ones included. *)
Definition Create (p : Paste) (t : list Paste) : result (list Paste) :=
  if existsb (fun q => (ID q =? ID p)%string) t
  then Err (sqlite_error "UNIQUE constraint failed: pastes.id")
  else Ok (t ++ [p])%list.

(** [db.Save(&paste)]: every column of the live row with this primary
    key is overwritten; when no row was updated the value is inserted. *)
Definition Save (p : Paste) (t : list Paste) : list Paste :=
  if existsb (fun q => (ID q =? ID p)%string && live q) t
  then map (fun q => if (ID q =? ID p)%string && live q then p else q) t
  else (t ++ [p])%list.

(** The row with [deleted_at] set. *)
Definition tombstone (now : time.Time) (p : Paste) : Paste :=
  mkPaste (ID p) (Title p) (Content p) (ContentHash p) (Language p)
          (IsPrivate p) (Unlisted p) (ExpiresAt p) (UserID p) (User_ p)
          (CreatedAt p) (UpdatedAt p) (Some now).

(** [db.Where(cond).Delete(&Paste{})]: [Paste] has a [DeletedAt] column,
    so the statement is [UPDATE pastes SET deleted_at = now WHERE cond AND
    deleted_at IS NULL]; the second component is [RowsAffected]. *)
Definition Delete (cond : Paste -> bool) (now : time.Time) (t : list Paste)
  : list Paste * Z :=
  (map (fun p => if cond p && live p then tombstone now p else p) t,
   Z.of_nat (List.length (Where cond t))).

(** [Preload("User")]: the owner row, looked up by [user_id]. *)
Definition Preload_User (us : list User) (p : Paste) : Paste :=
  mkPaste (ID p) (Title p) (Content p) (ContentHash p) (Language p)
          (IsPrivate p) (Unlisted p) (ExpiresAt p) (UserID p)
          (match UserID p with
           | Some u => find (fun x => (uID x =? u)%N) us
           | None => None
           end)
          (CreatedAt p) (UpdatedAt p) (DeletedAt p).

(** [db.Where("username = ?", name).First(&user)]. *)
Definition First_user (name : string) (us : list User) : option User :=
  let sel := filter (fun u => (Username u =? name)%string) us in
  fold_right (fun u acc =>
                match acc with
                | None => Some u
                | Some v => if (uID u <=? uID v)%N then Some u else Some v
                end) None sel.

End gorm.

(** ** paste_service.go *)

Definition eq_user (a : option N) (b : option N) : bool :=
  match a, b with
  | Some x, Some y => (x =? y)%N
  | None, None => true
  | _, _ => false
  end.

(** The condition of the dedup query: [content_hash = ?] and either
    [user_id = ?] or [user_id IS NULL]. *)
Definition same_hash_and_scope (hash : string) (userID : option N) (p : Paste) : bool :=
  (ContentHash p =? hash)%string && eq_user (UserID p) userID.

Definition has_id (pasteID : string) (p : Paste) : bool :=
  (ID p =? pasteID)%string.

Definition MaxPasteSize : Z := Z.shiftl 10 20.

(** The expiration instant: [nil] unless [expiresIn] is given and
    positive, else the clock reading plus that many minutes, the
    product with [time.Minute] being taken in [time.Duration]. *)
Definition expiry (now : time.Time) (expiresIn : option Z) : option time.Time :=
  match expiresIn with
  | Some n => if n >? 0 then Some (time.Add now (time.minutes n)) else None
  | None => None
  end.

Definition CreatePaste (db : DB) (now : time.Time) (draws : nat -> N)
    (title content language : string) (isPrivate unlisted : bool)
    (expiresIn : option Z) (userID : option N) : result Paste * DB :=
  if (String.length content =? 0)%nat then
    (Err (errors_New "paste content cannot be empty"), db)
  else if Z.of_nat (String.length content) >? MaxPasteSize then
    (Err (errors_New "paste too large (max 10MB)"), db)
  else if isPrivate && match userID with None => true | Some _ => false end then
    (Err (errors_New "must be logged in to create private pastes"), db)
  else
    let expiresAt := expiry now expiresIn in
    let hash := computeFileHash content in
    match gorm.First (same_hash_and_scope hash userID) (pastes db) with
    | Some existingPaste => (Ok existingPaste, db)
    | None =>
        let pasteID := randfilename draws 8 "" in
        (* [Language] carries the tag [default:'text']: GORM writes the
           default in place of the zero value; the two timestamps are
           [autoCreateTime] and [autoUpdateTime]. *)
        let paste :=
          mkPaste pasteID title content hash
                  (if (language =? "")%string then "text" else language)
                  isPrivate unlisted expiresAt userID None now now None in
        match gorm.Create paste (pastes db) with
        | Err e => (Err e, db)
        | Ok t => (Ok paste, mkDB (users db) t)
        end
    end.

Definition GetPaste (db : DB) (now : time.Time) (pasteID : string)
    (viewerUserID : option N) : result Paste :=
  match gorm.First (has_id pasteID) (pastes db) with
  | None => Err (errors_New "paste not found")
  | Some row =>
      let paste := gorm.Preload_User (users db) row in
      if match ExpiresAt paste with
         | Some e => time.After now e
         | None => false
         end
      then Err (errors_New "paste not found")
      else if IsPrivate paste
              && match viewerUserID, UserID paste with
                 | Some v, Some o => negb (v =? o)%N
                 | _, _ => true
                 end
      then Err (errors_New "paste not found")
      else Ok paste
  end.

Definition owned_by (userID : N) (p : Paste) : bool :=
  match UserID p with
  | Some o => (o =? userID)%N
  | None => false
  end.

Definition UpdatePaste (db : DB) (now : time.Time)
    (pasteID title content language : string) (unlisted : bool) (userID : N)
    : result Paste * DB :=
  match gorm.First (has_id pasteID) (pastes db) with
  | None => (Err (errors_New "paste not found"), db)
  | Some paste =>
      if negb (owned_by userID paste) then
        (Err (errors_New "you can only edit your own pastes"), db)
      else
        let hash := computeFileHash content in
        let paste' :=
          mkPaste (ID paste) title content hash language (IsPrivate paste)
                  unlisted (ExpiresAt paste) (UserID paste) (User_ paste)
                  (CreatedAt paste) now (DeletedAt paste) in
        (Ok paste', mkDB (users db) (gorm.Save paste' (pastes db)))
  end.

(** [DeletePaste] returns only an error; [None] is its nil. *)
Definition DeletePaste (db : DB) (now : time.Time) (pasteID : string) (userID : N)
    : option error * DB :=
  match gorm.First (has_id pasteID) (pastes db) with
  | None => (Some (errors_New "paste not found"), db)
  | Some paste =>
      if negb (owned_by userID paste) then
        (Some (errors_New "you can only delete your own pastes"), db)
      else
        (None, mkDB (users db) (fst (gorm.Delete (has_id (ID paste)) now (pastes db))))
  end.

(** [expires_at IS NOT NULL AND expires_at < now]. *)
Definition expired_before (now : time.Time) (p : Paste) : bool :=
  match ExpiresAt p with
  | Some e => e <? now
  | None => false
  end.

Definition CleanupExpiredPastes (db : DB) (now : time.Time) : Z * DB :=
  let '(t, rowsAffected) := gorm.Delete (expired_before now) now (pastes db) in
  (rowsAffected, mkDB (users db) t).

(** ** The authentication service: [Login] *)

Section Auth.

(** [bcrypt.CompareHashAndPassword(hash, password)]; [true] stands for
    the nil error of a matching password. *)
Variable CompareHashAndPassword : string -> string -> bool.

Definition Login (db : DB) (username password : string) : result User :=
  match gorm.First_user username (users db) with
  | None => Err (errors_New "invalid username or password")
  | Some user =>
      if negb (CompareHashAndPassword (PasswordHash user) password)
      then Err (errors_New "invalid username or password")
      else Ok user
  end.

End Auth.

(** ** Predicates used to state the properties *)

(** The primary-key constraint of the [pastes] table. *)
Definition unique_ids (t : list Paste) : Prop := NoDup (map ID t).

(** The three checks at the head of [CreatePaste]. *)
Definition passes_validation (content : string) (isPrivate : bool)
    (userID : option N) : Prop :=
  String.length content <> 0%nat
  /\ Z.of_nat (String.length content) <= MaxPasteSize
  /\ (isPrivate = true -> userID <> None).

(** The errors those checks return. *)
Definition ValidationError (e : error) : Prop :=
  e = errors_New "paste content cannot be empty"
  \/ e = errors_New "paste too large (max 10MB)"
  \/ e = errors_New "must be logged in to create private pastes".

(** A viewer who is not the owner of [p]; the anonymous viewer is none. *)
Definition not_owner (viewerUserID : option N) (p : Paste) : Prop :=
  match viewerUserID, UserID p with
  | Some v, Some o => v <> o
  | _, _ => True
  end.

(** Every private row has an owner. *)
Definition owned_if_private (p : Paste) : Prop :=
  IsPrivate p = true -> UserID p <> None.

Definition private_has_owner (db : DB) : Prop :=
  forall p, In p (pastes db) -> owned_if_private p.

(** One call of a writing operation of the paste service. *)
Inductive step (db : DB) : DB -> Prop :=
| step_create now draws title content language isPrivate unlisted expiresIn userID :
    step db (snd (CreatePaste db now draws title content language isPrivate
                              unlisted expiresIn userID))
| step_update now pasteID title content language unlisted userID :
    step db (snd (UpdatePaste db now pasteID title content language unlisted userID))
| step_delete now pasteID userID :
    step db (snd (DeletePaste db now pasteID userID))
| step_cleanup now :
    step db (snd (CleanupExpiredPastes db now)).

(** The stores that calls of the service build from an empty [pastes]
    table, whatever the [users] table holds. *)
Inductive reachable : DB -> Prop :=
| reachable_new us : reachable (mkDB us [])
| reachable_step db db' : reachable db -> step db db' -> reachable db'.

(** A live paste with the fingerprint of [content] is stored in the owner
    scope [userID]: what the deduplication query of [CreatePaste] selects
    from. *)
Definition stored_in_scope (db : DB) (content : string) (userID : option N) : Prop :=
  exists p,
    In p (pastes db) /\ gorm.live p = true
    /\ ContentHash p = computeFileHash content /\ UserID p = userID.

(** The reading of "if a paste with the fingerprint already exists in the
    scope then Create returns that existing paste": in every store the
    service can build, whatever the other arguments of the call. *)
Definition create_returns_existing : Prop :=
  forall db now draws title content language isPrivate unlisted expiresIn userID,
    reachable db ->
    stored_in_scope db content userID ->
    exists q,
      In q (pastes db)
      /\ fst (CreatePaste db now draws title content language isPrivate unlisted
                          expiresIn userID) = Ok q.

(** The reading of "the sweep purges": no row of an expired paste is left
    in the table. *)
Definition sweep_purges : Prop :=
  forall db now p,
    In p (pastes db) -> expired_before now p = true ->
    ~ In (ID p) (map ID (pastes (snd (CleanupExpiredPastes db now)))).

(** ** Sample data for the checked examples *)

Definition alice : N := 1.
Definition bob : N := 2.

Definition alice_row : User := mkUser alice "alice" "$2a$10$alice" 0.
Definition bob_row : User := mkUser bob "bob" "$2a$10$bob" 0.

(** Generators that always draw the same letter: identifiers
    [aaaaaaaa], [bbbbbbbb] and [cccccccc]. *)
Definition draws_a : nat -> N := fun _ => 0%N.
Definition draws_b : nat -> N := fun _ => 1%N.
Definition draws_c : nat -> N := fun _ => 2%N.

(** 2025-10-31 00:00:00 UTC, in nanoseconds. *)
Definition t0 : time.Time := 1761868800000000000.

Definition one_hour : time.Duration := 60 * time.Minute.

Definition registered : DB := mkDB [alice_row; bob_row] [].

(** An anonymous public paste. *)
Definition store_hello : DB :=
  snd (CreatePaste registered t0 draws_a "" "hello" "text" false false None None).

(** Alice adds a private paste. *)
Definition store_secret : DB :=
  snd (CreatePaste store_hello t0 draws_b "diary" "secret" "text" true false None
                   (Some alice)).

(** Alice adds a public paste that expires after ten minutes. *)
Definition store_short : DB :=
  snd (CreatePaste store_secret t0 draws_c "note" "short-lived" "text" false false
                   (Some 10) (Some alice)).

(** Alice empties her private paste: [UpdatePaste] checks no content. *)
Definition store_emptied : DB :=
  snd (UpdatePaste store_secret (t0 + one_hour) "bbbbbbbb" "diary" "" "text" false
                   alice).

(** A stand-in for bcrypt in the checked examples: the hash of [pw] is
    [pw] behind the prefix of the sample rows. *)
Definition sample_compare (hash password : string) : bool :=
  (hash =? "$2a$10$" ++ password)%string.

(** * The other service methods

    The remaining methods of [paste_service.go], and the authentication,
    API-key and administration services with the lookup of the current
    user that sits on them. *)

(** ** Tables without a soft-delete column

    [Session], [APIKey], [Admin] and [User] have no [DeletedAt] field:
    their queries carry no extra condition and their deletes remove rows. *)

Module sql.

Section Table.

Variable Row : Type.

(** The order of the primary keys. *)
Variable key_le : Row -> Row -> bool.

Fixpoint least (rows : list Row) : option Row :=
  match rows with
  | [] => None
  | r :: rest =>
      match least rest with
      | None => Some r
      | Some q => if key_le r q then Some r else Some q
      end
  end.

(** [db.Where(cond).First(&row)]. *)
Definition First (cond : Row -> bool) (t : list Row) : option Row :=
  least (filter cond t).

(** [db.Where(cond).Delete(&Row{})], with [RowsAffected]. *)
Definition Delete (cond : Row -> bool) (t : list Row) : list Row * Z :=
  (filter (fun r => negb (cond r)) t, Z.of_nat (List.length (filter cond t))).

Variable created_at : Row -> time.Time.

Fixpoint insert_desc (x : Row) (rows : list Row) : list Row :=
  match rows with
  | [] => [x]
  | y :: rest =>
      if created_at y <=? created_at x then x :: y :: rest
      else y :: insert_desc x rest
  end.

(** [Order("created_at DESC")].  SQL leaves the order of rows with equal
    timestamps open; here they keep their table order. *)
Definition Order_created_at_DESC (rows : list Row) : list Row :=
  fold_right insert_desc [] rows.

End Table.

Arguments least {Row} key_le rows.
Arguments First {Row} key_le cond t.
Arguments Delete {Row} cond t.
Arguments insert_desc {Row} created_at x rows.
Arguments Order_created_at_DESC {Row} created_at rows.

(** The key an [AUTOINCREMENT] column gets: one more than the largest key
    the table holds or has ever held ([seq] is its [sqlite_sequence]). *)
Definition next_id (ids : list N) (seq : N) : N :=
  (N.max (fold_right N.max 0 ids) seq + 1)%N.

End sql.

(** ** The rest of paste_service.go *)

Definition GetUserPastes (db : DB) (userID : N) : list Paste :=
  sql.Order_created_at_DESC CreatedAt (gorm.Where (owned_by userID) (pastes db)).

Definition CanEdit (db : DB) (pasteID : string) (userID : N) : bool :=
  match gorm.First (fun p => has_id pasteID p && owned_by userID p) (pastes db) with
  | None => false
  | Some _ => true
  end.

(** [is_private = false AND unlisted = false]. *)
Definition public_listed (p : Paste) : bool :=
  negb (IsPrivate p) && negb (Unlisted p).

Definition GetAllPublicPastes (db : DB) : list Paste :=
  map (gorm.Preload_User (users db))
      (sql.Order_created_at_DESC CreatedAt (gorm.Where public_listed (pastes db))).

(** ** More models *)

(** The zero [time.Time], 0001-01-01 00:00:00 UTC. *)
Definition zero_Time : time.Time := -62135596800000000000.

(** The zero [User], what a struct-valued association holds when
    [Preload] finds no row. *)
Definition zero_User : User := mkUser 0 "" "" zero_Time.

Record Session := mkSession {
  sID : string;
  sUserID : N;
  sUser : User;
  sExpiresAt : time.Time;
  sCreatedAt : time.Time
}.

Record APIKey := mkAPIKey {
  kID : N;
  Key : string;
  Name : string;
  kUserID : N;
  kUser : User;
  kExpiresAt : option time.Time;
  LastUsed : option time.Time;
  kCreatedAt : time.Time
}.

Record Admin := mkAdmin {
  aID : N;
  aUserID : N;
  aUser : User;
  aCreatedAt : time.Time
}.

(** The whole database: the two tables of [DB], the three others, and
    the [sqlite_sequence] entries of the auto-increment keys. *)
Record Store := mkStore {
  base : DB;
  users_seq : N;
  sessions : list Session;
  api_keys : list APIKey;
  api_keys_seq : N;
  admins : list Admin;
  admins_seq : N
}.

Definition set_base (st : Store) (b : DB) : Store :=
  mkStore b (users_seq st) (sessions st) (api_keys st) (api_keys_seq st)
          (admins st) (admins_seq st).

Definition set_sessions (st : Store) (ss : list Session) : Store :=
  mkStore (base st) (users_seq st) ss (api_keys st) (api_keys_seq st)
          (admins st) (admins_seq st).

Definition set_api_keys (st : Store) (ks : list APIKey) (seq : N) : Store :=
  mkStore (base st) (users_seq st) (sessions st) ks seq (admins st) (admins_seq st).

Definition set_admins (st : Store) (ads : list Admin) (seq : N) : Store :=
  mkStore (base st) (users_seq st) (sessions st) (api_keys st) (api_keys_seq st)
          ads seq.

(** [Preload("User")] into a struct-valued field. *)
Definition preload_user (us : list User) (userID : N) : User :=
  match find (fun x => (uID x =? userID)%N) us with
  | Some u => u
  | None => zero_User
  end.

(** [crypto/rand.Read] into a buffer of [n] bytes: the source either
    fails or yields the bytes. *)
Definition rand_Read (src : result (nat -> N)) (n : nat) : result (list Z) :=
  match src with
  | Err e => Err e
  | Ok f => Ok (map (fun i => Z.of_N (f i) mod 256) (seq 0 n))
  end.

(** ** The authentication service: registration and sessions *)

Module base64.

Definition encodeURL : string :=
  "ABCDEFGHIJKLMNOPQRSTUVWXYZabcdefghijklmnopqrstuvwxyz0123456789-_".

Definition digit (d : Z) : ascii :=
  match String.get (Z.to_nat d) encodeURL with
  | Some c => c
  | None => "="%char
  end.

(** [base64.URLEncoding.EncodeToString]: three bytes give four digits,
    a shorter tail is padded with [=]. *)
Fixpoint EncodeToString (src : list Z) : string :=
  match src with
  | a :: b :: c :: rest =>
      String (digit (a / 4))
        (String (digit (a mod 4 * 16 + b / 16))
           (String (digit (b mod 16 * 4 + c / 64))
              (String (digit (c mod 64)) (EncodeToString rest))))
  | [a; b] =>
      String (digit (a / 4))
        (String (digit (a mod 4 * 16 + b / 16))
           (String (digit (b mod 16 * 4)) "="))
  | [a] =>
      String (digit (a / 4)) (String (digit (a mod 4 * 16)) "==")
  | [] => ""
  end.

End base64.

Definition generateSessionID (src : result (nat -> N)) : result string :=
  match rand_Read src 32 with
  | Err e => Err e
  | Ok b => Ok (base64.EncodeToString b)
  end.

(** [30 * 24 * time.Hour]. *)
Definition session_lifetime : time.Duration := 30 * 24 * (60 * time.Minute).

Section AuthService.

(** [bcrypt.GenerateFromPassword(password, bcrypt.DefaultCost)]; the first
    argument stands for the salt it draws. *)
Variable GenerateFromPassword : string -> string -> result string.

Definition Register (st : Store) (now : time.Time) (salt : string)
    (username password : string) : result User * Store :=
  if (String.length username <? 3)%nat || (50 <? String.length username)%nat then
    (Err (errors_New "username must be between 3 and 50 characters"), st)
  else if (String.length password <? 6)%nat then
    (Err (errors_New "password must be at least 6 characters"), st)
  else
    match GenerateFromPassword salt password with
    | Err e => (Err e, st)
    | Ok hashedPassword =>
        (* [Username] carries a unique index; any failure of the insert
           is reported as an existing username. *)
        if existsb (fun u => (Username u =? username)%string) (users (base st))
        then (Err (errors_New "username already exists"), st)
        else
          let id := sql.next_id (map uID (users (base st))) (users_seq st) in
          let user := mkUser id username hashedPassword now in
          (Ok user,
           mkStore (mkDB (users (base st) ++ [user]) (pastes (base st))) id
                   (sessions st) (api_keys st) (api_keys_seq st)
                   (admins st) (admins_seq st))
    end.

End AuthService.

Definition CreateSession (st : Store) (now : time.Time) (src : result (nat -> N))
    (userID : N) : result Session * Store :=
  match generateSessionID src with
  | Err e => (Err e, st)
  | Ok sessionID =>
      let session :=
        mkSession sessionID userID zero_User (time.Add now session_lifetime) now in
      if existsb (fun s => (sID s =? sessionID)%string) (sessions st)
      then (Err (sqlite_error "UNIQUE constraint failed: sessions.id"), st)
      else (Ok session, set_sessions st (sessions st ++ [session]))
  end.

Definition session_le (a b : Session) : bool := (sID a <=? sID b)%string.

(** [id = ? AND expires_at > ?]. *)
Definition valid_session (sessionID : string) (now : time.Time) (s : Session) : bool :=
  (sID s =? sessionID)%string && (now <? sExpiresAt s).

Definition GetSession (st : Store) (now : time.Time) (sessionID : string)
    : result Session :=
  match sql.First session_le (valid_session sessionID now) (sessions st) with
  | None => Err (errors_New "invalid or expired session")
  | Some s =>
      Ok (mkSession (sID s) (sUserID s) (preload_user (users (base st)) (sUserID s))
                    (sExpiresAt s) (sCreatedAt s))
  end.

(** [DeleteSession] returns the error of the delete, which is nil. *)
Definition DeleteSession (st : Store) (sessionID : string) : Store :=
  set_sessions st
    (fst (sql.Delete (fun s => (sID s =? sessionID)%string) (sessions st))).

Definition CleanupExpiredSessions (st : Store) (now : time.Time) : Z * Store :=
  let '(ss, rowsAffected) :=
    sql.Delete (fun s => sExpiresAt s <? now) (sessions st) in
  (rowsAffected, set_sessions st ss).

(** ** apikey_service.go *)

(** [hex.EncodeToString] prints as [%x] does. *)
Definition hex_EncodeToString (bs : list Z) : string := sprintf_x bs.

Definition apikey_le (a b : APIKey) : bool := (kID a <=? kID b)%N.

Section APIKeyService.

(** [t.AddDate(0, 0, days)], calendar arithmetic in the zone of [t]. *)
Variable AddDate_days : time.Time -> Z -> time.Time.

Definition CreateAPIKey (st : Store) (now : time.Time) (src : result (nat -> N))
    (userID : N) (name : string) (expiresInDays : option Z)
    : result APIKey * Store :=
  match rand_Read src 32 with
  | Err e => (Err e, st)
  | Ok keyBytes =>
      let keyString := ("pb_" ++ hex_EncodeToString keyBytes)%string in
      let expiresAt :=
        match expiresInDays with
        | Some d => if d >? 0 then Some (AddDate_days now d) else None
        | None => None
        end in
      if existsb (fun k => (Key k =? keyString)%string) (api_keys st)
      then (Err (sqlite_error "UNIQUE constraint failed: api_keys.key"), st)
      else
        let id := sql.next_id (map kID (api_keys st)) (api_keys_seq st) in
        let apiKey := mkAPIKey id keyString name userID zero_User expiresAt None now in
        (Ok apiKey, set_api_keys st (api_keys st ++ [apiKey]) id)
  end.

End APIKeyService.

(** [db.Model(&apiKey).Update("last_used", now)]. *)
Definition touch (keyID : N) (now : time.Time) (k : APIKey) : APIKey :=
  if (kID k =? keyID)%N
  then mkAPIKey (kID k) (Key k) (Name k) (kUserID k) (kUser k) (kExpiresAt k)
                (Some now) (kCreatedAt k)
  else k.

Definition ValidateAPIKey (st : Store) (now : time.Time) (keyString : string)
    : result User * Store :=
  match sql.First apikey_le (fun k => (Key k =? keyString)%string) (api_keys st) with
  | None => (Err (errors_New "invalid API key"), st)
  | Some apiKey =>
      if match kExpiresAt apiKey with
         | Some e => time.After now e
         | None => false
         end
      then (Err (errors_New "API key expired"), st)
      else
        (Ok (preload_user (users (base st)) (kUserID apiKey)),
         set_api_keys st (map (touch (kID apiKey) now) (api_keys st))
                      (api_keys_seq st))
  end.

Definition GetUserAPIKeys (st : Store) (userID : N) : list APIKey :=
  sql.Order_created_at_DESC kCreatedAt
    (filter (fun k => (kUserID k =? userID)%N) (api_keys st)).

Definition DeleteAPIKey (st : Store) (keyID userID : N) : option error * Store :=
  let '(ks, rowsAffected) :=
    sql.Delete (fun k => (kID k =? keyID)%N && (kUserID k =? userID)%N)
               (api_keys st) in
  if rowsAffected =? 0 then (Some (errors_New "API key not found"), st)
  else (None, set_api_keys st ks (api_keys_seq st)).

(** ** The administration service *)

Definition admin_le (a b : Admin) : bool := (aID a <=? aID b)%N.

Definition IsAdmin (st : Store) (userID : N) : bool :=
  match sql.First admin_le (fun a => (aUserID a =? userID)%N) (admins st) with
  | Some _ => true
  | None => false
  end.

(** [MakeAdmin] returns the error of the insert; [user_id] carries a
    unique index. *)
Definition MakeAdmin (st : Store) (now : time.Time) (userID : N)
    : option error * Store :=
  if existsb (fun a => (aUserID a =? userID)%N) (admins st)
  then (Some (sqlite_error "UNIQUE constraint failed: admins.user_id"), st)
  else
    let id := sql.next_id (map aID (admins st)) (admins_seq st) in
    (None, set_admins st (admins st ++ [mkAdmin id userID zero_User now]) id).

Definition RemoveAdmin (st : Store) (userID : N) : option error * Store :=
  let '(ads, rowsAffected) :=
    sql.Delete (fun a => (aUserID a =? userID)%N) (admins st) in
  if rowsAffected =? 0 then (Some (errors_New "user is not an admin"), st)
  else (None, set_admins st ads (admins_seq st)).

(** [DeleteUser]: sessions, API keys and admin marker are removed, the
    pastes are tombstoned ([Paste] has the soft-delete column), then the
    user row is removed; the result depends on that last delete only.
    SQLite enforces no foreign key unless asked to, and the connection
    string does not ask. *)
Definition DeleteUser (st : Store) (now : time.Time) (userID : N)
    : option error * Store :=
  let ss := fst (sql.Delete (fun s => (sUserID s =? userID)%N) (sessions st)) in
  let ks := fst (sql.Delete (fun k => (kUserID k =? userID)%N) (api_keys st)) in
  let ps := fst (gorm.Delete (owned_by userID) now (pastes (base st))) in
  let ads := fst (sql.Delete (fun a => (aUserID a =? userID)%N) (admins st)) in
  let '(us, rowsAffected) :=
    sql.Delete (fun u => (uID u =? userID)%N) (users (base st)) in
  let st' :=
    mkStore (mkDB us ps) (users_seq st) ss ks (api_keys_seq st) ads (admins_seq st) in
  if rowsAffected =? 0 then (Some (errors_New "user not found"), st')
  else (None, st').

(** ** auth_handlers.go: the current user of a request

    [authorization] is the value of the [Authorization] header (empty
    when the header is absent) and [cookie] the value of the [session]
    cookie. *)

Definition TrimPrefix_Bearer (s : string) : string :=
  if String.prefix "Bearer " s
  then String.substring 7 (String.length s - 7) s
  else s.

Definition getCurrentUser (st : Store) (now : time.Time) (authorization : string)
    (cookie : option string) : option User * Store :=
  let by_cookie :=
    match cookie with
    | None => None
    | Some value =>
        match GetSession st now value with
        | Err _ => None
        | Ok session => Some (sUser session)
        end
    end in
  if (authorization =? "")%string then (by_cookie, st)
  else
    match ValidateAPIKey st now (TrimPrefix_Bearer authorization) with
    | (Ok user, st') => (Some user, st')
    | (Err _, _) => (by_cookie, st)
    end.

(** ** Predicates used to state the other properties *)

(** Who may read [p]: anyone when it is public, its owner otherwise. *)
Definition may_read (viewerUserID : option N) (p : Paste) : Prop :=
  IsPrivate p = false
  \/ exists u, viewerUserID = Some u /\ UserID p = Some u.

(** The letters of [letterRunes]. *)
Definition is_letter (c : ascii) : Prop :=
  In c (list_ascii_of_string letterRunes).

(** The digits [%x] prints. *)
Definition is_hex_digit (c : ascii) : Prop :=
  In c (list_ascii_of_string "0123456789abcdef").

(** * Properties *)

Example md5_empty : computeFileHash "" = "d41d8cd98f00b204e9800998ecf8427e".
Proof. vm_compute. reflexivity. Qed.

Example md5_abc : computeFileHash "abc" = "900150983cd24fb0d6963f7d28e17f72".
Proof. vm_compute. reflexivity. Qed.

Example md5_long :
  computeFileHash "12345678901234567890123456789012345678901234567890123456789012345678901234567890"
  = "57edf4a22be3c955ac49da2e2107b67a".
Proof. vm_compute. reflexivity. Qed.

(** ** Facts about the GORM calls *)

Section StoreFacts.

Import gorm.

Lemma least_In rows p : least rows = Some p -> In p rows.
Proof.
  revert p; induction rows as [|r rest IH]; simpl; intros p H; [discriminate|].
  destruct (least rest) as [q|] eqn:E.
  - destruct (ID r <=? ID q)%string; injection H as <-; auto.
  - injection H as <-; auto.
Qed.

Lemma least_nil rows : least rows = None -> rows = [].
Proof.
  destruct rows as [|r rest]; simpl; [reflexivity|].
  destruct (least rest) as [q|]; [destruct (ID r <=? ID q)%string|]; discriminate.
Qed.

Lemma Where_In cond t p :
  In p (Where cond t) <-> In p t /\ cond p = true /\ live p = true.
Proof.
  unfold Where. rewrite filter_In, andb_true_iff. tauto.
Qed.

Lemma First_Some cond t p :
  First cond t = Some p -> In p t /\ cond p = true /\ live p = true.
Proof. intros H. apply Where_In, least_In, H. Qed.

Lemma First_None cond t p :
  First cond t = None -> In p t -> cond p = true -> live p = false.
Proof.
  intros H Hin Hc. apply least_nil in H.
  destruct (live p) eqn:L; [|reflexivity].
  assert (In p (Where cond t)) as Hw by (apply Where_In; auto).
  rewrite H in Hw. destruct Hw.
Qed.

Lemma First_found cond t p :
  In p t -> cond p = true -> live p = true -> exists q, First cond t = Some q.
Proof.
  intros Hin Hc Hl. destruct (First cond t) as [q|] eqn:E; [eauto|].
  rewrite (First_None _ _ _ E Hin Hc) in Hl. discriminate.
Qed.

Lemma unique_ids_inj t p q :
  unique_ids t -> In p t -> In q t -> ID p = ID q -> p = q.
Proof.
  unfold unique_ids. induction t as [|r t IH]; simpl; [tauto|].
  intros Hnd Hp Hq Heq. inversion Hnd as [|? ? Hnotin Hnd']; subst.
  destruct Hp as [->|Hp], Hq as [->|Hq]; auto.
  - exfalso. apply Hnotin. rewrite Heq. now apply in_map.
  - exfalso. apply Hnotin. rewrite <- Heq. now apply in_map.
Qed.

(** A lookup by primary key finds the live row that carries the key. *)
Lemma First_by_id t p :
  unique_ids t -> In p t -> live p = true -> First (has_id (ID p)) t = Some p.
Proof.
  intros Hu Hin Hl.
  destruct (First_found (has_id (ID p)) t p Hin) as [q Hq]; auto.
  - apply String.eqb_refl.
  - rewrite Hq. f_equal.
    destruct (First_Some _ _ _ Hq) as (Hqin & Hid & _).
    apply String.eqb_eq in Hid. eapply unique_ids_inj; eauto.
Qed.

Lemma First_by_id_tombstoned t p :
  unique_ids t -> In p t -> live p = false -> First (has_id (ID p)) t = None.
Proof.
  intros Hu Hin Hl. destruct (First (has_id (ID p)) t) as [q|] eqn:E; [|reflexivity].
  destruct (First_Some _ _ _ E) as (Hqin & Hid & Hql).
  apply String.eqb_eq in Hid.
  rewrite (unique_ids_inj _ _ _ Hu Hqin Hin Hid) in Hql. congruence.
Qed.

Lemma First_absent t pasteID :
  (forall q, In q t -> ID q <> pasteID) -> First (has_id pasteID) t = None.
Proof.
  intros Habs. destruct (First (has_id pasteID) t) as [q|] eqn:E; [|reflexivity].
  destruct (First_Some _ _ _ E) as (Hqin & Hid & _).
  apply String.eqb_eq in Hid. destruct (Habs q Hqin Hid).
Qed.

Lemma Where_app cond t u : Where cond (t ++ u) = Where cond t ++ Where cond u.
Proof. apply filter_app. Qed.

Lemma existsb_id_false t (pasteID : string) :
  existsb (fun q => (ID q =? pasteID)%string) t = false ->
  ~ In pasteID (map ID t).
Proof.
  intros H Hin. apply in_map_iff in Hin as (q & Hid & Hq).
  assert (existsb (fun q => (ID q =? pasteID)%string) t = true) as Ht.
  { apply existsb_exists. exists q. split; [assumption|]. now apply String.eqb_eq. }
  congruence.
Qed.

End StoreFacts.

Lemma eq_user_eq a b : eq_user a b = true <-> a = b.
Proof.
  destruct a, b; simpl; try (split; [discriminate|congruence]).
  - rewrite N.eqb_eq. split; congruence.
  - tauto.
Qed.

(** The head of [CreatePaste] lets a valid call through to the lookup. *)
Lemma CreatePaste_valid db now draws title content language isPrivate unlisted
    expiresIn userID :
  passes_validation content isPrivate userID ->
  CreatePaste db now draws title content language isPrivate unlisted expiresIn userID
  = match gorm.First (same_hash_and_scope (computeFileHash content) userID) (pastes db) with
    | Some existingPaste => (Ok existingPaste, db)
    | None =>
        let paste :=
          mkPaste (randfilename draws 8 "") title content (computeFileHash content)
                  (if (language =? "")%string then "text" else language)
                  isPrivate unlisted (expiry now expiresIn) userID None now now None in
        match gorm.Create paste (pastes db) with
        | Err e => (Err e, db)
        | Ok t => (Ok paste, mkDB (users db) t)
        end
    end.
Proof.
  intros (Hne & Hle & Hpriv). unfold CreatePaste.
  destruct (String.length content =? 0)%nat eqn:E0.
  { apply Nat.eqb_eq in E0. contradiction. }
  destruct (Z.of_nat (String.length content) >? MaxPasteSize) eqn:E1.
  { apply Z.gtb_lt in E1. lia. }
  destruct isPrivate, userID; simpl; try reflexivity.
  now destruct Hpriv.
Qed.

(** A call that returns a paste had passed the checks. *)
Lemma CreatePaste_Ok_valid db now draws title content language isPrivate unlisted
    expiresIn userID p db' :
  CreatePaste db now draws title content language isPrivate unlisted expiresIn userID
  = (Ok p, db') ->
  passes_validation content isPrivate userID.
Proof.
  unfold CreatePaste, passes_validation.
  destruct (String.length content =? 0)%nat eqn:E0; [discriminate|].
  destruct (Z.of_nat (String.length content) >? MaxPasteSize) eqn:E1; [discriminate|].
  destruct isPrivate, userID; simpl; try discriminate; intros _;
    apply Nat.eqb_neq in E0;
    (assert (Z.of_nat (String.length content) <= MaxPasteSize)
      by (destruct (Z.gtb_spec (Z.of_nat (String.length content)) MaxPasteSize);
          [discriminate | lia]));
    repeat split; auto; congruence.
Qed.

(** The two ways [CreatePaste] returns a paste: the dedup query found it,
    or it is the row just appended under a new primary key. *)
Lemma CreatePaste_Ok_cases db now draws title content language isPrivate unlisted
    expiresIn userID p db' :
  CreatePaste db now draws title content language isPrivate unlisted expiresIn userID
  = (Ok p, db') ->
  (gorm.First (same_hash_and_scope (computeFileHash content) userID) (pastes db) = Some p
   /\ db' = db)
  \/ (gorm.First (same_hash_and_scope (computeFileHash content) userID) (pastes db) = None
      /\ pastes db' = pastes db ++ [p] /\ users db' = users db
      /\ ~ In (ID p) (map ID (pastes db))
      /\ ContentHash p = computeFileHash content /\ UserID p = userID
      /\ gorm.live p = true
      /\ p = mkPaste (randfilename draws 8 "") title content (computeFileHash content)
                     (if (language =? "")%string then "text" else language)
                     isPrivate unlisted (expiry now expiresIn) userID None now now
                     None).
Proof.
  intros H. pose proof (CreatePaste_Ok_valid _ _ _ _ _ _ _ _ _ _ _ _ H) as Hv.
  rewrite (CreatePaste_valid db now draws title content language isPrivate unlisted
             expiresIn userID Hv) in H.
  destruct (gorm.First _ (pastes db)) as [q|] eqn:E.
  - left. injection H as -> ->. auto.
  - right. cbv zeta in H. unfold gorm.Create in H.
    destruct (existsb _ (pastes db)) eqn:Ex; [discriminate|].
    injection H as <- <-. simpl.
    apply existsb_id_false in Ex. simpl in Ex. repeat split; auto.
Qed.

Lemma same_hash_and_scope_true hash userID p :
  same_hash_and_scope hash userID p = true <->
  ContentHash p = hash /\ UserID p = userID.
Proof.
  unfold same_hash_and_scope.
  rewrite andb_true_iff, String.eqb_eq, eq_user_eq. tauto.
Qed.

(** A call that fails leaves the store alone. *)
Lemma CreatePaste_Err_store db now draws title content language isPrivate unlisted
    expiresIn userID e db' :
  CreatePaste db now draws title content language isPrivate unlisted expiresIn userID
  = (Err e, db') ->
  db' = db.
Proof.
  unfold CreatePaste.
  destruct (String.length content =? 0)%nat; [congruence|].
  destruct (Z.of_nat (String.length content) >? MaxPasteSize); [congruence|].
  destruct (isPrivate && _); [congruence|].
  destruct (gorm.First _ _); [congruence|].
  destruct (gorm.Create _ _); congruence.
Qed.

Lemma CreatePaste_keeps_unique db now draws title content language isPrivate
    unlisted expiresIn userID :
  unique_ids (pastes db) ->
  unique_ids (pastes (snd (CreatePaste db now draws title content language
                                       isPrivate unlisted expiresIn userID))).
Proof.
  intros Hu.
  destruct (CreatePaste db now draws title content language isPrivate unlisted
              expiresIn userID) as [[p|e] db'] eqn:E; simpl.
  - destruct (CreatePaste_Ok_cases _ _ _ _ _ _ _ _ _ _ _ _ E)
      as [[_ ->] | (_ & Hps & _ & Hfresh & _)]; [assumption|].
    unfold unique_ids. rewrite Hps, map_app. simpl.
    apply NoDup_app; [assumption | repeat constructor; simpl; tauto |].
    intros x Hx [<-|[]]. contradiction.
  - now rewrite (CreatePaste_Err_store _ _ _ _ _ _ _ _ _ _ _ _ E).
Qed.

Lemma Save_ids p t :
  existsb (fun q => (ID q =? ID p)%string && gorm.live q) t = true ->
  map ID (gorm.Save p t) = map ID t.
Proof.
  intros H. unfold gorm.Save. rewrite H, map_map. apply map_ext. intros q.
  destruct (ID q =? ID p)%string eqn:E; simpl; [|reflexivity].
  apply String.eqb_eq in E. now destruct (gorm.live q).
Qed.

Lemma Delete_ids cond now t : map ID (fst (gorm.Delete cond now t)) = map ID t.
Proof.
  simpl. rewrite map_map. apply map_ext. intros p.
  now destruct (cond p && gorm.live p).
Qed.

(** The writing calls respect the primary key. *)
Lemma step_keeps_unique db db' :
  unique_ids (pastes db) -> step db db' -> unique_ids (pastes db').
Proof.
  intros Hu Hstep. destruct Hstep.
  - now apply CreatePaste_keeps_unique.
  - unfold UpdatePaste. destruct (gorm.First _ _) as [old|] eqn:E; [|assumption].
    destruct (owned_by userID old); simpl; [|assumption].
    unfold unique_ids. rewrite Save_ids; [assumption|].
    destruct (First_Some _ _ _ E) as (Hin & Hid & Hl).
    apply existsb_exists. exists old. split; [assumption|].
    simpl. now rewrite String.eqb_refl, Hl.
  - unfold DeletePaste. destruct (gorm.First _ _) as [old|]; [|assumption].
    destruct (negb (owned_by userID old)); [assumption|].
    unfold unique_ids. cbn [pastes snd]. now rewrite Delete_ids.
  - unfold CleanupExpiredPastes, unique_ids.
    pose proof (Delete_ids (expired_before now) now (pastes db)) as Hids.
    destruct (gorm.Delete (expired_before now) now (pastes db)) as [t n].
    simpl in *. now rewrite Hids.
Qed.

Lemma reachable_unique_ids db : reachable db -> unique_ids (pastes db).
Proof.
  induction 1 as [us | db db' _ IH Hstep].
  - constructor.
  - exact (step_keeps_unique db db' IH Hstep).
Qed.

(** Content that fails the checks of Create is refused by Create. *)
Lemma CreatePaste_rejects db now draws title content language isPrivate unlisted
    expiresIn userID :
  ~ passes_validation content isPrivate userID ->
  exists e,
    CreatePaste db now draws title content language isPrivate unlisted expiresIn userID
    = (Err e, db) /\ ValidationError e.
Proof.
  intros Hnv. unfold CreatePaste, ValidationError.
  destruct (String.length content =? 0)%nat eqn:E0.
  { eexists; split; [reflexivity | left; reflexivity]. }
  destruct (Z.of_nat (String.length content) >? MaxPasteSize) eqn:E1.
  { eexists; split; [reflexivity | right; left; reflexivity]. }
  destruct (isPrivate && _) eqn:E2.
  { eexists; split; [reflexivity | right; right; reflexivity]. }
  exfalso. apply Hnv. apply Nat.eqb_neq in E0.
  repeat split; [assumption | |].
  - destruct (Z.gtb_spec (Z.of_nat (String.length content)) MaxPasteSize);
      [discriminate | lia].
  - intros -> ->. discriminate.
Qed.

(** ** C1: deduplication per owner scope *)

Lemma existsb_id_true t (pasteID : string) :
  In pasteID (map ID t) ->
  existsb (fun q => (ID q =? pasteID)%string) t = true.
Proof.
  intros Hin. apply in_map_iff in Hin as (q & Hid & Hq).
  apply existsb_exists. exists q. split; [assumption|]. now apply String.eqb_eq.
Qed.

Lemma existsb_id_fresh t (pasteID : string) :
  ~ In pasteID (map ID t) ->
  existsb (fun q => (ID q =? pasteID)%string) t = false.
Proof.
  intros Hn. destruct (existsb _ t) eqn:E; [|reflexivity].
  apply existsb_exists in E as (q & Hq & Hid). apply String.eqb_eq in Hid.
  exfalso. apply Hn. rewrite <- Hid. now apply in_map.
Qed.

(** The deduplication query selects a row exactly when a live paste with
    the fingerprint is stored in the scope. *)
Lemma stored_in_scope_First db content userID :
  stored_in_scope db content userID
  <-> exists q,
        gorm.First (same_hash_and_scope (computeFileHash content) userID) (pastes db)
        = Some q.
Proof.
  split.
  - intros (p & Hin & Hl & Hh & Hs).
    apply (First_found _ _ p); auto. now apply same_hash_and_scope_true.
  - intros (q & Hq). apply First_Some in Hq as (Hin & Hc & Hl).
    apply same_hash_and_scope_true in Hc as [Hh Hs]. exists q. auto.
Qed.

Lemma not_stored_in_scope_First db content userID :
  ~ stored_in_scope db content userID ->
  gorm.First (same_hash_and_scope (computeFileHash content) userID) (pastes db) = None.
Proof.
  intros Hn. destruct (gorm.First _ _) as [q|] eqn:E; [|reflexivity].
  exfalso. apply Hn. apply stored_in_scope_First. eauto.
Qed.

(** A valid call whose query selects nothing and whose generated
    identifier is new appends the new row and returns it. *)
Lemma CreatePaste_fresh db now draws title content language isPrivate unlisted
    expiresIn userID :
  passes_validation content isPrivate userID ->
  gorm.First (same_hash_and_scope (computeFileHash content) userID) (pastes db) = None ->
  ~ In (randfilename draws 8 "") (map ID (pastes db)) ->
  CreatePaste db now draws title content language isPrivate unlisted expiresIn userID
  = (Ok (mkPaste (randfilename draws 8 "") title content (computeFileHash content)
                 (if (language =? "")%string then "text" else language)
                 isPrivate unlisted (expiry now expiresIn) userID None now now None),
     mkDB (users db)
          (pastes db
           ++ [mkPaste (randfilename draws 8 "") title content (computeFileHash content)
                       (if (language =? "")%string then "text" else language)
                       isPrivate unlisted (expiry now expiresIn) userID None now now
                       None])).
Proof.
  intros Hv Hf Hfresh. rewrite (CreatePaste_valid _ _ _ _ _ _ _ _ _ _ Hv), Hf.
  cbv zeta. unfold gorm.Create. cbn [ID].
  now rewrite (existsb_id_fresh _ _ Hfresh).
Qed.

(** A valid call whose query selects nothing and whose generated
    identifier is taken fails on the primary key: there is no second
    draw. *)
Lemma CreatePaste_collides db now draws title content language isPrivate unlisted
    expiresIn userID :
  passes_validation content isPrivate userID ->
  gorm.First (same_hash_and_scope (computeFileHash content) userID) (pastes db) = None ->
  In (randfilename draws 8 "") (map ID (pastes db)) ->
  CreatePaste db now draws title content language isPrivate unlisted expiresIn userID
  = (Err (sqlite_error "UNIQUE constraint failed: pastes.id"), db).
Proof.
  intros Hv Hf Hin. rewrite (CreatePaste_valid _ _ _ _ _ _ _ _ _ _ Hv), Hf.
  cbv zeta. unfold gorm.Create. cbn [ID].
  now rewrite (existsb_id_true _ _ Hin).
Qed.

(** A paste that [CreatePaste] returns is a live row of the store it
    leaves, with the fingerprint of the content, in the scope of the
    call. *)
Lemma CreatePaste_Ok_stored db now draws title content language isPrivate unlisted
    expiresIn userID p db' :
  CreatePaste db now draws title content language isPrivate unlisted expiresIn userID
  = (Ok p, db') ->
  In p (pastes db') /\ gorm.live p = true
  /\ ContentHash p = computeFileHash content /\ UserID p = userID.
Proof.
  intros H.
  destruct (CreatePaste_Ok_cases _ _ _ _ _ _ _ _ _ _ _ _ H)
    as [[Hf ->] | (_ & Hps & _ & _ & Hh & Hs & Hl & _)].
  - apply First_Some in Hf as (Hin & Hc & Hl).
    apply same_hash_and_scope_true in Hc as [Hh Hs]. auto.
  - rewrite Hps. repeat split; auto. apply in_or_app. right. now left.
Qed.

Lemma store_secret_reachable : reachable store_secret.
Proof.
  unfold store_secret, store_hello.
  repeat (eapply reachable_step; [|apply step_create]).
  apply reachable_new.
Qed.

(** The claim as worded fails: the owner can store the empty content with
    [UpdatePaste], which checks nothing, and a Create of the empty content
    in that scope is then refused by the check at the head of Create
    although a paste with its fingerprint is stored there. *)
Lemma CreatePaste_refuses_stored_content : ~ create_returns_existing.
Proof.
  intros H.
  destruct (H store_emptied (t0 + one_hour + one_hour) draws_c "" "" "text" false
              false None (Some alice)) as (q & _ & Hq).
  - unfold store_emptied. eapply reachable_step; [|apply step_update].
    exact store_secret_reachable.
  - exists (mkPaste "bbbbbbbb" "diary" "" (computeFileHash "") "text" true false None
                    (Some alice) None t0 (t0 + one_hour) None).
    split; [|split; [|split]].
    + vm_compute. right. left. reflexivity.
    + reflexivity.
    + reflexivity.
    + reflexivity.
  - vm_compute in Hq. discriminate.
Qed.

(** C1 (amended).  Paste creation is idempotent per owner scope for the
    calls that pass the checks at the head of Create.  In a store that
    respects the primary key: (a) when a live paste with the fingerprint of
    the content is stored in the owner scope, Create leaves the store as it
    was (no new row, no new ID) and any paste it returns is a stored live
    paste with that fingerprint and scope; if the call passes the checks it
    returns the paste the deduplication query selects, and if not it
    returns the error of the failed check; (b) after a Create that returned
    a paste, a further Create with the same content in the same scope
    returns that very paste and changes nothing; (c) a valid Create does
    return a paste when the content is stored in the scope or the
    generated ID is new, and then (b) applies; (d) after a Create that
    returned a paste, a Create of the same content in another scope
    returns a paste with a different ID, both pastes being stored, when
    the content is stored in that scope or the generated ID is new (the
    row is then appended under that ID); (e) when it is neither, that
    Create fails on the primary key and stores nothing; (f) in any case
    two Creates in different scopes that both return a paste return
    different IDs. *)
Theorem CreatePaste_idempotent_per_scope :
  forall db : DB, unique_ids (pastes db) ->
  (forall now draws title content language isPrivate unlisted expiresIn userID,
      stored_in_scope db content userID ->
      snd (CreatePaste db now draws title content language isPrivate unlisted
                       expiresIn userID) = db
      /\ (forall q,
             fst (CreatePaste db now draws title content language isPrivate unlisted
                              expiresIn userID) = Ok q ->
             In q (pastes db) /\ gorm.live q = true
             /\ ContentHash q = computeFileHash content /\ UserID q = userID)
      /\ (passes_validation content isPrivate userID ->
          exists q,
            CreatePaste db now draws title content language isPrivate unlisted
                        expiresIn userID = (Ok q, db)
            /\ gorm.First (same_hash_and_scope (computeFileHash content) userID)
                          (pastes db) = Some q
            /\ In q (pastes db) /\ gorm.live q = true
            /\ ContentHash q = computeFileHash content /\ UserID q = userID)
      /\ (~ passes_validation content isPrivate userID ->
          exists e,
            CreatePaste db now draws title content language isPrivate unlisted
                        expiresIn userID = (Err e, db)
            /\ ValidationError e))
  /\ (forall now draws title content language isPrivate unlisted expiresIn userID
             p1 db1 now' draws' title' language' isPrivate' unlisted' expiresIn',
         CreatePaste db now draws title content language isPrivate unlisted
                     expiresIn userID = (Ok p1, db1) ->
         (isPrivate' = true -> userID <> None) ->
         CreatePaste db1 now' draws' title' content language' isPrivate' unlisted'
                     expiresIn' userID = (Ok p1, db1))
  /\ (forall now draws title content language isPrivate unlisted expiresIn userID
             now' draws' title' language' isPrivate' unlisted' expiresIn',
         passes_validation content isPrivate userID ->
         stored_in_scope db content userID
         \/ ~ In (randfilename draws 8 "") (map ID (pastes db)) ->
         (isPrivate' = true -> userID <> None) ->
         exists p1 db1,
           CreatePaste db now draws title content language isPrivate unlisted
                       expiresIn userID = (Ok p1, db1)
           /\ CreatePaste db1 now' draws' title' content language' isPrivate'
                          unlisted' expiresIn' userID = (Ok p1, db1)
           /\ In p1 (pastes db1) /\ gorm.live p1 = true
           /\ ContentHash p1 = computeFileHash content /\ UserID p1 = userID)
  /\ (forall now draws title content language isPrivate unlisted expiresIn userID
             p1 db1 now' draws' title' language' isPrivate' unlisted' expiresIn'
             userID',
         userID <> userID' ->
         CreatePaste db now draws title content language isPrivate unlisted
                     expiresIn userID = (Ok p1, db1) ->
         (isPrivate' = true -> userID' <> None) ->
         stored_in_scope db1 content userID'
         \/ ~ In (randfilename draws' 8 "") (map ID (pastes db1)) ->
         exists p2 db2,
           CreatePaste db1 now' draws' title' content language' isPrivate' unlisted'
                       expiresIn' userID' = (Ok p2, db2)
           /\ ID p1 <> ID p2 /\ UserID p1 = userID /\ UserID p2 = userID'
           /\ ContentHash p1 = computeFileHash content
           /\ ContentHash p2 = computeFileHash content
           /\ In p1 (pastes db2) /\ In p2 (pastes db2)
           /\ (~ stored_in_scope db1 content userID' ->
               ID p2 = randfilename draws' 8 ""
               /\ pastes db2 = pastes db1 ++ [p2]))
  /\ (forall now draws title content language isPrivate unlisted expiresIn userID
             p1 db1 now' draws' title' language' isPrivate' unlisted' expiresIn'
             userID',
         CreatePaste db now draws title content language isPrivate unlisted
                     expiresIn userID = (Ok p1, db1) ->
         (isPrivate' = true -> userID' <> None) ->
         ~ stored_in_scope db1 content userID' ->
         In (randfilename draws' 8 "") (map ID (pastes db1)) ->
         CreatePaste db1 now' draws' title' content language' isPrivate' unlisted'
                     expiresIn' userID'
         = (Err (sqlite_error "UNIQUE constraint failed: pastes.id"), db1))
  /\ (forall now draws title content language isPrivate unlisted expiresIn userID
             p1 db1 now' draws' title' language' isPrivate' unlisted' expiresIn'
             userID' p2 db2,
         userID <> userID' ->
         CreatePaste db now draws title content language isPrivate unlisted
                     expiresIn userID = (Ok p1, db1) ->
         CreatePaste db1 now' draws' title' content language' isPrivate' unlisted'
                     expiresIn' userID' = (Ok p2, db2) ->
         ID p1 <> ID p2 /\ UserID p1 = userID /\ UserID p2 = userID').
Proof.
  intros db Hu.
  assert (forall now draws title content language isPrivate unlisted expiresIn userID
                 p1 db1 now' draws' title' language' isPrivate' unlisted' expiresIn',
             CreatePaste db now draws title content language isPrivate unlisted
                         expiresIn userID = (Ok p1, db1) ->
             (isPrivate' = true -> userID <> None) ->
             CreatePaste db1 now' draws' title' content language' isPrivate' unlisted'
                         expiresIn' userID = (Ok p1, db1)) as Hagain.
  { intros now draws title content language isPrivate unlisted expiresIn userID
           p1 db1 now' draws' title' language' isPrivate' unlisted' expiresIn' H1 Hp.
    destruct (CreatePaste_Ok_valid _ _ _ _ _ _ _ _ _ _ _ _ H1) as (Hne & Hle & _).
    rewrite CreatePaste_valid by (repeat split; assumption).
    destruct (CreatePaste_Ok_cases _ _ _ _ _ _ _ _ _ _ _ _ H1)
      as [[Hf ->] | (Hf & Hps & _ & _ & Hh & Hs & Hl & _)].
    + now rewrite Hf.
    + unfold gorm.First in *. rewrite Hps, Where_app.
      apply least_nil in Hf. rewrite Hf. simpl.
      assert (same_hash_and_scope (computeFileHash content) userID p1 = true) as ->
          by now apply same_hash_and_scope_true.
      rewrite Hl. reflexivity. }
  assert (forall now draws title content language isPrivate unlisted expiresIn userID
                 p1 db1 now' draws' title' language' isPrivate' unlisted' expiresIn'
                 userID' p2 db2,
             userID <> userID' ->
             CreatePaste db now draws title content language isPrivate unlisted
                         expiresIn userID = (Ok p1, db1) ->
             CreatePaste db1 now' draws' title' content language' isPrivate' unlisted'
                         expiresIn' userID' = (Ok p2, db2) ->
             ID p1 <> ID p2 /\ UserID p1 = userID /\ UserID p2 = userID') as Hdistinct.
  { intros now draws title content language isPrivate unlisted expiresIn userID
           p1 db1 now' draws' title' language' isPrivate' unlisted' expiresIn'
           userID' p2 db2 Hneq H1 H2.
    destruct (CreatePaste_Ok_stored _ _ _ _ _ _ _ _ _ _ _ _ H1) as (Hin1 & _ & _ & Hs1).
    destruct (CreatePaste_Ok_stored _ _ _ _ _ _ _ _ _ _ _ _ H2) as (_ & _ & _ & Hs2).
    repeat split; auto.
    intros Heq.
    destruct (CreatePaste_Ok_cases _ _ _ _ _ _ _ _ _ _ _ _ H2)
      as [[Hf _] | (_ & _ & _ & Hfresh & _)].
    + apply First_Some in Hf as (Hin2 & _ & _).
      pose proof (CreatePaste_keeps_unique db now draws title content language
                    isPrivate unlisted expiresIn userID Hu) as Hu1.
      rewrite H1 in Hu1. simpl in Hu1.
      assert (p1 = p2) by (eapply unique_ids_inj; eauto). congruence.
    + apply Hfresh. rewrite <- Heq. now apply in_map. }
  split; [|split; [|split; [|split; [|split]]]].
  - intros now draws title content language isPrivate unlisted expiresIn userID Hst.
    apply stored_in_scope_First in Hst as [q Hq].
    destruct (First_Some _ _ _ Hq) as (Hqin & Hc & Hql).
    apply same_hash_and_scope_true in Hc as [Hqh Hqs].
    destruct (CreatePaste db now draws title content language isPrivate unlisted
                expiresIn userID) as [[q'|e] db'] eqn:E; simpl.
    + destruct (CreatePaste_Ok_cases _ _ _ _ _ _ _ _ _ _ _ _ E)
        as [[Hf ->] | (Hf & _)]; [|congruence].
      assert (q' = q) as -> by congruence.
      split; [reflexivity|]. split; [|split].
      * intros q0 H0. injection H0 as <-. auto.
      * intros _. exists q. auto 7.
      * intros Hnv. exfalso. apply Hnv.
        exact (CreatePaste_Ok_valid _ _ _ _ _ _ _ _ _ _ _ _ E).
    + rewrite (CreatePaste_Err_store _ _ _ _ _ _ _ _ _ _ _ _ E).
      split; [reflexivity|]. split; [discriminate|]. split.
      * intros Hv. rewrite (CreatePaste_valid _ _ _ _ _ _ _ _ _ _ Hv), Hq in E.
        discriminate.
      * intros Hnv.
        destruct (CreatePaste_rejects db now draws title content language isPrivate
                    unlisted expiresIn userID Hnv) as (e' & He' & Hve).
        rewrite E in He'. injection He' as ->. exists e'. auto.
  - exact Hagain.
  - intros now draws title content language isPrivate unlisted expiresIn userID
           now' draws' title' language' isPrivate' unlisted' expiresIn' Hv Hcond Hp.
    assert (exists p1 db1,
               CreatePaste db now draws title content language isPrivate unlisted
                           expiresIn userID = (Ok p1, db1)) as (p1 & db1 & H1).
    { destruct (gorm.First (same_hash_and_scope (computeFileHash content) userID)
                           (pastes db)) as [q|] eqn:Hf.
      - exists q, db. now rewrite (CreatePaste_valid _ _ _ _ _ _ _ _ _ _ Hv), Hf.
      - destruct Hcond as [Hst|Hfresh].
        + apply stored_in_scope_First in Hst as [q Hq]. congruence.
        + eexists. eexists. apply CreatePaste_fresh; assumption. }
    exists p1, db1. split; [exact H1|]. split.
    + eapply Hagain; eassumption.
    + exact (CreatePaste_Ok_stored _ _ _ _ _ _ _ _ _ _ _ _ H1).
  - intros now draws title content language isPrivate unlisted expiresIn userID
           p1 db1 now' draws' title' language' isPrivate' unlisted' expiresIn'
           userID' Hneq H1 Hp Hcond.
    destruct (CreatePaste_Ok_valid _ _ _ _ _ _ _ _ _ _ _ _ H1) as (Hne & Hle & _).
    assert (passes_validation content isPrivate' userID') as Hv'
        by (repeat split; assumption).
    destruct (CreatePaste_Ok_stored _ _ _ _ _ _ _ _ _ _ _ _ H1)
      as (Hin1 & _ & Hh1 & Hs1).
    destruct (gorm.First (same_hash_and_scope (computeFileHash content) userID')
                         (pastes db1)) as [q|] eqn:Hf.
    + assert (CreatePaste db1 now' draws' title' content language' isPrivate'
                          unlisted' expiresIn' userID' = (Ok q, db1)) as H2
          by now rewrite (CreatePaste_valid _ _ _ _ _ _ _ _ _ _ Hv'), Hf.
      destruct (Hdistinct _ _ _ _ _ _ _ _ _ _ _ _ _ _ _ _ _ _ _ _ _ Hneq H1 H2)
        as (Hd & _ & Hs2).
      destruct (CreatePaste_Ok_stored _ _ _ _ _ _ _ _ _ _ _ _ H2)
        as (Hin2 & _ & Hh2 & _).
      exists q, db1. repeat split; auto.
      all: exfalso; apply H; apply stored_in_scope_First; eauto.
    + assert (~ In (randfilename draws' 8 "") (map ID (pastes db1))) as Hfresh.
      { destruct Hcond as [Hst|Hfresh]; [|assumption].
        apply stored_in_scope_First in Hst as [q Hq]. congruence. }
      pose proof (CreatePaste_fresh db1 now' draws' title' content language' isPrivate'
                    unlisted' expiresIn' userID' Hv' Hf Hfresh) as H2.
      destruct (Hdistinct _ _ _ _ _ _ _ _ _ _ _ _ _ _ _ _ _ _ _ _ _ Hneq H1 H2)
        as (Hd & _ & Hs2).
      destruct (CreatePaste_Ok_stored _ _ _ _ _ _ _ _ _ _ _ _ H2)
        as (Hin2 & _ & Hh2 & _).
      eexists. eexists. split; [exact H2|].
      cbn [pastes] in *. repeat split; auto.
      apply in_or_app. now left.
  - intros now draws title content language isPrivate unlisted expiresIn userID
           p1 db1 now' draws' title' language' isPrivate' unlisted' expiresIn'
           userID' H1 Hp Hns Htaken.
    destruct (CreatePaste_Ok_valid _ _ _ _ _ _ _ _ _ _ _ _ H1) as (Hne & Hle & _).
    apply CreatePaste_collides; [repeat split; assumption | | assumption].
    now apply not_stored_in_scope_First.
  - exact Hdistinct.
Qed.

Example randfilename_a : randfilename draws_a 8 "" = "aaaaaaaa".
Proof. reflexivity. Qed.

Example store_short_ids :
  map ID (pastes store_short) = ["aaaaaaaa"; "bbbbbbbb"; "cccccccc"].
Proof. vm_compute. reflexivity. Qed.

Lemma store_hello_unique : unique_ids (pastes store_hello).
Proof. repeat apply CreatePaste_keeps_unique. constructor. Qed.

Lemma store_short_unique : unique_ids (pastes store_short).
Proof. repeat apply CreatePaste_keeps_unique. constructor. Qed.

Lemma CreatePaste_idempotent_per_scope_witness :
  (exists q,
      CreatePaste store_hello (t0 + one_hour) draws_b "again" "hello" "go" false true
                  (Some 5) None = (Ok q, store_hello)
      /\ ID q = "aaaaaaaa")
  /\ (exists p1 db1,
         CreatePaste registered t0 draws_a "" "hello" "text" false false None None
         = (Ok p1, db1)
         /\ CreatePaste db1 (t0 + one_hour) draws_b "again" "hello" "go" false true
                        (Some 5) None = (Ok p1, db1))
  /\ (exists p2 db2,
         CreatePaste store_hello t0 draws_b "" "hello" "text" false false None
                     (Some alice) = (Ok p2, db2)
         /\ ID p2 = "bbbbbbbb" /\ UserID p2 = Some alice
         /\ map ID (pastes db2) = ["aaaaaaaa"; "bbbbbbbb"])
  /\ CreatePaste store_hello t0 draws_a "" "hello" "text" false false None
                 (Some alice)
     = (Err (sqlite_error "UNIQUE constraint failed: pastes.id"), store_hello).
Proof.
  assert (unique_ids (pastes registered)) as Hu by constructor.
  assert (passes_validation "hello" false None) as Hv.
  { unfold passes_validation. split; [|split].
    - discriminate.
    - vm_compute. discriminate.
    - discriminate. }
  assert (CreatePaste registered t0 draws_a "" "hello" "text" false false None None
          = (Ok (mkPaste "aaaaaaaa" "" "hello" (computeFileHash "hello") "text" false
                         false None None None t0 t0 None),
             store_hello)) as H1 by (vm_compute; reflexivity).
  assert (~ stored_in_scope store_hello "hello" (Some alice)) as Hns.
  { intros (p & Hin & _ & _ & Hs). vm_compute in Hin.
    destruct Hin as [<-|[]]. discriminate. }
  split; [|split; [|split]].
  - destruct (CreatePaste_idempotent_per_scope store_hello store_hello_unique)
      as (A & _).
    destruct (A (t0 + one_hour) draws_b "again" "hello" "go" false true (Some 5) None)
      as (_ & _ & Hret & _).
    + exists (mkPaste "aaaaaaaa" "" "hello" (computeFileHash "hello") "text" false
                      false None None None t0 t0 None).
      split; [|split; [|split]].
      * vm_compute. left. reflexivity.
      * reflexivity.
      * reflexivity.
      * reflexivity.
    + destruct (Hret Hv) as (q & Hq & _ & Hin & _).
      exists q. split; [exact Hq|].
      vm_compute in Hin. destruct Hin as [<-|[]]. reflexivity.
  - destruct (CreatePaste_idempotent_per_scope registered Hu) as (_ & _ & B & _).
    destruct (B t0 draws_a "" "hello" "text" false false None None
                (t0 + one_hour) draws_b "again" "go" false true (Some 5) Hv)
      as (p1 & db1 & Hfirst & Hsecond & _).
    + right. vm_compute. intros [].
    + discriminate.
    + exists p1, db1. split; assumption.
  - destruct (CreatePaste_idempotent_per_scope registered Hu) as (_ & _ & _ & C & _).
    destruct (C t0 draws_a "" "hello" "text" false false None None
                (mkPaste "aaaaaaaa" "" "hello" (computeFileHash "hello") "text" false
                         false None None None t0 t0 None)
                store_hello t0 draws_b "" "text" false false None (Some alice))
      as (p2 & db2 & H2 & _ & _ & Hs2 & _ & _ & _ & _ & Hnew).
    + discriminate.
    + exact H1.
    + discriminate.
    + right. vm_compute. intros [Hc|[]]. discriminate.
    + destruct (Hnew Hns) as (Hid & Hps).
      exists p2, db2. split; [exact H2|]. split; [|split].
      * rewrite Hid. reflexivity.
      * exact Hs2.
      * rewrite Hps, map_app. cbn [map]. rewrite Hid. vm_compute. reflexivity.
  - destruct (CreatePaste_idempotent_per_scope registered Hu)
      as (_ & _ & _ & _ & E & _).
    apply (E t0 draws_a "" "hello" "text" false false None None
             (mkPaste "aaaaaaaa" "" "hello" (computeFileHash "hello") "text" false
                      false None None None t0 t0 None)
             store_hello t0 draws_a "" "text" false false None (Some alice)).
    + exact H1.
    + discriminate.
    + exact Hns.
    + vm_compute. left. reflexivity.
Defined.

(** ** C2: a private paste is not told apart from a missing one *)

(** C2.  For a stored private paste and a viewer who is not its owner (the
    anonymous viewer included), Get on its ID returns the error "paste not
    found", which is also what Get returns for an ID no row carries: the
    two outcomes are equal. *)
Theorem GetPaste_private_as_absent :
  forall db now p viewerUserID absentID,
    unique_ids (pastes db) ->
    In p (pastes db) ->
    IsPrivate p = true ->
    not_owner viewerUserID p ->
    (forall q, In q (pastes db) -> ID q <> absentID) ->
    GetPaste db now (ID p) viewerUserID = GetPaste db now absentID viewerUserID
    /\ GetPaste db now absentID viewerUserID = Err (errors_New "paste not found").
Proof.
  intros db now p viewer absentID Hu Hin Hpriv Hno Habs.
  assert (GetPaste db now absentID viewer = Err (errors_New "paste not found")) as Ha.
  { unfold GetPaste. now rewrite (First_absent _ _ Habs). }
  split; [|exact Ha]. rewrite Ha. unfold GetPaste.
  destruct (gorm.live p) eqn:Hl.
  - rewrite (First_by_id _ _ Hu Hin Hl). simpl.
    destruct (ExpiresAt p) as [e|]; [destruct (time.After now e); [reflexivity|]|];
      rewrite Hpriv; unfold not_owner in Hno;
      destruct viewer as [v|], (UserID p) as [o|]; simpl; try reflexivity;
      apply N.eqb_neq in Hno; now rewrite Hno.
  - now rewrite (First_by_id_tombstoned _ _ Hu Hin Hl).
Qed.

Lemma GetPaste_private_as_absent_witness :
  GetPaste store_short (t0 + one_hour) "bbbbbbbb" (Some bob)
  = GetPaste store_short (t0 + one_hour) "zzzzzzzz" (Some bob)
  /\ GetPaste store_short (t0 + one_hour) "zzzzzzzz" (Some bob)
     = Err (errors_New "paste not found").
Proof.
  apply (GetPaste_private_as_absent store_short (t0 + one_hour)
           (mkPaste "bbbbbbbb" "diary" "secret" (computeFileHash "secret") "text"
                    true false None (Some alice) None t0 t0 None)
           (Some bob) "zzzzzzzz").
  - exact store_short_unique.
  - vm_compute. right. left. reflexivity.
  - reflexivity.
  - simpl. discriminate.
  - intros q Hq. vm_compute in Hq.
    destruct Hq as [<-|[<-|[<-|[]]]]; discriminate.
Defined.

(** ** C3: the expiration sweep *)

Section DeleteFacts.

Import gorm.

Variable cond : Paste -> bool.
Variable now : time.Time.

(** A delete whose condition selects no live row is the identity. *)
Lemma Delete_noop t :
  (forall q, In q t -> live q = true -> cond q = false) ->
  Delete cond now t = (t, 0).
Proof.
  intros H. unfold Delete, Where. f_equal.
  - rewrite <- (map_id t) at 2. apply map_ext_in. intros q Hq.
    destruct (live q) eqn:L; [rewrite (H q Hq L)|rewrite andb_false_r]; reflexivity.
  - induction t as [|q t IH]; [reflexivity|]. simpl.
    destruct (live q) eqn:L.
    + rewrite (H q (or_introl eq_refl) L). simpl. apply IH.
      intros; apply H; simpl; auto.
    + rewrite andb_false_r. apply IH. intros; apply H; simpl; auto.
Qed.

Lemma Delete_untouched t p :
  In p t -> cond p && live p = false -> In p (fst (Delete cond now t)).
Proof.
  intros Hin Hc. simpl. apply in_map_iff. exists p. now rewrite Hc.
Qed.

(** Afterwards no selected row is live, for a condition that does not
    read [deleted_at]. *)
Lemma Delete_selected_tombstoned t q :
  (forall p, cond (tombstone now p) = cond p) ->
  In q (fst (Delete cond now t)) -> cond q = true -> live q = false.
Proof.
  intros Hstable Hq Hc. simpl in Hq. apply in_map_iff in Hq as (p & Hp & _).
  destruct (cond p && live p) eqn:E; subst q; [reflexivity|].
  rewrite Hc in E. exact E.
Qed.

End DeleteFacts.

Lemma CleanupExpiredPastes_eq db now :
  CleanupExpiredPastes db now
  = (snd (gorm.Delete (expired_before now) now (pastes db)),
     mkDB (users db) (fst (gorm.Delete (expired_before now) now (pastes db)))).
Proof. reflexivity. Qed.

(** A sweep at which no live paste has expired removes nothing. *)
Lemma CleanupExpiredPastes_noop db now :
  (forall q, In q (pastes db) -> gorm.live q = true -> expired_before now q = false) ->
  CleanupExpiredPastes db now = (0, db).
Proof.
  intros H. unfold CleanupExpiredPastes.
  rewrite (Delete_noop (expired_before now) now (pastes db) H).
  now destruct db.
Qed.

(** The sweep leaves the row of an expired paste in the table: the claim
    that it purges fails on a store with one expired paste. *)
Lemma CleanupExpiredPastes_keeps_rows : ~ sweep_purges.
Proof.
  intros H.
  apply (H store_short (t0 + one_hour)
           (mkPaste "cccccccc" "note" "short-lived" (computeFileHash "short-lived")
                    "text" false false (Some (t0 + 10 * time.Minute)) (Some alice)
                    None t0 t0 None)).
  - vm_compute. right. right. left. reflexivity.
  - reflexivity.
  - vm_compute. right. right. left. reflexivity.
Qed.

(** C3 (amended).  The sweep tombstones instead of purging: every row
    stays in the table; each live paste whose expiration instant is before
    the sweep's clock reading is replaced by the same row with its deletion
    marker set to that reading, every other column as it was, so afterwards
    no expired row is live; the other rows are untouched; the result is the
    number of rows so marked; and the sweep is idempotent: run again when no
    live paste has newly expired, it marks zero rows and changes nothing. *)
Theorem CleanupExpiredPastes_tombstones :
  forall db now,
    let swept := snd (CleanupExpiredPastes db now) in
    users swept = users db
    /\ map ID (pastes swept) = map ID (pastes db)
    /\ pastes swept
       = map (fun p =>
                if expired_before now p && gorm.live p
                then mkPaste (ID p) (Title p) (Content p) (ContentHash p) (Language p)
                             (IsPrivate p) (Unlisted p) (ExpiresAt p) (UserID p)
                             (User_ p) (CreatedAt p) (UpdatedAt p) (Some now)
                else p)
             (pastes db)
    /\ (forall p, In p (pastes db) -> expired_before now p = true ->
                  gorm.live p = true ->
                  In (mkPaste (ID p) (Title p) (Content p) (ContentHash p) (Language p)
                              (IsPrivate p) (Unlisted p) (ExpiresAt p) (UserID p)
                              (User_ p) (CreatedAt p) (UpdatedAt p) (Some now))
                     (pastes swept)
                  /\ ~ In p (pastes swept))
    /\ fst (CleanupExpiredPastes db now)
       = Z.of_nat (List.length (filter (fun p => expired_before now p && gorm.live p)
                                       (pastes db)))
    /\ (forall q, In q (pastes swept) -> expired_before now q = true ->
                  gorm.live q = false)
    /\ (forall p, In p (pastes db) -> expired_before now p && gorm.live p = false ->
                  In p (pastes swept))
    /\ CleanupExpiredPastes swept now = (0, swept)
    /\ (forall now',
           (forall p, In p (pastes db) -> gorm.live p = true ->
                      expired_before now' p = true -> expired_before now p = true) ->
           CleanupExpiredPastes swept now' = (0, swept)).
Proof.
  intros db now swept. subst swept. rewrite CleanupExpiredPastes_eq. simpl snd. simpl fst.
  assert (forall q,
             In q (fst (gorm.Delete (expired_before now) now (pastes db))) ->
             expired_before now q = true -> gorm.live q = false) as Hdead.
  { intros q. apply Delete_selected_tombstoned. intros p. reflexivity. }
  split; [|split; [|split; [|split; [|split; [|split; [|split; [|split]]]]]]].
  - reflexivity.
  - apply Delete_ids.
  - reflexivity.
  - intros p Hin He Hl. split.
    + cbn [pastes fst gorm.Delete]. apply in_map_iff. exists p.
      rewrite He, Hl. split; [reflexivity | assumption].
    + intros Hp. pose proof (Hdead p Hp He) as Hd. congruence.
  - reflexivity.
  - exact Hdead.
  - intros p. apply Delete_untouched.
  - apply CleanupExpiredPastes_noop. simpl pastes. intros q Hq Hl.
    destruct (expired_before now q) eqn:E; [|reflexivity].
    rewrite (Hdead q Hq E) in Hl. discriminate.
  - intros now' Hnew. apply CleanupExpiredPastes_noop. simpl pastes. intros q Hq Hl.
    destruct (expired_before now' q) eqn:E'; [|reflexivity].
    simpl in Hq. apply in_map_iff in Hq as (p & Hp & Hin).
    destruct (expired_before now p && gorm.live p) eqn:E; subst q.
    + discriminate.
    + apply andb_false_iff in E as [E|E]; [|congruence].
      rewrite (Hnew p Hin Hl E') in E. discriminate.
Qed.

Lemma CleanupExpiredPastes_tombstones_witness :
  fst (CleanupExpiredPastes store_short (t0 + one_hour)) = 1
  /\ map ID (pastes (snd (CleanupExpiredPastes store_short (t0 + one_hour))))
     = ["aaaaaaaa"; "bbbbbbbb"; "cccccccc"]
  /\ In (mkPaste "cccccccc" "note" "short-lived" (computeFileHash "short-lived")
                 "text" false false (Some (t0 + 10 * time.Minute)) (Some alice)
                 None t0 t0 (Some (t0 + one_hour)))
        (pastes (snd (CleanupExpiredPastes store_short (t0 + one_hour))))
  /\ CleanupExpiredPastes (snd (CleanupExpiredPastes store_short (t0 + one_hour)))
                          (t0 + one_hour + one_hour)
     = (0, snd (CleanupExpiredPastes store_short (t0 + one_hour))).
Proof.
  destruct (CleanupExpiredPastes_tombstones store_short (t0 + one_hour))
    as (_ & Hids & _ & Himage & Hn & _ & _ & _ & Hagain).
  split; [|split; [|split]].
  - rewrite Hn. vm_compute. reflexivity.
  - rewrite Hids. vm_compute. reflexivity.
  - assert (In (mkPaste "cccccccc" "note" "short-lived" (computeFileHash "short-lived")
                        "text" false false (Some (t0 + 10 * time.Minute)) (Some alice)
                        None t0 t0 None)
               (pastes store_short)) as Hin
        by (vm_compute; right; right; left; reflexivity).
    exact (proj1 (Himage _ Hin eq_refl eq_refl)).
  - apply Hagain. intros p Hp Hl Hexp. vm_compute in Hp.
    destruct Hp as [<-|[<-|[<-|[]]]]; first [exact Hexp | reflexivity | discriminate].
Defined.

(** ** C4: expiration at read time and the expiration instant *)

(** Expiration is checked by [GetPaste] itself: a row whose expiration
    instant is before the clock reading is reported as not found, swept
    or not. *)
Lemma GetPaste_expired db now pasteID viewerUserID row e :
  gorm.First (has_id pasteID) (pastes db) = Some row ->
  ExpiresAt row = Some e -> e < now ->
  GetPaste db now pasteID viewerUserID = Err (errors_New "paste not found").
Proof.
  intros Hf He Hlt. unfold GetPaste. rewrite Hf. simpl. rewrite He.
  unfold time.After. apply Z.ltb_lt in Hlt. now rewrite Hlt.
Qed.

(** Without [expiresIn], or with a value that is not positive, the stored
    paste has no expiration instant, and its creator reads it back at any
    time. *)
Lemma CreatePaste_never_expires db now draws title content language isPrivate
    unlisted expiresIn userID p db' :
  unique_ids (pastes db) ->
  match expiresIn with Some n => n <= 0 | None => True end ->
  gorm.First (same_hash_and_scope (computeFileHash content) userID) (pastes db) = None ->
  CreatePaste db now draws title content language isPrivate unlisted expiresIn userID
  = (Ok p, db') ->
  ExpiresAt p = None
  /\ forall later, GetPaste db' later (ID p) userID = Ok (gorm.Preload_User (users db') p).
Proof.
  intros Hu Hexp Hnone H.
  pose proof (CreatePaste_keeps_unique db now draws title content language isPrivate
                unlisted expiresIn userID Hu) as Hu'.
  rewrite H in Hu'. simpl in Hu'.
  destruct (CreatePaste_Ok_valid _ _ _ _ _ _ _ _ _ _ _ _ H) as (_ & _ & Hpriv).
  destruct (CreatePaste_Ok_cases _ _ _ _ _ _ _ _ _ _ _ _ H)
    as [[Hf _] | (_ & Hps & _ & _ & _ & _ & Hl & Hp)]; [congruence|].
  assert (expiry now expiresIn = None) as Hnoexp.
  { destruct expiresIn as [n|]; [|reflexivity]. simpl.
    destruct (Z.gtb_spec n 0); [lia|reflexivity]. }
  assert (ExpiresAt p = None) as He by (subst p; exact Hnoexp).
  split; [exact He|].
  intros later. unfold GetPaste.
  rewrite (First_by_id (pastes db') p Hu') by (rewrite ?Hps; auto using in_or_app, in_eq).
  simpl. rewrite He.
  assert (IsPrivate p = isPrivate /\ UserID p = userID) as [-> ->] by (subst p; auto).
  destruct isPrivate; simpl; [|reflexivity].
  destruct userID as [u|]; [|now destruct Hpriv].
  now rewrite N.eqb_refl.
Qed.

(** Up to 153722867 minutes the product with [time.Minute] fits in an
    [int64] and the expiration instant is the submission time plus that
    many minutes. *)
Lemma minutes_in_range n :
  0 <= n <= 153722867 -> time.minutes n = n * 60000000000.
Proof.
  intros H. unfold time.minutes, GoInt.wrap64, time.Minute.
  rewrite (Z.mod_small (n + 2 ^ 63)) by lia.
  replace (n + 2 ^ 63 - 2 ^ 63) with n by lia.
  rewrite Z.mod_small by lia. lia.
Qed.

Lemma CreatePaste_expiry_in_range db now draws title content language isPrivate
    unlisted n userID p db' :
  0 < n <= 153722867 ->
  gorm.First (same_hash_and_scope (computeFileHash content) userID) (pastes db) = None ->
  CreatePaste db now draws title content language isPrivate unlisted (Some n) userID
  = (Ok p, db') ->
  ExpiresAt p = Some (now + n * 60000000000).
Proof.
  intros Hn Hnone H.
  destruct (CreatePaste_Ok_cases _ _ _ _ _ _ _ _ _ _ _ _ H)
    as [[Hf _] | (_ & _ & _ & _ & _ & _ & _ & ->)]; [congruence|].
  simpl. destruct (Z.gtb_spec n 0); [|lia].
  unfold time.Add. now rewrite minutes_in_range by lia.
Qed.

(** C4.  The claim holds for the read-time check and for an absent or zero
    [expiresInMinutes] (the lemmas above), but not for every positive one:
    from 153722868 minutes on, the [int64] product with [time.Minute]
    wraps around.  Here a paste submitted at [t0] with 153722868 minutes
    gets an expiration instant about 292 years before [t0], not
    [t0 + 153722868] minutes, and Get reports it as not found at once. *)
Theorem CreatePaste_expiry_wraps :
  exists p db',
    CreatePaste registered t0 draws_a "" "x" "text" false false (Some 153722868) None
    = (Ok p, db')
    /\ ExpiresAt p = Some (t0 - 9223371993709551616)
    /\ ExpiresAt p <> Some (t0 + 153722868 * 60000000000)
    /\ GetPaste db' t0 (ID p) None = Err (errors_New "paste not found").
Proof.
  eexists. eexists. split; [vm_compute; reflexivity|].
  split; [vm_compute; reflexivity|]. split; [vm_compute; discriminate|].
  vm_compute. reflexivity.
Qed.

(** ** C5: the checks at the head of Create *)

Lemma MaxPasteSize_eq : MaxPasteSize = 10 * 1024 * 1024.
Proof. reflexivity. Qed.

Lemma passes_validation_dec content isPrivate userID :
  passes_validation content isPrivate userID
  \/ String.length content = 0%nat
  \/ Z.of_nat (String.length content) > MaxPasteSize
  \/ (isPrivate = true /\ userID = None).
Proof.
  unfold passes_validation.
  destruct (Nat.eq_dec (String.length content) 0); [tauto|].
  destruct (Z_le_gt_dec (Z.of_nat (String.length content)) MaxPasteSize); [|tauto].
  destruct isPrivate, userID; try tauto;
    left; repeat split; auto; congruence.
Qed.

(** C5.  Create fails with a validation error exactly when the content is
    empty, longer than 10 MiB, or the paste is private with no owner: the
    first two checks return their own message, the third a validation
    error; a call violating none of them never gets a validation error and
    returns a paste as soon as the store accepts the identifier; content of
    exactly 10 MiB passes the size check. *)
Theorem CreatePaste_validation :
  forall db now draws title content language isPrivate unlisted expiresIn userID,
    let r := fst (CreatePaste db now draws title content language isPrivate unlisted
                              expiresIn userID) in
    (String.length content = 0%nat ->
     r = Err (errors_New "paste content cannot be empty"))
    /\ (Z.of_nat (String.length content) > 10 * 1024 * 1024 ->
        r = Err (errors_New "paste too large (max 10MB)"))
    /\ (isPrivate = true -> userID = None -> exists e, r = Err e /\ ValidationError e)
    /\ ((exists e, r = Err e /\ ValidationError e)
        <-> ~ passes_validation content isPrivate userID)
    /\ (Z.of_nat (String.length content) = 10 * 1024 * 1024 ->
        (isPrivate = true -> userID <> None) ->
        passes_validation content isPrivate userID)
    /\ (passes_validation content isPrivate userID ->
        ~ In (randfilename draws 8 "") (map ID (pastes db)) ->
        exists p, r = Ok p).
Proof.
  intros db now draws title content language isPrivate unlisted expiresIn userID r.
  assert (String.length content = 0%nat ->
          r = Err (errors_New "paste content cannot be empty")) as Hempty.
  { intros H. subst r. unfold CreatePaste. now rewrite H. }
  assert (Z.of_nat (String.length content) > 10 * 1024 * 1024 ->
          r = Err (errors_New "paste too large (max 10MB)")) as Hlarge.
  { intros H. subst r. unfold CreatePaste.
    destruct (String.length content =? 0)%nat eqn:E0.
    - apply Nat.eqb_eq in E0. rewrite E0 in H. simpl in H. lia.
    - rewrite <- MaxPasteSize_eq in H. apply Z.gt_lt, Z.gtb_lt in H. now rewrite H. }
  assert (isPrivate = true -> userID = None ->
          exists e, r = Err e /\ ValidationError e) as Hanon.
  { intros -> ->. subst r. unfold CreatePaste, ValidationError.
    destruct (String.length content =? 0)%nat.
    { eexists; split; [reflexivity | left; reflexivity]. }
    destruct (Z.of_nat (String.length content) >? MaxPasteSize); simpl.
    - eexists; split; [reflexivity | right; left; reflexivity].
    - eexists; split; [reflexivity | right; right; reflexivity]. }
  assert (passes_validation content isPrivate userID ->
          forall e, r = Err e -> exists msg, e = sqlite_error msg) as Hvalid.
  { intros Hv e. subst r. rewrite (CreatePaste_valid _ _ _ _ _ _ _ _ _ _ Hv).
    destruct (gorm.First _ _); [discriminate|]. cbv zeta. unfold gorm.Create.
    destruct (existsb _ _); simpl; [|discriminate].
    intros H; injection H as <-. eauto. }
  split; [exact Hempty|]. split; [exact Hlarge|]. split; [exact Hanon|].
  split; [split|split].
  - intros (e & He & Hve) Hv. destruct (Hvalid Hv e He) as [msg ->].
    destruct Hve as [Hve|[Hve|Hve]]; discriminate.
  - intros Hnv.
    destruct (passes_validation_dec content isPrivate userID)
      as [Hv|[H0|[Hgt|[Hp Hu]]]].
    + contradiction.
    + exists (errors_New "paste content cannot be empty"). split; [auto|now left].
    + exists (errors_New "paste too large (max 10MB)"). split; [|right; now left].
      apply Hlarge. now rewrite <- MaxPasteSize_eq.
    + auto.
  - intros Hlen Hpriv. unfold passes_validation. rewrite MaxPasteSize_eq.
    repeat split; [|lia|exact Hpriv].
    intros H0. rewrite H0 in Hlen. simpl in Hlen. lia.
  - intros Hv Hfresh. subst r. rewrite (CreatePaste_valid _ _ _ _ _ _ _ _ _ _ Hv).
    destruct (gorm.First _ _); [simpl; eauto|]. cbv zeta. unfold gorm.Create.
    destruct (existsb _ _) eqn:Ex; [|simpl; eauto].
    exfalso. apply Hfresh. apply existsb_exists in Ex as (q & Hq & Hid).
    apply String.eqb_eq in Hid. simpl in Hid. rewrite <- Hid. now apply in_map.
Qed.

Lemma CreatePaste_validation_witness :
  fst (CreatePaste store_hello t0 draws_b "" "" "text" false false None None)
  = Err (errors_New "paste content cannot be empty")
  /\ (exists e,
         fst (CreatePaste store_hello t0 draws_b "" "secret" "text" true false None None)
         = Err e /\ ValidationError e)
  /\ (exists p,
         fst (CreatePaste store_hello t0 draws_b "" "secret" "text" true false None
                          (Some alice)) = Ok p).
Proof.
  split; [|split].
  - destruct (CreatePaste_validation store_hello t0 draws_b "" "" "text" false false
                None None) as (Hempty & _).
    apply Hempty. reflexivity.
  - destruct (CreatePaste_validation store_hello t0 draws_b "" "secret" "text" true
                false None None) as (_ & _ & Hanon & _).
    apply Hanon; reflexivity.
  - destruct (CreatePaste_validation store_hello t0 draws_b "" "secret" "text" true
                false None (Some alice)) as (_ & _ & _ & _ & _ & Hok).
    apply Hok.
    + unfold passes_validation. vm_compute. repeat split; discriminate.
    + vm_compute. intros [H|[]]. discriminate.
Defined.

(** ** C6: what Update writes *)

Lemma UpdatePaste_Ok db now pasteID title content language unlisted userID p' db' :
  UpdatePaste db now pasteID title content language unlisted userID = (Ok p', db') ->
  exists old,
    gorm.First (has_id pasteID) (pastes db) = Some old
    /\ owned_by userID old = true
    /\ p' = mkPaste (ID old) title content (computeFileHash content) language
                    (IsPrivate old) unlisted (ExpiresAt old) (UserID old) (User_ old)
                    (CreatedAt old) now (DeletedAt old)
    /\ db' = mkDB (users db) (gorm.Save p' (pastes db)).
Proof.
  unfold UpdatePaste. destruct (gorm.First _ _) as [old|] eqn:E; [|discriminate].
  destruct (owned_by userID old) eqn:Ho; simpl; [|discriminate].
  intros H. injection H as <- <-. exists old. auto.
Qed.

Lemma owned_by_true userID p : owned_by userID p = true <-> UserID p = Some userID.
Proof.
  unfold owned_by. destruct (UserID p) as [o|].
  - rewrite N.eqb_eq. split; congruence.
  - split; discriminate.
Qed.

(** Under the primary-key constraint [Save] rewrites one row in place. *)
Lemma Save_replace t old new :
  unique_ids t -> In old t -> gorm.live old = true -> ID new = ID old ->
  exists l1 l2, t = l1 ++ old :: l2 /\ gorm.Save new t = l1 ++ new :: l2.
Proof.
  intros Hu Hin Hl Hid.
  destruct (in_split _ _ Hin) as (l1 & l2 & ->). exists l1, l2. split; [reflexivity|].
  unfold gorm.Save.
  assert (existsb (fun q => (ID q =? ID new)%string && gorm.live q) (l1 ++ old :: l2)
          = true) as ->.
  { apply existsb_exists. exists old. split; [assumption|].
    rewrite Hid, String.eqb_refl, Hl. reflexivity. }
  assert (forall q, In q (l1 ++ l2) -> (ID q =? ID new)%string = false) as Hother.
  { intros q Hq. apply String.eqb_neq. rewrite Hid. intros Heq.
    unfold unique_ids in Hu. rewrite map_app in Hu. simpl in Hu.
    apply NoDup_remove_2 in Hu. apply Hu. rewrite <- Heq, <- map_app. now apply in_map. }
  rewrite map_app. simpl.
  assert ((ID old =? ID new)%string = true) as -> by (rewrite Hid; apply String.eqb_refl).
  rewrite Hl. simpl.
  f_equal; [|f_equal]; rewrite <- map_id; apply map_ext_in; intros q Hq;
    rewrite Hother by (apply in_or_app; auto); reflexivity.
Qed.

(** C6.  A successful Update rewrites exactly one row of the table, the
    paste found under the given ID, whose owner is the caller.  In the new
    row the title, content, language and unlisted flag are the arguments,
    the fingerprint is recomputed from the stored content and the update
    timestamp is the clock reading; the privacy flag, expiration instant,
    owner, ID and creation timestamp (and the deletion marker) are those of
    the old row.  All other rows and the users are as before. *)
Theorem UpdatePaste_frame :
  forall db now pasteID title content language unlisted userID p' db',
    unique_ids (pastes db) ->
    UpdatePaste db now pasteID title content language unlisted userID = (Ok p', db') ->
    exists old l1 l2,
      pastes db = l1 ++ old :: l2
      /\ pastes db' = l1 ++ p' :: l2
      /\ users db' = users db
      /\ ID old = pasteID /\ UserID old = Some userID
      /\ Title p' = title /\ Content p' = content
      /\ ContentHash p' = computeFileHash (Content p')
      /\ Language p' = language /\ Unlisted p' = unlisted /\ UpdatedAt p' = now
      /\ IsPrivate p' = IsPrivate old /\ ExpiresAt p' = ExpiresAt old
      /\ UserID p' = UserID old /\ ID p' = ID old /\ CreatedAt p' = CreatedAt old
      /\ DeletedAt p' = DeletedAt old.
Proof.
  intros db now pasteID title content language unlisted userID p' db' Hu H.
  destruct (UpdatePaste_Ok _ _ _ _ _ _ _ _ _ _ H) as (old & Hf & Ho & Hp & ->).
  destruct (First_Some _ _ _ Hf) as (Hin & Hid & Hl).
  apply String.eqb_eq in Hid. apply owned_by_true in Ho.
  assert (ID p' = ID old) as Hid' by (subst p'; reflexivity).
  destruct (Save_replace (pastes db) old p' Hu Hin Hl Hid') as (l1 & l2 & Ht & Hs).
  exists old, l1, l2. simpl. rewrite Hs.
  subst p'. simpl. repeat split; auto.
Qed.

Lemma UpdatePaste_frame_witness :
  exists old l1 l2 p' db',
    UpdatePaste store_short (t0 + one_hour) "bbbbbbbb" "journal" "new text" "markdown"
                true alice = (Ok p', db')
    /\ pastes store_short = l1 ++ old :: l2
    /\ pastes db' = l1 ++ p' :: l2
    /\ Content p' = "new text"
    /\ ContentHash p' = computeFileHash "new text"
    /\ IsPrivate p' = IsPrivate old /\ ExpiresAt p' = ExpiresAt old.
Proof.
  destruct (UpdatePaste store_short (t0 + one_hour) "bbbbbbbb" "journal" "new text"
              "markdown" true alice) as [r db'] eqn:E.
  assert (exists p', r = Ok p') as [p' ->].
  { vm_compute in E. injection E as <- _. eauto. }
  destruct (UpdatePaste_frame store_short (t0 + one_hour) "bbbbbbbb" "journal"
              "new text" "markdown" true alice p' db' store_short_unique E)
    as (old & l1 & l2 & H1 & H2 & _ & _ & _ & _ & Hc & Hh & _ & _ & _ & Hp & He & _).
  exists old, l1, l2, p', db'. rewrite Hc in Hh. auto 10.
Defined.

(** ** C7: a private paste has an owner *)

Section OwnerInvariant.

Lemma Delete_keeps_owner cond now t :
  (forall p, In p t -> owned_if_private p) ->
  forall q, In q (fst (gorm.Delete cond now t)) -> owned_if_private q.
Proof.
  intros H q Hq. simpl in Hq. apply in_map_iff in Hq as (p & <- & Hp).
  destruct (cond p && gorm.live p); [|auto]. exact (H p Hp).
Qed.

Lemma Save_keeps_owner p' t :
  owned_if_private p' ->
  (forall p, In p t -> owned_if_private p) ->
  forall q, In q (gorm.Save p' t) -> owned_if_private q.
Proof.
  intros Hp' H q. unfold gorm.Save. destruct (existsb _ t).
  - intros Hq. apply in_map_iff in Hq as (p & <- & Hp).
    destruct ((ID p =? ID p')%string && gorm.live p); auto.
  - intros Hq. apply in_app_or in Hq as [Hq|[<-|[]]]; auto.
Qed.

Lemma CreatePaste_keeps_owner db now draws title content language isPrivate
    unlisted expiresIn userID :
  private_has_owner db ->
  private_has_owner (snd (CreatePaste db now draws title content language isPrivate
                                      unlisted expiresIn userID)).
Proof.
  intros Hinv.
  destruct (CreatePaste db now draws title content language isPrivate unlisted
              expiresIn userID) as [[p|e] db'] eqn:E; simpl.
  - destruct (CreatePaste_Ok_valid _ _ _ _ _ _ _ _ _ _ _ _ E) as (_ & _ & Hpriv).
    destruct (CreatePaste_Ok_cases _ _ _ _ _ _ _ _ _ _ _ _ E)
      as [[_ ->] | (_ & Hps & _ & _ & _ & _ & _ & Hp)]; [assumption|].
    intros q Hq. rewrite Hps in Hq. apply in_app_or in Hq as [Hq|[<-|[]]].
    + now apply Hinv.
    + subst p. exact Hpriv.
  - now rewrite (CreatePaste_Err_store _ _ _ _ _ _ _ _ _ _ _ _ E).
Qed.

Lemma UpdatePaste_keeps_owner db now pasteID title content language unlisted userID :
  private_has_owner db ->
  private_has_owner (snd (UpdatePaste db now pasteID title content language unlisted
                                      userID)).
Proof.
  intros Hinv. unfold UpdatePaste.
  destruct (gorm.First _ _) as [old|] eqn:E; [|assumption].
  destruct (owned_by userID old) eqn:Ho; simpl; [|assumption].
  intros q Hq. simpl in Hq. revert q Hq. apply Save_keeps_owner; [|exact Hinv].
  intros _. simpl. apply owned_by_true in Ho. congruence.
Qed.

Lemma DeletePaste_keeps_owner db now pasteID userID :
  private_has_owner db ->
  private_has_owner (snd (DeletePaste db now pasteID userID)).
Proof.
  intros Hinv. unfold DeletePaste.
  destruct (gorm.First _ _) as [old|]; [|assumption].
  destruct (negb (owned_by userID old)); [assumption|].
  intros q Hq. simpl in Hq. revert q Hq. apply Delete_keeps_owner. exact Hinv.
Qed.

Lemma CleanupExpiredPastes_keeps_owner db now :
  private_has_owner db -> private_has_owner (snd (CleanupExpiredPastes db now)).
Proof.
  intros Hinv q Hq. rewrite CleanupExpiredPastes_eq in Hq. simpl in Hq.
  revert q Hq. apply (Delete_keeps_owner (expired_before now) now). exact Hinv.
Qed.

End OwnerInvariant.

Lemma step_keeps_owner db db' :
  private_has_owner db -> step db db' -> private_has_owner db'.
Proof.
  intros Hinv Hstep. destruct Hstep.
  - now apply CreatePaste_keeps_owner.
  - now apply UpdatePaste_keeps_owner.
  - now apply DeletePaste_keeps_owner.
  - now apply CleanupExpiredPastes_keeps_owner.
Qed.

(** C7.  Every stored paste that is private has an owner: Create refuses
    a private paste without an owner and leaves the store as it was; each
    writing call of the service (create, also on a dedup hit, update,
    delete, sweep) keeps the property; so it holds in every store the
    service builds from an empty table, and of every paste a Create
    returns from such a store. *)
Theorem private_paste_has_owner :
  (forall db now draws title content language unlisted expiresIn,
      CreatePaste db now draws title content language true unlisted expiresIn None
      = (Err (errors_New "paste content cannot be empty"), db)
      \/ CreatePaste db now draws title content language true unlisted expiresIn None
         = (Err (errors_New "paste too large (max 10MB)"), db)
      \/ CreatePaste db now draws title content language true unlisted expiresIn None
         = (Err (errors_New "must be logged in to create private pastes"), db))
  /\ (forall db db', private_has_owner db -> step db db' -> private_has_owner db')
  /\ (forall db, reachable db -> private_has_owner db)
  /\ (forall db now draws title content language isPrivate unlisted expiresIn userID
             p db',
         reachable db ->
         CreatePaste db now draws title content language isPrivate unlisted expiresIn
                     userID = (Ok p, db') ->
         IsPrivate p = true -> UserID p <> None).
Proof.
  assert (forall db, reachable db -> private_has_owner db) as Hreach.
  { intros db Hr. induction Hr as [us | db db' _ IH Hstep].
    - intros p [].
    - exact (step_keeps_owner db db' IH Hstep). }
  split; [|split; [|split]].
  - intros db now draws title content language unlisted expiresIn. unfold CreatePaste.
    destruct (String.length content =? 0)%nat; [now left|].
    destruct (Z.of_nat (String.length content) >? MaxPasteSize); [right; now left|].
    right; right; reflexivity.
  - exact step_keeps_owner.
  - exact Hreach.
  - intros db now draws title content language isPrivate unlisted expiresIn userID
           p db' Hr H.
    assert (private_has_owner db') as Hinv'.
    { apply Hreach. apply (reachable_step db db' Hr).
      replace db' with (snd (CreatePaste db now draws title content language isPrivate
                                         unlisted expiresIn userID))
        by (rewrite H; reflexivity).
      constructor. }
    apply Hinv'.
    destruct (CreatePaste_Ok_cases _ _ _ _ _ _ _ _ _ _ _ _ H)
      as [[Hf ->] | (_ & Hps & _)].
    + now apply First_Some in Hf.
    + rewrite Hps. apply in_or_app. right. now left.
Qed.

Lemma store_short_reachable : reachable store_short.
Proof.
  unfold store_short, store_secret, store_hello.
  repeat (eapply reachable_step; [|apply step_create]).
  apply reachable_new.
Qed.

Lemma private_paste_has_owner_witness :
  private_has_owner store_short
  /\ private_has_owner (snd (UpdatePaste store_short (t0 + one_hour) "bbbbbbbb" "journal"
                                         "new text" "markdown" true alice)).
Proof.
  destruct private_paste_has_owner as (_ & Hstep & Hreach & _).
  pose proof (Hreach store_short store_short_reachable) as Hinv.
  split; [exact Hinv|].
  apply (Hstep store_short); [exact Hinv|]. apply step_update.
Defined.

(** ** C8: Login gives one error *)

Lemma First_user_In name us u :
  gorm.First_user name us = Some u -> In u us /\ Username u = name.
Proof.
  unfold gorm.First_user.
  assert (forall sel, fold_right (fun u acc =>
                  match acc with
                  | None => Some u
                  | Some v => if (uID u <=? uID v)%N then Some u else Some v
                  end) None sel = Some u -> In u sel) as Hsel.
  { induction sel as [|x sel IH]; simpl; [discriminate|].
    destruct (fold_right _ None sel) as [v|].
    - destruct (uID x <=? uID v)%N; intros H; injection H as <-; auto.
    - intros H; injection H as <-; auto. }
  intros H. apply Hsel in H. apply filter_In in H as [Hin Hn].
  apply String.eqb_eq in Hn. auto.
Qed.

Lemma First_user_absent name us :
  (forall u, In u us -> Username u <> name) -> gorm.First_user name us = None.
Proof.
  intros H. destruct (gorm.First_user name us) as [u|] eqn:E; [|reflexivity].
  apply First_user_In in E as [Hin Hn]. destruct (H u Hin Hn).
Qed.

(** C8.  Whatever the password check is, Login returns the same error,
    "invalid username or password", when no user has the username and when
    the user found has another password; every error Login returns is that
    one. *)
Theorem Login_generic_error :
  forall (CompareHashAndPassword : string -> string -> bool) db username password,
    ((forall u, In u (users db) -> Username u <> username) ->
     Login CompareHashAndPassword db username password
     = Err (errors_New "invalid username or password"))
    /\ (forall user,
           gorm.First_user username (users db) = Some user ->
           CompareHashAndPassword (PasswordHash user) password = false ->
           Login CompareHashAndPassword db username password
           = Err (errors_New "invalid username or password"))
    /\ (forall e,
           Login CompareHashAndPassword db username password = Err e ->
           e = errors_New "invalid username or password").
Proof.
  intros cmp db username password. unfold Login. split; [|split].
  - intros Habs. now rewrite (First_user_absent _ _ Habs).
  - intros user -> ->. reflexivity.
  - intros e. destruct (gorm.First_user username (users db)) as [user|].
    + destruct (cmp (PasswordHash user) password); simpl; [discriminate|].
      intros H; now injection H as <-.
    + intros H; now injection H as <-.
Qed.

Lemma Login_generic_error_witness :
  Login sample_compare registered "carol" "hunter2x"
  = Login sample_compare registered "alice" "hunter2x"
  /\ Login sample_compare registered "alice" "alice" = Ok alice_row.
Proof.
  split; [|reflexivity].
  destruct (Login_generic_error sample_compare registered "carol" "hunter2x")
    as (Habsent & _ & _).
  destruct (Login_generic_error sample_compare registered "alice" "hunter2x")
    as (_ & Hwrong & _).
  rewrite Habsent, (Hwrong alice_row); try reflexivity.
  intros u [<-|[<-|[]]]; discriminate.
Defined.

(** ** C9: what the dedup lookup looks at *)



(** ** C10: Update does not check the content *)

(** C10.  For a live paste and its owner, Update succeeds with any content
    whatsoever, the empty one and one over 10 MiB included, and stores it,
    although Create refuses such content; and Update fails only when no
    live paste has the ID or when the paste found is not owned by the
    caller. *)
Theorem UpdatePaste_no_validation :
  forall db now p title content language unlisted userID,
    unique_ids (pastes db) ->
    In p (pastes db) -> gorm.live p = true -> UserID p = Some userID ->
    (exists p' db',
        UpdatePaste db now (ID p) title content language unlisted userID = (Ok p', db')
        /\ Content p' = content /\ In p' (pastes db'))
    /\ (String.length content = 0%nat
        \/ Z.of_nat (String.length content) > 10 * 1024 * 1024 ->
        forall draws isPrivate expiresIn,
        exists e,
          CreatePaste db now draws title content language isPrivate unlisted expiresIn
                      (Some userID) = (Err e, db) /\ ValidationError e)
    /\ (forall pasteID caller,
           (exists e, fst (UpdatePaste db now pasteID title content language unlisted
                                       caller) = Err e)
           <-> (gorm.First (has_id pasteID) (pastes db) = None
                \/ exists q, gorm.First (has_id pasteID) (pastes db) = Some q
                             /\ UserID q <> Some caller)).
Proof.
  intros db now p title content language unlisted userID Hu Hin Hl Ho.
  split; [|split].
  - unfold UpdatePaste. rewrite (First_by_id _ _ Hu Hin Hl).
    assert (owned_by userID p = true) as -> by now apply owned_by_true.
    simpl. eexists. eexists. split; [reflexivity|]. split; [reflexivity|].
    simpl.
    match goal with |- In ?new _ =>
      destruct (Save_replace (pastes db) p new Hu Hin Hl eq_refl) as (l1 & l2 & _ & ->)
    end.
    apply in_or_app. right. now left.
  - intros Hbad draws isPrivate expiresIn. apply CreatePaste_rejects.
    intros (Hne & Hle & _). rewrite MaxPasteSize_eq in Hle.
    destruct Hbad as [H0|Hgt]; [contradiction|lia].
  - intros pasteID caller. unfold UpdatePaste.
    destruct (gorm.First (has_id pasteID) (pastes db)) as [q|].
    + destruct (owned_by caller q) eqn:Eo; simpl.
      * split.
        -- intros (e & He). discriminate.
        -- intros [H|(q' & Hq' & Hno)]; [discriminate|].
           injection Hq' as <-. apply owned_by_true in Eo. contradiction.
      * split; [|eauto]. intros _. right. exists q. split; [reflexivity|].
        intros Hq. apply owned_by_true in Hq. congruence.
    + simpl. split; eauto.
Qed.

Lemma UpdatePaste_no_validation_witness :
  exists p' db',
    UpdatePaste store_short (t0 + one_hour) "bbbbbbbb" "" "" "" false alice
    = (Ok p', db')
    /\ Content p' = "" /\ In p' (pastes db').
Proof.
  apply (UpdatePaste_no_validation store_short (t0 + one_hour)
           (mkPaste "bbbbbbbb" "diary" "secret" (computeFileHash "secret") "text"
                    true false None (Some alice) None t0 t0 None)
           "" "" "" false alice).
  - exact store_short_unique.
  - vm_compute. right. left. reflexivity.
  - reflexivity.
  - reflexivity.
Defined.

(** * The other service methods: properties *)

(** ** Deleting a paste, and who may write *)

(** The live rows a condition selects after a soft delete are those it
    selected before, less the deleted ones. *)
Lemma Where_after_Delete cond c now t :
  gorm.Where cond (fst (gorm.Delete c now t))
  = gorm.Where (fun q => cond q && negb (c q)) t.
Proof.
  unfold gorm.Where. simpl. induction t as [|a t IH]; [reflexivity|]. simpl.
  destruct (gorm.live a) eqn:L.
  - destruct (c a); simpl.
    + rewrite !andb_false_r. exact IH.
    + rewrite L, !andb_true_r. destruct (cond a); simpl; now rewrite IH.
  - rewrite !andb_false_r. simpl. rewrite L, !andb_false_r. exact IH.
Qed.

Lemma First_other_after_Delete pasteID p now t :
  pasteID <> ID p ->
  gorm.First (has_id pasteID) (fst (gorm.Delete (has_id (ID p)) now t))
  = gorm.First (has_id pasteID) t.
Proof.
  intros Hne. unfold gorm.First. rewrite Where_after_Delete. f_equal.
  unfold gorm.Where. apply filter_ext. intros q. unfold has_id.
  destruct (ID q =? pasteID)%string eqn:E; [|reflexivity].
  apply String.eqb_eq in E. subst pasteID.
  apply String.eqb_neq in Hne. now rewrite Hne.
Qed.

Lemma First_same_after_Delete pasteID now t :
  gorm.First (has_id pasteID) (fst (gorm.Delete (has_id pasteID) now t)) = None.
Proof.
  unfold gorm.First. rewrite Where_after_Delete. unfold gorm.Where.
  replace (filter _ t) with (@nil Paste); [reflexivity|].
  symmetry. induction t as [|a t IH]; [reflexivity|]. simpl.
  destruct (has_id pasteID a); simpl; exact IH.
Qed.

(** X1.  A caller who is not the owner of a live paste can neither update
    nor delete it: both calls return their ownership error and leave the
    store as it was, and CanEdit answers false.  This covers anonymous
    pastes, which nobody can edit or delete. *)
Theorem non_owner_cannot_write :
  forall db now p caller title content language unlisted,
    unique_ids (pastes db) ->
    In p (pastes db) -> gorm.live p = true -> UserID p <> Some caller ->
    UpdatePaste db now (ID p) title content language unlisted caller
    = (Err (errors_New "you can only edit your own pastes"), db)
    /\ DeletePaste db now (ID p) caller
       = (Some (errors_New "you can only delete your own pastes"), db)
    /\ CanEdit db (ID p) caller = false.
Proof.
  intros db now p caller title content language unlisted Hu Hin Hl Hno.
  assert (owned_by caller p = false) as Ho.
  { destruct (owned_by caller p) eqn:E; [|reflexivity].
    apply owned_by_true in E. contradiction. }
  unfold UpdatePaste, DeletePaste, CanEdit.
  rewrite (First_by_id _ _ Hu Hin Hl), Ho. simpl. repeat split.
  destruct (gorm.First _ _) as [q|] eqn:E; [|reflexivity].
  apply First_Some in E as (Hq & Hc & _). apply andb_true_iff in Hc as [Hid Hoq].
  apply String.eqb_eq in Hid.
  rewrite (unique_ids_inj _ _ _ Hu Hq Hin Hid) in Hoq. congruence.
Qed.

Lemma non_owner_cannot_write_witness :
  UpdatePaste store_short (t0 + one_hour) "aaaaaaaa" "" "mine now" "text" false bob
  = (Err (errors_New "you can only edit your own pastes"), store_short)
  /\ DeletePaste store_short (t0 + one_hour) "bbbbbbbb" bob
     = (Some (errors_New "you can only delete your own pastes"), store_short).
Proof.
  split.
  - apply (non_owner_cannot_write store_short (t0 + one_hour)
             (mkPaste "aaaaaaaa" "" "hello" (computeFileHash "hello") "text" false
                      false None None None t0 t0 None)
             bob "" "mine now" "text" false).
    + exact store_short_unique.
    + vm_compute. left. reflexivity.
    + reflexivity.
    + discriminate.
  - apply (non_owner_cannot_write store_short (t0 + one_hour)
             (mkPaste "bbbbbbbb" "diary" "secret" (computeFileHash "secret") "text"
                      true false None (Some alice) None t0 t0 None)
             bob "" "" "" false).
    + exact store_short_unique.
    + vm_compute. right. left. reflexivity.
    + reflexivity.
    + discriminate.
Defined.

(** X2.  When its owner deletes a live paste the call succeeds; from then
    on Get reports the paste as not found to every viewer at every time, a
    second delete fails with "paste not found", every other ID reads as
    before, and yet the row keeps its place in the table (the delete is a
    tombstone): no primary key is freed. *)
Theorem DeletePaste_by_owner :
  forall db now p owner,
    unique_ids (pastes db) ->
    In p (pastes db) -> gorm.live p = true -> UserID p = Some owner ->
    let db' := snd (DeletePaste db now (ID p) owner) in
    fst (DeletePaste db now (ID p) owner) = None
    /\ (forall later viewerUserID,
           GetPaste db' later (ID p) viewerUserID = Err (errors_New "paste not found"))
    /\ (forall later caller,
           DeletePaste db' later (ID p) caller
           = (Some (errors_New "paste not found"), db'))
    /\ (forall later pasteID viewerUserID,
           pasteID <> ID p ->
           GetPaste db' later pasteID viewerUserID
           = GetPaste db later pasteID viewerUserID)
    /\ map ID (pastes db') = map ID (pastes db)
    /\ users db' = users db.
Proof.
  intros db now p owner Hu Hin Hl Ho db'. subst db'. unfold DeletePaste.
  rewrite (First_by_id _ _ Hu Hin Hl).
  assert (owned_by owner p = true) as -> by now apply owned_by_true.
  cbn [negb fst snd pastes users]. split; [reflexivity|].
  split; [|split; [|split; [|split]]].
  - intros later viewer. unfold GetPaste. cbn [pastes].
    now rewrite First_same_after_Delete.
  - intros later caller. cbn [pastes]. now rewrite First_same_after_Delete.
  - intros later pasteID viewer Hne. unfold GetPaste. cbn [pastes users].
    now rewrite First_other_after_Delete.
  - apply Delete_ids.
  - reflexivity.
Qed.

Lemma DeletePaste_by_owner_witness :
  fst (DeletePaste store_short (t0 + one_hour) "bbbbbbbb" alice) = None
  /\ GetPaste (snd (DeletePaste store_short (t0 + one_hour) "bbbbbbbb" alice))
              (t0 + one_hour) "bbbbbbbb" (Some alice)
     = Err (errors_New "paste not found")
  /\ map ID (pastes (snd (DeletePaste store_short (t0 + one_hour) "bbbbbbbb" alice)))
     = ["aaaaaaaa"; "bbbbbbbb"; "cccccccc"].
Proof.
  destruct (DeletePaste_by_owner store_short (t0 + one_hour)
              (mkPaste "bbbbbbbb" "diary" "secret" (computeFileHash "secret") "text"
                       true false None (Some alice) None t0 t0 None)
              alice store_short_unique)
    as (Hnil & Hget & _ & _ & Hids & _).
  - vm_compute. right. left. reflexivity.
  - reflexivity.
  - reflexivity.
  - split; [exact Hnil|]. split; [apply Hget|].
    etransitivity; [exact Hids|]. vm_compute. reflexivity.
Defined.

(** X3.  On a table with unique IDs, CanEdit answers true exactly when an
    Update by that caller would succeed, and exactly when a Delete by that
    caller would. *)
Theorem CanEdit_iff_may_write :
  forall db now pasteID caller title content language unlisted,
    unique_ids (pastes db) ->
    (CanEdit db pasteID caller = true
     <-> exists p' db',
          UpdatePaste db now pasteID title content language unlisted caller
          = (Ok p', db'))
    /\ (CanEdit db pasteID caller = true
        <-> fst (DeletePaste db now pasteID caller) = None).
Proof.
  intros db now pasteID caller title content language unlisted Hu.
  assert (CanEdit db pasteID caller = true
          <-> exists p, gorm.First (has_id pasteID) (pastes db) = Some p
                        /\ owned_by caller p = true) as Hcan.
  { unfold CanEdit. split.
    - destruct (gorm.First (fun p => has_id pasteID p && owned_by caller p) (pastes db))
        as [q|] eqn:E; [|discriminate]. intros _.
      apply First_Some in E as (Hq & Hc & Hl). apply andb_true_iff in Hc as [Hid Ho].
      exists q. split; [|assumption].
      unfold has_id in Hid. apply String.eqb_eq in Hid. subst pasteID.
      now apply First_by_id.
    - intros (p & Hf & Ho). apply First_Some in Hf as (Hin & Hid & Hl).
      destruct (First_found (fun q => has_id pasteID q && owned_by caller q)
                  (pastes db) p Hin) as [q ->]; auto.
      now rewrite Hid, Ho. }
  split; rewrite Hcan.
  - unfold UpdatePaste. destruct (gorm.First (has_id pasteID) (pastes db)) as [p|].
    + destruct (owned_by caller p) eqn:Eo; simpl; split.
      * eauto.
      * eauto.
      * intros (q & Hq & Hq'). injection Hq as <-. congruence.
      * intros (p' & db' & H). discriminate.
    + split; [intros (p & H & _)|intros (p' & db' & H)]; discriminate.
  - unfold DeletePaste. destruct (gorm.First (has_id pasteID) (pastes db)) as [p|].
    + destruct (owned_by caller p) eqn:Eo; simpl; split.
      * reflexivity.
      * eauto.
      * intros (q & Hq & Hq'). injection Hq as <-. congruence.
      * discriminate.
    + simpl. split; [intros (p & H & _)|]; discriminate.
Qed.

Lemma CanEdit_iff_may_write_witness :
  CanEdit store_short "bbbbbbbb" alice = true
  /\ fst (DeletePaste store_short (t0 + one_hour) "bbbbbbbb" alice) = None.
Proof.
  destruct (CanEdit_iff_may_write store_short (t0 + one_hour) "bbbbbbbb" alice
              "" "" "" false store_short_unique) as (_ & Hdel).
  assert (CanEdit store_short "bbbbbbbb" alice = true) as Hcan
      by (vm_compute; reflexivity).
  split; [exact Hcan|]. apply Hdel. exact Hcan.
Defined.

(** ** Listings *)

Section OrderFacts.

Variable Row : Type.
Variable created_at : Row -> time.Time.

Let newer_first (a b : Row) : Prop := created_at b <= created_at a.

Lemma insert_desc_perm x rows :
  Permutation (sql.insert_desc created_at x rows) (x :: rows).
Proof.
  induction rows as [|y rest IH]; simpl; [reflexivity|].
  destruct (created_at y <=? created_at x); [reflexivity|].
  rewrite IH. apply perm_swap.
Qed.

Lemma Order_perm rows :
  Permutation (sql.Order_created_at_DESC created_at rows) rows.
Proof.
  induction rows as [|x rest IH]; simpl; [reflexivity|].
  rewrite insert_desc_perm. now constructor.
Qed.

Lemma insert_desc_sorted x rows :
  StronglySorted newer_first rows ->
  StronglySorted newer_first (sql.insert_desc created_at x rows).
Proof.
  induction 1 as [|y rest Hs IH Hall]; simpl.
  - repeat constructor.
  - destruct (Z.leb_spec (created_at y) (created_at x)) as [Hle|Hgt].
    + constructor; [now constructor|]. constructor.
      * exact Hle.
      * eapply Forall_impl; [|exact Hall]. unfold newer_first. intros z Hz. lia.
    + constructor; [exact IH|].
      eapply Permutation_Forall; [symmetry; apply insert_desc_perm|].
      constructor; [unfold newer_first; lia | exact Hall].
Qed.

Lemma Order_sorted rows :
  StronglySorted newer_first (sql.Order_created_at_DESC created_at rows).
Proof.
  induction rows as [|x rest IH]; simpl; [constructor|].
  now apply insert_desc_sorted.
Qed.

End OrderFacts.

(** X4.  The public listing holds exactly the live pastes that are neither
    private nor unlisted, each as often as it is stored and with its owner
    loaded, most recent first.  It never shows a private, unlisted or
    deleted paste; it does not look at the expiration instant, so an
    expired paste stays listed until it is swept. *)
Theorem GetAllPublicPastes_lists :
  forall db,
    Permutation (GetAllPublicPastes db)
                (map (gorm.Preload_User (users db))
                     (filter (fun p => negb (IsPrivate p) && negb (Unlisted p)
                                       && gorm.live p) (pastes db)))
    /\ StronglySorted (fun a b => CreatedAt b <= CreatedAt a) (GetAllPublicPastes db)
    /\ (forall q, In q (GetAllPublicPastes db) ->
                  IsPrivate q = false /\ Unlisted q = false /\ DeletedAt q = None)
    /\ (forall p now,
           In p (pastes db) -> gorm.live p = true ->
           IsPrivate p = false -> Unlisted p = false ->
           expired_before now p = true ->
           In (gorm.Preload_User (users db) p) (GetAllPublicPastes db)).
Proof.
  intros db.
  assert (Permutation (GetAllPublicPastes db)
            (map (gorm.Preload_User (users db))
               (filter (fun p => negb (IsPrivate p) && negb (Unlisted p)
                                 && gorm.live p) (pastes db)))) as Hperm.
  { unfold GetAllPublicPastes. apply Permutation_map. apply Order_perm. }
  split; [exact Hperm|]. split; [|split].
  - unfold GetAllPublicPastes.
    pose proof (Order_sorted Paste CreatedAt (gorm.Where public_listed (pastes db))) as Hs.
    induction Hs as [|a l Hs IH Hall]; simpl; constructor; [exact IH|].
    apply Forall_map. eapply Forall_impl; [|exact Hall]. intros b Hb. exact Hb.
  - intros q Hq. apply (Permutation_in _ Hperm) in Hq.
    apply in_map_iff in Hq as (p & <- & Hp). apply filter_In in Hp as [_ Hc].
    apply andb_true_iff in Hc as [Hc Hl]. apply andb_true_iff in Hc as [Hp Hun].
    apply negb_true_iff in Hp, Hun. simpl. repeat split; auto.
    unfold gorm.live in Hl. destruct (DeletedAt p); [discriminate|reflexivity].
  - intros p now Hin Hl Hp Hun _. apply (Permutation_in _ (Permutation_sym Hperm)).
    apply in_map. apply filter_In. split; [assumption|]. now rewrite Hp, Hun, Hl.
Qed.

Lemma GetAllPublicPastes_lists_witness :
  List.length (GetAllPublicPastes store_short) = 2%nat
  /\ In (gorm.Preload_User (users store_short)
           (mkPaste "cccccccc" "note" "short-lived" (computeFileHash "short-lived")
                    "text" false false (Some (t0 + 10 * time.Minute)) (Some alice)
                    None t0 t0 None))
        (GetAllPublicPastes store_short).
Proof.
  split; [vm_compute; reflexivity|].
  destruct (GetAllPublicPastes_lists store_short) as (_ & _ & _ & Hexp).
  apply (Hexp _ (t0 + one_hour)).
  - vm_compute. right. right. left. reflexivity.
  - reflexivity.
  - reflexivity.
  - reflexivity.
  - reflexivity.
Defined.

(** X5.  A user's own listing holds exactly the live pastes that user
    owns, private, unlisted and expired ones included, each as often as
    stored, most recent first; it never holds a paste of another user or
    an anonymous one. *)
Theorem GetUserPastes_lists :
  forall db userID,
    Permutation (GetUserPastes db userID)
                (filter (fun p => owned_by userID p && gorm.live p) (pastes db))
    /\ StronglySorted (fun a b => CreatedAt b <= CreatedAt a) (GetUserPastes db userID)
    /\ (forall q, In q (GetUserPastes db userID) <->
                  In q (pastes db) /\ UserID q = Some userID /\ DeletedAt q = None).
Proof.
  intros db userID.
  assert (Permutation (GetUserPastes db userID)
            (filter (fun p => owned_by userID p && gorm.live p) (pastes db))) as Hperm
      by apply Order_perm.
  split; [exact Hperm|]. split; [apply Order_sorted|].
  intros q. split.
  - intros Hq. apply (Permutation_in _ Hperm) in Hq. apply filter_In in Hq as [Hin Hc].
    apply andb_true_iff in Hc as [Ho Hl]. apply owned_by_true in Ho.
    repeat split; auto. unfold gorm.live in Hl.
    destruct (DeletedAt q); [discriminate|reflexivity].
  - intros (Hin & Ho & Hd). apply (Permutation_in _ (Permutation_sym Hperm)).
    apply filter_In. split; [assumption|]. apply owned_by_true in Ho.
    unfold gorm.live. now rewrite Ho, Hd.
Qed.

(** ** Reading back what was written *)

(** What [GetPaste] answers for a live row of a table with unique IDs. *)
Lemma GetPaste_live_row db later p viewerUserID :
  unique_ids (pastes db) -> In p (pastes db) -> gorm.live p = true ->
  ((forall e, ExpiresAt p = Some e -> later <= e) ->
   may_read viewerUserID p ->
   GetPaste db later (ID p) viewerUserID = Ok (gorm.Preload_User (users db) p))
  /\ ((exists e, ExpiresAt p = Some e /\ e < later) ->
      GetPaste db later (ID p) viewerUserID = Err (errors_New "paste not found")).
Proof.
  intros Hu Hin Hl. split.
  - intros Hexp Hread. unfold GetPaste. rewrite (First_by_id _ _ Hu Hin Hl). simpl.
    assert (match ExpiresAt p with
            | Some e => time.After later e
            | None => false
            end = false) as ->.
    { destruct (ExpiresAt p) as [e|]; [|reflexivity].
      unfold time.After. apply Z.ltb_ge. now apply Hexp. }
    destruct Hread as [-> | (u & -> & ->)]; [reflexivity|].
    now rewrite N.eqb_refl, andb_false_r.
  - intros (e & He & Hlt).
    apply (GetPaste_expired db later (ID p) viewerUserID p e); auto.
    now apply First_by_id.
Qed.

(** When the dedup query finds a row, [CreatePaste] stores nothing. *)
Lemma CreatePaste_hit_keeps_store db now draws title content language isPrivate
    unlisted expiresIn userID q :
  gorm.First (same_hash_and_scope (computeFileHash content) userID) (pastes db)
  = Some q ->
  snd (CreatePaste db now draws title content language isPrivate unlisted expiresIn
                   userID) = db.
Proof.
  intros Hq.
  destruct (CreatePaste db now draws title content language isPrivate unlisted
              expiresIn userID) as [[p|e] db'] eqn:E; simpl.
  - destruct (CreatePaste_Ok_cases _ _ _ _ _ _ _ _ _ _ _ _ E)
      as [[_ ->] | (Hf & _)]; [reflexivity|congruence].
  - exact (CreatePaste_Err_store _ _ _ _ _ _ _ _ _ _ _ _ E).
Qed.

(** X6.  A paste that Create returns can be read back under its ID: until
    its expiration instant (for ever when it has none) Get returns it,
    with the owner loaded, to every viewer when it is public and to its
    owner when it is private; after that instant Get reports not found.
    When the paste is a new row, it carries the submitted title, content
    and flags under an ID no row had before. *)
Theorem CreatePaste_then_GetPaste :
  forall db now draws title content language isPrivate unlisted expiresIn userID p db',
    unique_ids (pastes db) ->
    CreatePaste db now draws title content language isPrivate unlisted expiresIn userID
    = (Ok p, db') ->
    ContentHash p = computeFileHash content /\ UserID p = userID
    /\ (forall later viewerUserID,
           (forall e, ExpiresAt p = Some e -> later <= e) ->
           may_read viewerUserID p ->
           GetPaste db' later (ID p) viewerUserID
           = Ok (gorm.Preload_User (users db') p))
    /\ (forall later viewerUserID e,
           ExpiresAt p = Some e -> e < later ->
           GetPaste db' later (ID p) viewerUserID = Err (errors_New "paste not found"))
    /\ (gorm.First (same_hash_and_scope (computeFileHash content) userID) (pastes db)
        = None ->
        Title p = title /\ Content p = content /\ IsPrivate p = isPrivate
        /\ Unlisted p = unlisted /\ ExpiresAt p = expiry now expiresIn
        /\ CreatedAt p = now
        /\ ~ In (ID p) (map ID (pastes db))).
Proof.
  intros db now draws title content language isPrivate unlisted expiresIn userID p db'
         Hu H.
  pose proof (CreatePaste_keeps_unique db now draws title content language isPrivate
                unlisted expiresIn userID Hu) as Hu'.
  rewrite H in Hu'. simpl in Hu'.
  assert (In p (pastes db') /\ gorm.live p = true
          /\ ContentHash p = computeFileHash content /\ UserID p = userID)
    as (Hin & Hl & Hh & Hs).
  { destruct (CreatePaste_Ok_cases _ _ _ _ _ _ _ _ _ _ _ _ H)
      as [[Hf ->] | (_ & Hps & _ & _ & Hh & Hs & Hl & _)].
    - destruct (First_Some _ _ _ Hf) as (Hin & Hc & Hl).
      apply same_hash_and_scope_true in Hc as [Hh Hs]. auto.
    - rewrite Hps. auto using in_or_app, in_eq. }
  split; [exact Hh|]. split; [exact Hs|]. split; [|split].
  - intros later viewer. apply (GetPaste_live_row db' later p viewer Hu' Hin Hl).
  - intros later viewer e He Hlt.
    apply (GetPaste_live_row db' later p viewer Hu' Hin Hl). eauto.
  - intros Hnone.
    destruct (CreatePaste_Ok_cases _ _ _ _ _ _ _ _ _ _ _ _ H)
      as [[Hf _] | (_ & _ & _ & Hfresh & _ & _ & _ & Hp)]; [congruence|].
    subst p. simpl in *. repeat split; auto.
Qed.

Lemma CreatePaste_then_GetPaste_witness :
  exists p db',
    CreatePaste store_secret t0 draws_c "note" "short-lived" "text" false false
                (Some 10) (Some alice) = (Ok p, db')
    /\ Content p = "short-lived"
    /\ GetPaste db' (t0 + 10 * time.Minute) (ID p) None
       = Ok (gorm.Preload_User (users db') p)
    /\ GetPaste db' (t0 + 10 * time.Minute + 1) (ID p) (Some alice)
       = Err (errors_New "paste not found").
Proof.
  destruct (CreatePaste store_secret t0 draws_c "note" "short-lived" "text" false
              false (Some 10) (Some alice)) as [r db'] eqn:H.
  assert (exists p, r = Ok p) as [p ->].
  { vm_compute in H. injection H as <- _. eauto. }
  exists p, db'. split; [reflexivity|].
  assert (unique_ids (pastes store_secret)) as Hu
      by (repeat apply CreatePaste_keeps_unique; constructor).
  destruct (CreatePaste_then_GetPaste store_secret t0 draws_c "note" "short-lived"
              "text" false false (Some 10) (Some alice) p db' Hu H)
    as (_ & _ & Hread & Hgone & Hnew).
  destruct Hnew as (_ & Hc & Hpriv & _ & Hexp & _); [vm_compute; reflexivity|].
  split; [exact Hc|]. split.
  - apply Hread; [|left; exact Hpriv].
    intros e He. rewrite Hexp in He. vm_compute in He. injection He as <-.
    vm_compute. discriminate.
  - apply (Hgone _ _ (t0 + 10 * time.Minute)); [rewrite Hexp|]; vm_compute; reflexivity.
Defined.

(** X7.  After a successful Update the owner reads the new content back
    under the same ID (until the unchanged expiration instant), and the
    dedup lookup sees the new fingerprint: a Create of that content by the
    owner stores no new row. *)
Theorem UpdatePaste_then_read :
  forall db now pasteID title content language unlisted userID p' db',
    unique_ids (pastes db) ->
    UpdatePaste db now pasteID title content language unlisted userID = (Ok p', db') ->
    ID p' = pasteID /\ Content p' = content
    /\ (forall later,
           (forall e, ExpiresAt p' = Some e -> later <= e) ->
           GetPaste db' later pasteID (Some userID)
           = Ok (gorm.Preload_User (users db') p'))
    /\ (forall later draws title' language' isPrivate' unlisted' expiresIn',
           snd (CreatePaste db' later draws title' content language' isPrivate'
                            unlisted' expiresIn' (Some userID)) = db').
Proof.
  intros db now pasteID title content language unlisted userID p' db' Hu H.
  assert (unique_ids (pastes db')) as Hu'.
  { replace db' with (snd (UpdatePaste db now pasteID title content language unlisted
                                       userID)) by (rewrite H; reflexivity).
    apply (step_keeps_unique db); [exact Hu|constructor]. }
  destruct (UpdatePaste_Ok _ _ _ _ _ _ _ _ _ _ H) as (old & Hf & Ho & Hp & Hdb).
  destruct (First_Some _ _ _ Hf) as (Hin & Hid & Hl).
  apply String.eqb_eq in Hid. apply owned_by_true in Ho.
  assert (In p' (pastes db')) as Hin'.
  { rewrite Hdb. simpl.
    destruct (Save_replace (pastes db) old p' Hu Hin Hl) as (l1 & l2 & _ & ->).
    - subst p'. reflexivity.
    - apply in_or_app. right. now left. }
  assert (gorm.live p' = true) as Hl' by (subst p'; exact Hl).
  assert (ID p' = pasteID) as Hid' by (subst p'; exact Hid).
  split; [exact Hid'|]. split; [subst p'; reflexivity|]. split.
  - intros later Hexp. rewrite <- Hid'.
    apply (GetPaste_live_row db' later p' (Some userID) Hu' Hin' Hl'); [exact Hexp|].
    right. exists userID. split; [reflexivity|]. subst p'. exact Ho.
  - intros later draws title' language' isPrivate' unlisted' expiresIn'.
    destruct (First_found (same_hash_and_scope (computeFileHash content) (Some userID))
                (pastes db') p' Hin') as [q Hq]; auto.
    { apply same_hash_and_scope_true. subst p'. auto. }
    now apply CreatePaste_hit_keeps_store with (q := q).
Qed.

Lemma UpdatePaste_then_read_witness :
  exists p' db',
    UpdatePaste store_short (t0 + one_hour) "bbbbbbbb" "journal" "new text" "markdown"
                true alice = (Ok p', db')
    /\ GetPaste db' (t0 + one_hour) "bbbbbbbb" (Some alice)
       = Ok (gorm.Preload_User (users db') p')
    /\ Content p' = "new text".
Proof.
  destruct (UpdatePaste store_short (t0 + one_hour) "bbbbbbbb" "journal" "new text"
              "markdown" true alice) as [r db'] eqn:H.
  assert (exists p', r = Ok p' /\ ExpiresAt p' = None) as (p' & -> & Hnone).
  { vm_compute in H. injection H as <- _. eauto. }
  exists p', db'. split; [reflexivity|].
  destruct (UpdatePaste_then_read store_short (t0 + one_hour) "bbbbbbbb" "journal"
              "new text" "markdown" true alice p' db' store_short_unique H)
    as (_ & Hc & Hread & _).
  split; [|exact Hc]. apply Hread.
  intros e He. congruence.
Defined.

(** ** Identifiers and fingerprints *)

Lemma length_string_of_list_ascii l :
  String.length (string_of_list_ascii l) = List.length l.
Proof. induction l as [|c l IH]; simpl; congruence. Qed.

Lemma length_string_app (s1 s2 : string) :
  String.length (s1 ++ s2)%string = (String.length s1 + String.length s2)%nat.
Proof. induction s1 as [|c s1 IH]; simpl; congruence. Qed.

Lemma get_In i (s : string) c :
  String.get i s = Some c -> In c (list_ascii_of_string s).
Proof.
  revert i; induction s as [|a s IH]; intros i; simpl; [discriminate|].
  destruct i as [|i].
  - intros H; injection H as <-. now left.
  - intros H. right. exact (IH i H).
Qed.

(** X8.  A name from randfilename is [length] letters of the alphabet
    a-z, A-Z followed by the extension, whatever the generator draws; so
    the ID of a paste that Create stores as a new row is eight letters. *)
Theorem randfilename_shape :
  forall draws length extension,
    (exists name,
        randfilename draws length extension = (name ++ extension)%string
        /\ String.length name = length
        /\ Forall is_letter (list_ascii_of_string name))
    /\ String.length (randfilename draws length extension)
       = (length + String.length extension)%nat
    /\ (forall db now title content language isPrivate unlisted expiresIn userID p db',
           gorm.First (same_hash_and_scope (computeFileHash content) userID) (pastes db)
           = None ->
           CreatePaste db now draws title content language isPrivate unlisted
                       expiresIn userID = (Ok p, db') ->
           String.length (ID p) = 8%nat
           /\ Forall is_letter (list_ascii_of_string (ID p))).
Proof.
  intros draws length extension.
  assert (forall n ext,
             exists name,
               randfilename draws n ext = (name ++ ext)%string
               /\ String.length name = n
               /\ Forall is_letter (list_ascii_of_string name)) as Hshape.
  { intros n ext. unfold randfilename. eexists. split; [reflexivity|]. split.
    - now rewrite length_string_of_list_ascii, length_map, length_seq.
    - rewrite list_ascii_of_string_of_list_ascii. apply Forall_map, Forall_forall.
      intros i _. unfold is_letter.
      destruct (String.get (Intn draws i (String.length letterRunes)) letterRunes)
        as [c|] eqn:E.
      + exact (get_In _ _ _ E).
      + vm_compute. now left. }
  split; [apply Hshape|]. split.
  - destruct (Hshape length extension) as (name & -> & <- & _).
    apply length_string_app.
  - intros db now title content language isPrivate unlisted expiresIn userID p db'
           Hnone H.
    destruct (CreatePaste_Ok_cases _ _ _ _ _ _ _ _ _ _ _ _ H)
      as [[Hf _] | (_ & _ & _ & _ & _ & _ & _ & ->)]; [congruence|].
    cbn [ID]. destruct (Hshape 8%nat "") as (name & Hn & Hlen & Hall).
    assert (forall s : string, (s ++ "")%string = s) as Happ
        by (induction s as [|c s IH]; simpl; congruence).
    rewrite Happ in Hn. rewrite Hn. auto.
Qed.

Lemma randfilename_shape_witness :
  exists p db',
    CreatePaste registered t0 draws_b "" "hello" "text" false false None None
    = (Ok p, db')
    /\ String.length (ID p) = 8%nat.
Proof.
  destruct (CreatePaste registered t0 draws_b "" "hello" "text" false false None None)
    as [r db'] eqn:H.
  assert (exists p, r = Ok p) as [p ->].
  { vm_compute in H. injection H as <- _. eauto. }
  exists p, db'. split; [reflexivity|].
  destruct (randfilename_shape draws_b 8 "") as (_ & _ & Hid).
  apply (Hid registered t0 "" "hello" "text" false false None None p db');
    [reflexivity | exact H].
Defined.

Lemma le_bytes_length n x : List.length (md5.le_bytes n x) = n.
Proof. revert x; induction n as [|n IH]; intros x; simpl; congruence. Qed.

Lemma le_bytes_range n x : Forall (fun b => 0 <= b < 256) (md5.le_bytes n x).
Proof.
  revert x; induction n as [|n IH]; intros x; simpl; constructor; [|apply IH].
  change 255 with (Z.ones 8). rewrite Z.land_ones by lia.
  apply Z.mod_pos_bound. reflexivity.
Qed.

Lemma hex_digit_is_hex d : 0 <= d < 16 -> is_hex_digit (hex_digit d).
Proof.
  intros H.
  assert (d = 0 \/ d = 1 \/ d = 2 \/ d = 3 \/ d = 4 \/ d = 5 \/ d = 6 \/ d = 7
          \/ d = 8 \/ d = 9 \/ d = 10 \/ d = 11 \/ d = 12 \/ d = 13 \/ d = 14
          \/ d = 15) as Hd by lia.
  unfold is_hex_digit.
  repeat (destruct Hd as [-> | Hd]; [vm_compute; tauto|]).
  subst d. vm_compute. tauto.
Qed.

Lemma sprintf_x_shape bs :
  Forall (fun b => 0 <= b < 256) bs ->
  String.length (sprintf_x bs) = (2 * List.length bs)%nat
  /\ Forall is_hex_digit (list_ascii_of_string (sprintf_x bs)).
Proof.
  induction 1 as [|b bs Hb _ [IHl IHh]]; simpl; [split; [reflexivity|constructor]|].
  split; [rewrite IHl; lia|].
  constructor; [|constructor; [|exact IHh]]; apply hex_digit_is_hex.
  - split; [apply Z.div_pos; lia | apply Z.div_lt_upper_bound; lia].
  - apply Z.mod_pos_bound. reflexivity.
Qed.

(** X9.  The fingerprint of any content is 32 lower-case hexadecimal
    digits. *)
Theorem computeFileHash_shape :
  forall content,
    String.length (computeFileHash content) = 32%nat
    /\ Forall is_hex_digit (list_ascii_of_string (computeFileHash content)).
Proof.
  intros content. unfold computeFileHash, md5.Sum.
  set (st := md5.blocks _ _ _).
  assert (firstn 16 (md5.le_bytes 4 (md5.sa st) ++ md5.le_bytes 4 (md5.sb st)
                     ++ md5.le_bytes 4 (md5.sc st) ++ md5.le_bytes 4 (md5.sd st))
          = md5.le_bytes 4 (md5.sa st) ++ md5.le_bytes 4 (md5.sb st)
            ++ md5.le_bytes 4 (md5.sc st) ++ md5.le_bytes 4 (md5.sd st)) as ->.
  { apply firstn_all2. rewrite !length_app, !le_bytes_length. simpl. lia. }
  destruct (sprintf_x_shape
              (md5.le_bytes 4 (md5.sa st) ++ md5.le_bytes 4 (md5.sb st)
               ++ md5.le_bytes 4 (md5.sc st) ++ md5.le_bytes 4 (md5.sd st)))
    as [Hlen Hhex].
  { repeat (apply Forall_app; split); apply le_bytes_range. }
  split; [|exact Hhex].
  rewrite Hlen, !length_app, !le_bytes_length. reflexivity.
Qed.

(** ** Registration and login *)

Lemma filter_nil_of_existsb (A : Type) (f : A -> bool) l :
  existsb f l = false -> filter f l = [].
Proof.
  induction l as [|x l IH]; simpl; [reflexivity|].
  destruct (f x); simpl; [discriminate|exact IH].
Qed.

Lemma existsb_false_forall (A : Type) (f : A -> bool) l x :
  existsb f l = false -> In x l -> f x = false.
Proof.
  intros H Hin. destruct (f x) eqn:E; [|reflexivity].
  assert (existsb f l = true) by (apply existsb_exists; eauto). congruence.
Qed.

Lemma next_id_fresh ids seq x : In x ids -> (x < sql.next_id ids seq)%N.
Proof.
  unfold sql.next_id. intros Hin.
  assert (x <= fold_right N.max 0 ids)%N.
  { induction ids as [|y ids IH]; [destruct Hin|]. simpl.
    destruct Hin as [->|Hin]; [lia|]. specialize (IH Hin). lia. }
  lia.
Qed.

Lemma Register_Ok Gen st now salt username password user st' :
  Register Gen st now salt username password = (Ok user, st') ->
  (3 <= String.length username <= 50)%nat /\ (6 <= String.length password)%nat
  /\ existsb (fun u => (Username u =? username)%string) (users (base st)) = false
  /\ (exists h, Gen salt password = Ok h
                /\ user = mkUser (sql.next_id (map uID (users (base st))) (users_seq st))
                                 username h now)
  /\ st' = mkStore (mkDB (users (base st) ++ [user]) (pastes (base st))) (uID user)
                   (sessions st) (api_keys st) (api_keys_seq st)
                   (admins st) (admins_seq st).
Proof.
  unfold Register.
  destruct (String.length username <? 3)%nat eqn:E3; [discriminate|].
  destruct (50 <? String.length username)%nat eqn:E50; [discriminate|].
  destruct (String.length password <? 6)%nat eqn:E6; [discriminate|]. simpl.
  destruct (Gen salt password) as [h|e]; [|discriminate].
  destruct (existsb _ _) eqn:Ex; [discriminate|].
  intros H. injection H as <- <-.
  apply Nat.ltb_ge in E3, E50, E6. repeat split; eauto.
Qed.

(** X10.  Register refuses a username shorter than 3 or longer than 50
    bytes, then a password shorter than 6 bytes, then, once the password is
    hashed, a username some user already has, each with its own message;
    and whenever it fails it leaves the store as it was. *)
Theorem Register_refusals :
  forall (GenerateFromPassword : string -> string -> result string)
         st now salt username password,
    ((String.length username < 3)%nat \/ (50 < String.length username)%nat ->
     Register GenerateFromPassword st now salt username password
     = (Err (errors_New "username must be between 3 and 50 characters"), st))
    /\ ((3 <= String.length username <= 50)%nat ->
        (String.length password < 6)%nat ->
        Register GenerateFromPassword st now salt username password
        = (Err (errors_New "password must be at least 6 characters"), st))
    /\ ((3 <= String.length username <= 50)%nat ->
        (6 <= String.length password)%nat ->
        forall h u,
          GenerateFromPassword salt password = Ok h ->
          In u (users (base st)) -> Username u = username ->
          Register GenerateFromPassword st now salt username password
          = (Err (errors_New "username already exists"), st))
    /\ (forall e st',
           Register GenerateFromPassword st now salt username password = (Err e, st') ->
           st' = st).
Proof.
  intros Gen st now salt username password. unfold Register.
  split; [|split; [|split]].
  - intros [H|H].
    + apply Nat.ltb_lt in H. now rewrite H.
    + apply Nat.ltb_lt in H. now rewrite H, orb_true_r.
  - intros [H3 H50] H6.
    apply Nat.ltb_ge in H3, H50. apply Nat.ltb_lt in H6. now rewrite H3, H50, H6.
  - intros [H3 H50] H6 h u Hh Hin Hn.
    apply Nat.ltb_ge in H3, H50, H6. rewrite H3, H50, H6, Hh. simpl.
    assert (existsb (fun u => (Username u =? username)%string) (users (base st)) = true)
      as -> by (apply existsb_exists; exists u; split; [assumption|];
                now apply String.eqb_eq).
    reflexivity.
  - intros e st'.
    destruct ((String.length username <? 3)%nat || (50 <? String.length username)%nat);
      [congruence|].
    destruct (String.length password <? 6)%nat; [congruence|].
    destruct (Gen salt password); [|congruence].
    destruct (existsb _ _); [congruence|discriminate].
Qed.

Lemma Register_refusals_witness :
  Register (fun _ pw => Ok ("$2a$10$" ++ pw)%string)
           (mkStore registered 2 [] [] 0 [] 0) t0 "salt" "al" "hunter2x"
  = (Err (errors_New "username must be between 3 and 50 characters"),
     mkStore registered 2 [] [] 0 [] 0)
  /\ Register (fun _ pw => Ok ("$2a$10$" ++ pw)%string)
              (mkStore registered 2 [] [] 0 [] 0) t0 "salt" "alice" "hunter2x"
     = (Err (errors_New "username already exists"), mkStore registered 2 [] [] 0 [] 0).
Proof.
  split.
  - apply (Register_refusals (fun _ pw => Ok ("$2a$10$" ++ pw)%string)
             (mkStore registered 2 [] [] 0 [] 0) t0 "salt" "al" "hunter2x").
    left. simpl. lia.
  - destruct (Register_refusals (fun _ pw => Ok ("$2a$10$" ++ pw)%string)
                (mkStore registered 2 [] [] 0 [] 0) t0 "salt" "alice" "hunter2x")
      as (_ & _ & Hdup & _).
    apply (Hdup ltac:(simpl; lia) ltac:(simpl; lia) _ alice_row eq_refl).
    + left. reflexivity.
    + reflexivity.
Defined.

(** X11.  If bcrypt accepts the password a hash was made from, then after
    a successful Register a Login with the same username and password
    returns the registered user.  The new user has the given name and an
    ID no stored user has; the password column holds bcrypt's output; the
    logins of all other usernames answer as before; pastes and sessions
    are untouched. *)
Theorem Register_then_Login :
  forall (GenerateFromPassword : string -> string -> result string)
         (CompareHashAndPassword : string -> string -> bool),
    (forall salt pw h,
        GenerateFromPassword salt pw = Ok h -> CompareHashAndPassword h pw = true) ->
    forall st now salt username password user st',
      Register GenerateFromPassword st now salt username password = (Ok user, st') ->
      Login CompareHashAndPassword (base st') username password = Ok user
      /\ Username user = username
      /\ GenerateFromPassword salt password = Ok (PasswordHash user)
      /\ (forall u, In u (users (base st)) ->
                    uID u <> uID user /\ Username u <> username)
      /\ (forall name pw,
             name <> username ->
             Login CompareHashAndPassword (base st') name pw
             = Login CompareHashAndPassword (base st) name pw)
      /\ pastes (base st') = pastes (base st) /\ sessions st' = sessions st.
Proof.
  intros Gen Cmp Hbcrypt st now salt username password user st' H.
  destruct (Register_Ok _ _ _ _ _ _ _ _ H) as (_ & _ & Hex & (h & Hh & Hu) & ->).
  cbn [base users pastes sessions].
  assert (Username user = username /\ PasswordHash user = h) as [Hn Hp]
      by (subst user; auto).
  split; [|split; [exact Hn|split; [congruence|split; [|split; [|auto]]]]].
  - unfold Login, gorm.First_user. cbn [users].
    rewrite filter_app, (filter_nil_of_existsb _ _ _ Hex). simpl.
    rewrite Hn, String.eqb_refl. simpl. rewrite Hp, (Hbcrypt _ _ _ Hh). reflexivity.
  - intros u Hin. split.
    + assert (uID u < uID user)%N; [|lia].
      subst user. simpl. apply next_id_fresh. now apply in_map.
    + apply (existsb_false_forall _ _ _ u Hex) in Hin. now apply String.eqb_neq in Hin.
  - intros name pw Hne. unfold Login, gorm.First_user. cbn [users].
    rewrite filter_app. simpl. rewrite Hn.
    apply String.eqb_neq in Hne. rewrite String.eqb_sym in Hne. rewrite Hne.
    now rewrite app_nil_r.
Qed.

Lemma Register_then_Login_witness :
  exists user st',
    Register (fun _ pw => Ok ("$2a$10$" ++ pw)%string)
             (mkStore registered 2 [] [] 0 [] 0) t0 "salt" "carol" "hunter2x"
    = (Ok user, st')
    /\ Login sample_compare (base st') "carol" "hunter2x" = Ok user
    /\ uID user = 3%N.
Proof.
  eexists. eexists. split; [reflexivity|]. split; [|reflexivity].
  apply (Register_then_Login (fun _ pw => Ok ("$2a$10$" ++ pw)%string) sample_compare)
    with (st := mkStore registered 2 [] [] 0 [] 0) (now := t0) (salt := "salt").
  - intros salt pw h Hh. injection Hh as <-. unfold sample_compare.
    apply String.eqb_refl.
  - reflexivity.
Defined.

(** ** Sessions *)

Lemma GetSession_ext st st' later sessionID :
  users (base st') = users (base st) ->
  filter (valid_session sessionID later) (sessions st')
  = filter (valid_session sessionID later) (sessions st) ->
  GetSession st' later sessionID = GetSession st later sessionID.
Proof. intros Hus Hf. unfold GetSession, sql.First. now rewrite Hus, Hf. Qed.

Lemma filter_valid_session_absent sessionID later ss :
  existsb (fun s => (sID s =? sessionID)%string) ss = false ->
  filter (valid_session sessionID later) ss = [].
Proof.
  induction ss as [|s ss IH]; simpl; [reflexivity|]. unfold valid_session at 1.
  destruct (sID s =? sessionID)%string; simpl; [discriminate|exact IH].
Qed.

Lemma CreateSession_Ok st now src userID s st' :
  CreateSession st now src userID = (Ok s, st') ->
  generateSessionID src = Ok (sID s)
  /\ s = mkSession (sID s) userID zero_User (time.Add now session_lifetime) now
  /\ existsb (fun x => (sID x =? sID s)%string) (sessions st) = false
  /\ st' = set_sessions st (sessions st ++ [s]).
Proof.
  unfold CreateSession. destruct (generateSessionID src) as [id|e]; [|discriminate].
  destruct (existsb _ _) eqn:Ex; [discriminate|].
  intros H. injection H as <- <-. simpl. auto.
Qed.

(** X12.  A session that CreateSession returns belongs to the given user
    and expires 30 days after its creation: GetSession returns it, with
    the user loaded, at every instant before that, and reports "invalid or
    expired session" from that instant on.  Its ID is 44 characters long.
    The other sessions answer as before: creating a session ends none. *)
Theorem CreateSession_then_GetSession :
  forall st now src userID s st',
    CreateSession st now src userID = (Ok s, st') ->
    sUserID s = userID
    /\ sExpiresAt s = now + 30 * 24 * 3600 * 1000000000
    /\ String.length (sID s) = 44%nat
    /\ (forall later,
           later < now + 30 * 24 * 3600 * 1000000000 ->
           GetSession st' later (sID s)
           = Ok (mkSession (sID s) userID (preload_user (users (base st)) userID)
                           (sExpiresAt s) now))
    /\ (forall later,
           now + 30 * 24 * 3600 * 1000000000 <= later ->
           GetSession st' later (sID s) = Err (errors_New "invalid or expired session"))
    /\ (forall later sessionID,
           sessionID <> sID s ->
           GetSession st' later sessionID = GetSession st later sessionID)
    /\ base st' = base st.
Proof.
  intros st now src userID s st' H.
  destruct (CreateSession_Ok _ _ _ _ _ _ H) as (Hid & Hs & Hex & ->).
  assert (sUserID s = userID /\ sCreatedAt s = now
          /\ sExpiresAt s = now + 30 * 24 * 3600 * 1000000000) as (Hu & Hc & He)
      by (rewrite Hs; repeat split).
  split; [exact Hu|]. split; [exact He|]. split; [|split; [|split; [|split]]].
  - unfold generateSessionID, rand_Read in Hid.
    destruct src as [f|e]; [|discriminate]. injection Hid as <-. reflexivity.
  - intros later Hlt. unfold GetSession, sql.First. cbn [sessions set_sessions base].
    rewrite filter_app, (filter_valid_session_absent _ _ _ Hex). simpl.
    unfold valid_session. rewrite String.eqb_refl, He.
    apply Z.ltb_lt in Hlt. rewrite Hlt. simpl. rewrite ?Hu, ?Hc, ?He. reflexivity.
  - intros later Hge. unfold GetSession, sql.First. cbn [sessions set_sessions base].
    rewrite filter_app, (filter_valid_session_absent _ _ _ Hex). simpl.
    unfold valid_session. rewrite String.eqb_refl, He.
    apply Z.ltb_ge in Hge. rewrite Hge. reflexivity.
  - intros later sessionID Hne. apply GetSession_ext; [reflexivity|].
    cbn [sessions set_sessions]. rewrite filter_app. simpl.
    unfold valid_session at 2. apply not_eq_sym, String.eqb_neq in Hne.
    rewrite Hne. simpl. apply app_nil_r.
  - reflexivity.
Qed.

Lemma CreateSession_then_GetSession_witness :
  exists s st',
    CreateSession (mkStore registered 2 [] [] 0 [] 0) t0 (Ok (fun _ => 0%N)) alice
    = (Ok s, st')
    /\ GetSession st' (t0 + one_hour) (sID s)
       = Ok (mkSession (sID s) alice alice_row (sExpiresAt s) t0)
    /\ sID s = "AAAAAAAAAAAAAAAAAAAAAAAAAAAAAAAAAAAAAAAAAAA=".
Proof.
  eexists. eexists. split; [reflexivity|]. split; [|reflexivity].
  destruct (CreateSession_then_GetSession (mkStore registered 2 [] [] 0 [] 0) t0
              (Ok (fun _ => 0%N)) alice _ _ eq_refl) as (_ & _ & _ & Hget & _).
  apply (Hget (t0 + one_hour)). vm_compute. reflexivity.
Defined.

Lemma filter_delete_session sessionID later id ss :
  filter (valid_session sessionID later)
         (filter (fun s => negb (sID s =? id)%string) ss)
  = if (sessionID =? id)%string then []
    else filter (valid_session sessionID later) ss.
Proof.
  induction ss as [|s ss IH]; simpl; [now destruct (sessionID =? id)%string|].
  destruct (sID s =? id)%string eqn:E; simpl.
  - rewrite IH. destruct (sessionID =? id)%string eqn:E'; [reflexivity|].
    unfold valid_session at 2. apply String.eqb_eq in E. rewrite E.
    rewrite String.eqb_sym, E'. reflexivity.
  - rewrite IH. destruct (sessionID =? id)%string eqn:E'; [|reflexivity].
    unfold valid_session at 1. apply String.eqb_eq in E'. subst sessionID.
    now rewrite E.
Qed.

(** X13.  After DeleteSession the session ID is no longer accepted at any
    time; the other sessions answer as before; deleting again, or deleting
    an ID no session has, changes nothing. *)
Theorem DeleteSession_ends_session :
  forall st sessionID,
    (forall later,
        GetSession (DeleteSession st sessionID) later sessionID
        = Err (errors_New "invalid or expired session"))
    /\ (forall later other,
           other <> sessionID ->
           GetSession (DeleteSession st sessionID) later other
           = GetSession st later other)
    /\ DeleteSession (DeleteSession st sessionID) sessionID = DeleteSession st sessionID
    /\ ((forall s, In s (sessions st) -> sID s <> sessionID) ->
        DeleteSession st sessionID = st).
Proof.
  intros st sessionID. split; [|split; [|split]].
  - intros later. unfold GetSession, sql.First, DeleteSession.
    cbn [sessions set_sessions sql.Delete fst].
    now rewrite filter_delete_session, String.eqb_refl.
  - intros later other Hne. apply GetSession_ext; [reflexivity|].
    unfold DeleteSession. cbn [sessions set_sessions sql.Delete fst].
    rewrite filter_delete_session. apply String.eqb_neq in Hne. now rewrite Hne.
  - unfold DeleteSession, set_sessions. cbn. f_equal.
    induction (sessions st) as [|s ss IH]; simpl; [reflexivity|].
    destruct (sID s =? sessionID)%string eqn:E; simpl; [exact IH|].
    rewrite E. simpl. now rewrite IH.
  - intros Habs. destruct st as [b us ss ks kq ads aq].
    unfold DeleteSession, set_sessions. cbn in *. f_equal.
    induction ss as [|s ss IH]; simpl; [reflexivity|].
    assert ((sID s =? sessionID)%string = false) as ->
        by (apply String.eqb_neq, Habs; now left).
    simpl. f_equal. apply IH. intros x Hx. apply Habs. now right.
Qed.

Lemma filter_cleanup_sessions sessionID now later ss :
  now <= later ->
  filter (valid_session sessionID later)
         (filter (fun s => negb (sExpiresAt s <? now)) ss)
  = filter (valid_session sessionID later) ss.
Proof.
  intros Hle. induction ss as [|s ss IH]; simpl; [reflexivity|].
  destruct (Z.ltb_spec (sExpiresAt s) now) as [Hlt|Hge]; simpl.
  - rewrite IH. unfold valid_session at 2.
    assert ((later <? sExpiresAt s) = false) as -> by (apply Z.ltb_ge; lia).
    now rewrite andb_false_r.
  - now rewrite IH.
Qed.

(** X14.  The session sweep removes, for good, exactly the sessions whose
    expiration instant is before its clock reading, and returns how many;
    it never removes a session GetSession would still accept, so from the
    sweep's instant on every GetSession answers as without the sweep; a
    second sweep at the same instant removes nothing. *)
Theorem CleanupExpiredSessions_sweeps :
  forall st now,
    let swept := snd (CleanupExpiredSessions st now) in
    sessions swept = filter (fun s => negb (sExpiresAt s <? now)) (sessions st)
    /\ (forall s, In s (sessions swept) <-> In s (sessions st) /\ now <= sExpiresAt s)
    /\ fst (CleanupExpiredSessions st now)
       = Z.of_nat (List.length (sessions st)) - Z.of_nat (List.length (sessions swept))
    /\ (forall later sessionID,
           now <= later ->
           GetSession swept later sessionID = GetSession st later sessionID)
    /\ CleanupExpiredSessions swept now = (0, swept)
    /\ base swept = base st.
Proof.
  intros st now swept. subst swept. unfold CleanupExpiredSessions.
  cbn [sql.Delete fst snd sessions set_sessions base].
  split; [reflexivity|]. split; [|split; [|split; [|split]]].
  - intros s. rewrite filter_In, negb_true_iff, Z.ltb_ge. tauto.
  - assert (forall l : list Session,
               List.length l
               = Nat.add (List.length (filter (fun s => sExpiresAt s <? now) l))
                         (List.length (filter (fun s => negb (sExpiresAt s <? now)) l)))
      as Hsplit.
    { induction l as [|s l IH]; simpl; [reflexivity|].
      destruct (sExpiresAt s <? now); simpl; lia. }
    rewrite (Hsplit (sessions st)) at 1. lia.
  - intros later sessionID Hle. apply GetSession_ext; [reflexivity|].
    cbn [sessions set_sessions]. now apply filter_cleanup_sessions.
  - assert (forall l : list Session,
               filter (fun s => sExpiresAt s <? now)
                      (filter (fun s => negb (sExpiresAt s <? now)) l) = []
               /\ filter (fun s => negb (sExpiresAt s <? now))
                         (filter (fun s => negb (sExpiresAt s <? now)) l)
                  = filter (fun s => negb (sExpiresAt s <? now)) l) as Hidem.
    { induction l as [|s l [IH1 IH2]]; simpl; [auto|].
      destruct (sExpiresAt s <? now) eqn:E; simpl; [auto|].
      rewrite E. simpl. rewrite IH1, IH2. auto. }
    destruct (Hidem (sessions st)) as [-> ->]. reflexivity.
  - reflexivity.
Qed.

(** ** API keys *)

Lemma CreateAPIKey_Ok AddDate st now src userID name days k st' :
  CreateAPIKey AddDate st now src userID name days = (Ok k, st') ->
  (exists keyBytes,
      rand_Read src 32 = Ok keyBytes
      /\ Key k = ("pb_" ++ hex_EncodeToString keyBytes)%string)
  /\ kID k = sql.next_id (map kID (api_keys st)) (api_keys_seq st)
  /\ Name k = name /\ kUserID k = userID /\ LastUsed k = None /\ kCreatedAt k = now
  /\ kExpiresAt k = match days with
                    | Some d => if d >? 0 then Some (AddDate now d) else None
                    | None => None
                    end
  /\ existsb (fun x => (Key x =? Key k)%string) (api_keys st) = false
  /\ st' = set_api_keys st (api_keys st ++ [k]) (kID k).
Proof.
  unfold CreateAPIKey. destruct (rand_Read src 32) as [keyBytes|e]; [|discriminate].
  destruct (existsb _ _) eqn:Ex; [discriminate|].
  intros H. injection H as <- <-. simpl. repeat split; eauto.
Qed.

Lemma First_key_single keyString ks k :
  existsb (fun x => (Key x =? keyString)%string) ks = false ->
  Key k = keyString ->
  sql.First apikey_le (fun x => (Key x =? keyString)%string) (ks ++ [k]) = Some k.
Proof.
  intros Hex Hk. unfold sql.First.
  rewrite filter_app, (filter_nil_of_existsb _ _ _ Hex). simpl.
  now rewrite Hk, String.eqb_refl.
Qed.

Lemma touch_others keyID now ks :
  (forall x, In x ks -> kID x <> keyID) -> map (touch keyID now) ks = ks.
Proof.
  intros H. rewrite <- (map_id ks) at 2. apply map_ext_in. intros x Hx.
  unfold touch. apply H, N.eqb_neq in Hx. now rewrite Hx.
Qed.

(** X15.  A key that CreateAPIKey returns is "pb_" followed by 64
    lower-case hexadecimal digits, belongs to the given user, has never
    been used, and has an ID and a key string no stored key has; without a
    positive number of days it has no expiration.  ValidateAPIKey accepts
    it up to its expiration instant, returns its owner's row and stamps
    the key with the instant of use; after the expiration instant it
    answers "API key expired" and stamps nothing. *)
Theorem CreateAPIKey_then_Validate :
  forall (AddDate_days : time.Time -> Z -> time.Time)
         st now src userID name expiresInDays k st',
    CreateAPIKey AddDate_days st now src userID name expiresInDays = (Ok k, st') ->
    (exists digits,
        Key k = ("pb_" ++ digits)%string /\ String.length digits = 64%nat
        /\ Forall is_hex_digit (list_ascii_of_string digits))
    /\ kUserID k = userID /\ LastUsed k = None
    /\ (match expiresInDays with Some d => d <= 0 | None => True end ->
        kExpiresAt k = None)
    /\ (forall x, In x (api_keys st) -> kID x <> kID k /\ Key x <> Key k)
    /\ (forall later,
           (forall e, kExpiresAt k = Some e -> later <= e) ->
           ValidateAPIKey st' later (Key k)
           = (Ok (preload_user (users (base st)) userID),
              set_api_keys st
                (api_keys st
                 ++ [mkAPIKey (kID k) (Key k) (Name k) userID (kUser k) (kExpiresAt k)
                              (Some later) (kCreatedAt k)])
                (kID k)))
    /\ (forall later e,
           kExpiresAt k = Some e -> e < later ->
           ValidateAPIKey st' later (Key k) = (Err (errors_New "API key expired"), st')).
Proof.
  intros AddDate st now src userID name days k st' H.
  destruct (CreateAPIKey_Ok _ _ _ _ _ _ _ _ _ H)
    as ((keyBytes & Hread & Hkey) & Hid & _ & Hu & Hlu & _ & Hexp & Hex & ->).
  assert (forall x, In x (api_keys st) -> kID x <> kID k) as Hfresh.
  { intros x Hx. rewrite Hid.
    assert (kID x < sql.next_id (map kID (api_keys st)) (api_keys_seq st))%N; [|lia].
    apply next_id_fresh. now apply in_map. }
  split; [|split; [exact Hu|split; [exact Hlu|split; [|split; [|split]]]]].
  - exists (hex_EncodeToString keyBytes). split; [exact Hkey|].
    unfold rand_Read in Hread. destruct src as [f|e]; [|discriminate].
    injection Hread as <-.
    destruct (sprintf_x_shape (map (fun i => Z.of_N (f i) mod 256) (seq 0 32)))
      as [Hlen Hhex].
    { apply Forall_map, Forall_forall. intros i _. apply Z.mod_pos_bound. reflexivity. }
    split; [|exact Hhex]. etransitivity; [exact Hlen|]. reflexivity.
  - intros Hd. rewrite Hexp. destruct days as [d|]; [|reflexivity].
    destruct (Z.gtb_spec d 0); [lia|reflexivity].
  - intros x Hx. split; [now apply Hfresh|].
    apply (existsb_false_forall _ _ _ x Hex) in Hx. now apply String.eqb_neq in Hx.
  - intros later Hlive. unfold ValidateAPIKey. cbn [api_keys set_api_keys base].
    rewrite (First_key_single (Key k) (api_keys st) k Hex eq_refl).
    assert (match kExpiresAt k with
            | Some e => time.After later e
            | None => false
            end = false) as ->.
    { destruct (kExpiresAt k) as [e|]; [|reflexivity].
      unfold time.After. apply Z.ltb_ge. now apply Hlive. }
    rewrite Hu. f_equal. unfold set_api_keys. cbn. f_equal.
    rewrite map_app, (touch_others _ _ _ Hfresh). simpl. unfold touch.
    now rewrite N.eqb_refl, Hu.
  - intros later e He Hlt. unfold ValidateAPIKey. cbn [api_keys set_api_keys base].
    rewrite (First_key_single (Key k) (api_keys st) k Hex eq_refl), He.
    unfold time.After. apply Z.ltb_lt in Hlt. now rewrite Hlt.
Qed.

Lemma CreateAPIKey_then_Validate_witness :
  exists k st',
    CreateAPIKey (fun t d => t + d * 24 * one_hour)
                 (mkStore registered 2 [] [] 0 [] 0) t0 (Ok (fun _ => 171%N)) alice
                 "laptop" (Some 7) = (Ok k, st')
    /\ String.length (Key k) = 67%nat
    /\ fst (ValidateAPIKey st' (t0 + one_hour) (Key k)) = Ok alice_row
    /\ fst (ValidateAPIKey st' (t0 + 8 * 24 * one_hour) (Key k))
       = Err (errors_New "API key expired").
Proof.
  eexists. eexists. split; [reflexivity|]. split; [vm_compute; reflexivity|].
  destruct (CreateAPIKey_then_Validate (fun t d => t + d * 24 * one_hour)
              (mkStore registered 2 [] [] 0 [] 0) t0 (Ok (fun _ => 171%N)) alice
              "laptop" (Some 7) _ _ eq_refl) as (_ & _ & _ & _ & _ & Hok & Hexp).
  split.
  - rewrite (Hok (t0 + one_hour)); [reflexivity|].
    intros e He. vm_compute in He. injection He as <-. vm_compute. discriminate.
  - rewrite (Hexp (t0 + 8 * 24 * one_hour) (t0 + 7 * 24 * one_hour));
      [reflexivity | vm_compute; reflexivity | vm_compute; reflexivity].
Defined.

(** X16.  ValidateAPIKey answers "invalid API key" for a string no key
    has; whenever it fails, with that message or "API key expired", the
    store is as before; when it succeeds it writes nothing but last-used
    stamps: every key keeps its ID, string, name, owner and expiration,
    and the other tables are untouched. *)
Theorem ValidateAPIKey_effects :
  forall st now keyString,
    ((forall k, In k (api_keys st) -> Key k <> keyString) ->
     ValidateAPIKey st now keyString = (Err (errors_New "invalid API key"), st))
    /\ (forall e st',
           ValidateAPIKey st now keyString = (Err e, st') ->
           st' = st
           /\ (e = errors_New "invalid API key" \/ e = errors_New "API key expired"))
    /\ (forall user st',
           ValidateAPIKey st now keyString = (Ok user, st') ->
           map (fun k => (kID k, Key k, Name k, kUserID k, kExpiresAt k, kCreatedAt k))
               (api_keys st')
           = map (fun k => (kID k, Key k, Name k, kUserID k, kExpiresAt k, kCreatedAt k))
                 (api_keys st)
           /\ base st' = base st /\ sessions st' = sessions st
           /\ admins st' = admins st
           /\ exists k, In k (api_keys st) /\ Key k = keyString
                        /\ user = preload_user (users (base st)) (kUserID k)).
Proof.
  intros st now keyString. unfold ValidateAPIKey. split; [|split].
  - intros Habs. unfold sql.First.
    replace (filter _ (api_keys st)) with (@nil APIKey); [reflexivity|].
    symmetry. apply filter_nil_of_existsb.
    destruct (existsb _ _) eqn:E; [|reflexivity].
    apply existsb_exists in E as (k & Hk & Heq). apply String.eqb_eq in Heq.
    destruct (Habs k Hk Heq).
  - intros e st'. destruct (sql.First _ _ _) as [k|].
    + destruct (match kExpiresAt k with Some _ => _ | None => _ end);
        [|discriminate].
      intros H. injection H as <- <-. auto.
    + intros H. injection H as <- <-. auto.
  - intros user st'. destruct (sql.First _ _ _) as [k|] eqn:E; [|discriminate].
    destruct (match kExpiresAt k with Some _ => _ | None => _ end); [discriminate|].
    intros H. injection H as <- <-. cbn [api_keys set_api_keys base sessions admins].
    split; [|repeat split].
    + rewrite map_map. apply map_ext. intros x. unfold touch.
      now destruct (kID x =? kID k)%N.
    + exists k. unfold sql.First in E.
      assert (forall l, sql.least apikey_le l = Some k -> In k l) as Hleast.
      { induction l as [|x l IH]; simpl; [discriminate|].
        destruct (sql.least apikey_le l) as [q|].
        - destruct (apikey_le x q); intros H; injection H as <-; auto.
        - intros H; injection H as <-; auto. }
      apply Hleast, filter_In in E as [Hin Hk]. apply String.eqb_eq in Hk. auto.
Qed.

Lemma ValidateAPIKey_effects_witness :
  ValidateAPIKey (mkStore registered 2 [] [] 0 [] 0) t0 "pb_00"
  = (Err (errors_New "invalid API key"), mkStore registered 2 [] [] 0 [] 0).
Proof.
  apply (ValidateAPIKey_effects (mkStore registered 2 [] [] 0 [] 0) t0 "pb_00").
  intros k [].
Defined.

Lemma length_zero_nil (A : Type) (l : list A) :
  (Z.of_nat (List.length l) =? 0) = true <-> l = [].
Proof.
  rewrite Z.eqb_eq. destruct l; simpl; split; try reflexivity; try discriminate; lia.
Qed.

(** X17.  Only the owner of an API key can delete it.  Asked by another
    user, or for an ID no key has, DeleteAPIKey answers "API key not found"
    and leaves the store as it was.  Asked by the owner it removes the key
    from the table, keeps every other key, and the key string is no longer
    accepted: ValidateAPIKey answers "invalid API key". *)
Theorem DeleteAPIKey_owner_only :
  forall st keyID userID,
    NoDup (map kID (api_keys st)) -> NoDup (map Key (api_keys st)) ->
    ((forall k, In k (api_keys st) -> kID k = keyID -> kUserID k <> userID) ->
     DeleteAPIKey st keyID userID = (Some (errors_New "API key not found"), st))
    /\ (forall k,
           In k (api_keys st) -> kID k = keyID -> kUserID k = userID ->
           let st' := snd (DeleteAPIKey st keyID userID) in
           fst (DeleteAPIKey st keyID userID) = None
           /\ ~ In k (api_keys st')
           /\ (forall x, In x (api_keys st) -> kID x <> keyID -> In x (api_keys st'))
           /\ (forall now,
                  ValidateAPIKey st' now (Key k)
                  = (Err (errors_New "invalid API key"), st'))
           /\ base st' = base st /\ sessions st' = sessions st).
Proof.
  intros st keyID userID Hids Hkeys. unfold DeleteAPIKey. cbn [sql.Delete].
  split.
  - intros Hno.
    assert (filter (fun k => (kID k =? keyID)%N && (kUserID k =? userID)%N)
                   (api_keys st) = []) as ->; [|reflexivity].
    apply filter_nil_of_existsb. destruct (existsb _ _) eqn:E; [|reflexivity].
    apply existsb_exists in E as (k & Hk & Hc). apply andb_true_iff in Hc as [Hi Ho].
    apply N.eqb_eq in Hi, Ho. destruct (Hno k Hk Hi Ho).
  - intros k Hin Hid Hown.
    assert (In k (filter (fun k => (kID k =? keyID)%N && (kUserID k =? userID)%N)
                         (api_keys st))) as Hsel.
    { apply filter_In. split; [assumption|]. now rewrite Hid, Hown, !N.eqb_refl. }
    destruct (Z.of_nat (List.length (filter _ (api_keys st))) =? 0) eqn:E.
    { apply length_zero_nil in E. rewrite E in Hsel. destruct Hsel. }
    cbn [fst snd api_keys set_api_keys base sessions].
    split; [reflexivity|]. split; [|split; [|split; [|auto]]].
    + intros Hk. apply filter_In in Hk as [_ Hk].
      now rewrite Hid, Hown, !N.eqb_refl in Hk.
    + intros x Hx Hne. apply filter_In. split; [assumption|].
      apply N.eqb_neq in Hne. now rewrite Hne.
    + intros now. unfold ValidateAPIKey, sql.First. cbn [api_keys set_api_keys].
      replace (filter (fun x => (Key x =? Key k)%string) _) with (@nil APIKey);
        [reflexivity|].
      symmetry. apply filter_nil_of_existsb. destruct (existsb _ _) eqn:Ex; [|reflexivity].
      apply existsb_exists in Ex as (x & Hx & Hkx). apply String.eqb_eq in Hkx.
      apply filter_In in Hx as [Hx Hc].
      assert (x = k) as ->.
      { clear - Hkeys Hx Hin Hkx. induction (api_keys st) as [|y l IH]; [destruct Hx|].
        simpl in Hkeys. inversion Hkeys as [|? ? Hnotin Hnd]; subst.
        destruct Hx as [->|Hx], Hin as [->|Hin]; auto.
        - exfalso. apply Hnotin. rewrite Hkx. now apply in_map.
        - exfalso. apply Hnotin. rewrite <- Hkx. now apply in_map. }
      now rewrite Hid, Hown, !N.eqb_refl in Hc.
Qed.

Lemma DeleteAPIKey_owner_only_witness :
  DeleteAPIKey (mkStore registered 2 []
                        [mkAPIKey 1 "pb_aa" "laptop" alice zero_User None None t0] 1
                        [] 0) 1 bob
  = (Some (errors_New "API key not found"),
     mkStore registered 2 []
             [mkAPIKey 1 "pb_aa" "laptop" alice zero_User None None t0] 1 [] 0).
Proof.
  apply (DeleteAPIKey_owner_only
           (mkStore registered 2 []
                    [mkAPIKey 1 "pb_aa" "laptop" alice zero_User None None t0] 1
                    [] 0) 1 bob).
  - repeat constructor; simpl; tauto.
  - repeat constructor; simpl; tauto.
  - intros k [<-|[]] _. discriminate.
Defined.

(** ** Administrators *)

Lemma IsAdmin_existsb st userID :
  IsAdmin st userID = existsb (fun a => (aUserID a =? userID)%N) (admins st).
Proof.
  unfold IsAdmin, sql.First. induction (admins st) as [|a l IH]; [reflexivity|].
  simpl. destruct (aUserID a =? userID)%N; simpl; [|exact IH].
  destruct (sql.least admin_le _) as [q|]; [destruct (admin_le a q)|]; reflexivity.
Qed.

(** X18.  IsAdmin answers true exactly for the users that have a marker
    row.  MakeAdmin gives a user the marker, after which IsAdmin answers
    true for that user and as before for every other; for a user who
    already has it the insert fails on the unique index and the store is
    as before.  No check is made that the user exists. *)
Theorem MakeAdmin_then_IsAdmin :
  forall st now userID,
    (IsAdmin st userID = true <-> exists a, In a (admins st) /\ aUserID a = userID)
    /\ (IsAdmin st userID = false ->
        fst (MakeAdmin st now userID) = None
        /\ IsAdmin (snd (MakeAdmin st now userID)) userID = true
        /\ (forall other,
               other <> userID ->
               IsAdmin (snd (MakeAdmin st now userID)) other = IsAdmin st other)
        /\ base (snd (MakeAdmin st now userID)) = base st)
    /\ (IsAdmin st userID = true ->
        MakeAdmin st now userID
        = (Some (sqlite_error "UNIQUE constraint failed: admins.user_id"), st)).
Proof.
  intros st now userID. rewrite !IsAdmin_existsb. unfold MakeAdmin.
  split; [|split].
  - rewrite existsb_exists. split; intros (a & Ha & He); exists a;
      (split; [assumption|]); now apply N.eqb_eq.
  - intros ->. cbn [fst snd]. split; [reflexivity|]. split; [|split].
    + rewrite ?IsAdmin_existsb. cbn [admins set_admins].
      rewrite existsb_app. simpl. now rewrite N.eqb_refl, orb_true_r.
    + intros other Hne. rewrite ?IsAdmin_existsb. cbn [admins set_admins].
      rewrite existsb_app. simpl. apply not_eq_sym, N.eqb_neq in Hne.
      now rewrite Hne, !orb_false_r.
    + reflexivity.
  - intros ->. reflexivity.
Qed.

Lemma MakeAdmin_then_IsAdmin_witness :
  IsAdmin (snd (MakeAdmin (mkStore registered 2 [] [] 0 [] 0) t0 alice)) alice = true
  /\ MakeAdmin (snd (MakeAdmin (mkStore registered 2 [] [] 0 [] 0) t0 alice)) t0 alice
     = (Some (sqlite_error "UNIQUE constraint failed: admins.user_id"),
        snd (MakeAdmin (mkStore registered 2 [] [] 0 [] 0) t0 alice)).
Proof.
  destruct (MakeAdmin_then_IsAdmin (mkStore registered 2 [] [] 0 [] 0) t0 alice)
    as (_ & Hmake & _).
  destruct (Hmake eq_refl) as (_ & Hadm & _).
  split; [exact Hadm|].
  apply (MakeAdmin_then_IsAdmin
           (snd (MakeAdmin (mkStore registered 2 [] [] 0 [] 0) t0 alice)) t0 alice).
  exact Hadm.
Defined.

Lemma existsb_filter_neg (A : Type) (f : A -> bool) l :
  existsb f (filter (fun r => negb (f r)) l) = false.
Proof.
  induction l as [|x l IH]; [reflexivity|]. simpl.
  destruct (f x) eqn:E; simpl; [|rewrite E]; exact IH.
Qed.

Lemma existsb_filter_other (A : Type) (f g : A -> bool) l :
  (forall x, g x = true -> f x = false) ->
  existsb g (filter (fun r => negb (f r)) l) = existsb g l.
Proof.
  intros H. induction l as [|x l IH]; [reflexivity|]. simpl.
  destruct (f x) eqn:E; simpl.
  - destruct (g x) eqn:G; [|exact IH]. rewrite (H x G) in E. discriminate.
  - now rewrite IH.
Qed.

(** X19.  RemoveAdmin takes the marker from an administrator, after which
    IsAdmin answers false for that user and as before for every other; for
    a user without the marker it answers "user is not an admin" and leaves
    the store as it was. *)
Theorem RemoveAdmin_then_IsAdmin :
  forall st userID,
    (IsAdmin st userID = true ->
     fst (RemoveAdmin st userID) = None
     /\ IsAdmin (snd (RemoveAdmin st userID)) userID = false
     /\ (forall other,
            other <> userID ->
            IsAdmin (snd (RemoveAdmin st userID)) other = IsAdmin st other)
     /\ base (snd (RemoveAdmin st userID)) = base st)
    /\ (IsAdmin st userID = false ->
        RemoveAdmin st userID = (Some (errors_New "user is not an admin"), st)).
Proof.
  intros st userID. rewrite !IsAdmin_existsb. unfold RemoveAdmin. cbn [sql.Delete].
  split.
  - intros Hadm.
    destruct (Z.of_nat (List.length (filter _ (admins st))) =? 0) eqn:E.
    { apply length_zero_nil in E. apply existsb_exists in Hadm as (a & Ha & Hc).
      assert (In a (filter (fun a => (aUserID a =? userID)%N) (admins st))) as Hin
          by (apply filter_In; auto).
      rewrite E in Hin. destruct Hin. }
    cbn [fst snd]. split; [reflexivity|]. split; [|split; [|reflexivity]].
    + rewrite ?IsAdmin_existsb. cbn [admins set_admins].
      apply existsb_filter_neg.
    + intros other Hne. rewrite ?IsAdmin_existsb. cbn [admins set_admins].
      apply existsb_filter_other. intros x Hx. apply N.eqb_eq in Hx.
      apply N.eqb_neq. congruence.
  - intros Hno. rewrite (filter_nil_of_existsb _ _ _ Hno). reflexivity.
Qed.

Lemma RemoveAdmin_then_IsAdmin_witness :
  RemoveAdmin (mkStore registered 2 [] [] 0 [] 0) bob
  = (Some (errors_New "user is not an admin"), mkStore registered 2 [] [] 0 [] 0).
Proof.
  apply (RemoveAdmin_then_IsAdmin (mkStore registered 2 [] [] 0 [] 0) bob).
  reflexivity.
Defined.

(** The store [DeleteUser] leaves, whatever it answers. *)
Lemma DeleteUser_store st now userID :
  snd (DeleteUser st now userID)
  = mkStore
      (mkDB (filter (fun u => negb (uID u =? userID)%N) (users (base st)))
            (fst (gorm.Delete (owned_by userID) now (pastes (base st)))))
      (users_seq st)
      (filter (fun s => negb (sUserID s =? userID)%N) (sessions st))
      (filter (fun k => negb (kUserID k =? userID)%N) (api_keys st))
      (api_keys_seq st)
      (filter (fun a => negb (aUserID a =? userID)%N) (admins st))
      (admins_seq st).
Proof.
  unfold DeleteUser. cbn [sql.Delete fst snd]. now destruct (Z.of_nat _ =? 0).
Qed.

Lemma In_filter_other (A : Type) (f : A -> N) (userID : N) (l : list A) x :
  In x (filter (fun r => negb (f r =? userID)%N) l) <-> In x l /\ f x <> userID.
Proof. rewrite filter_In, negb_true_iff, N.eqb_neq. tauto. Qed.

(** X20.  DeleteUser removes the user's row, sessions, API keys and admin
    marker, and tombstones the user's pastes: each live paste the user owns
    is replaced by the same row with its deletion marker set to the clock
    reading, every other column as it was, and the rows stay in the table;
    rows of other users are untouched.  Its answer depends on the user row
    alone: it is "user not found" exactly when no user has the ID, and the
    cascade over the other tables has run all the same. *)
Theorem DeleteUser_cascade :
  forall st now userID,
    let st' := snd (DeleteUser st now userID) in
    (fst (DeleteUser st now userID) = None
     <-> exists u, In u (users (base st)) /\ uID u = userID)
    /\ (fst (DeleteUser st now userID) = None
        \/ fst (DeleteUser st now userID) = Some (errors_New "user not found"))
    /\ (forall u, In u (users (base st')) <-> In u (users (base st)) /\ uID u <> userID)
    /\ (forall s, In s (sessions st') <-> In s (sessions st) /\ sUserID s <> userID)
    /\ (forall k, In k (api_keys st') <-> In k (api_keys st) /\ kUserID k <> userID)
    /\ IsAdmin st' userID = false
    /\ (forall other, other <> userID -> IsAdmin st' other = IsAdmin st other)
    /\ (forall p, In p (pastes (base st')) -> UserID p = Some userID ->
                  gorm.live p = false)
    /\ (forall p, In p (pastes (base st)) -> UserID p <> Some userID ->
                  In p (pastes (base st')))
    /\ map ID (pastes (base st')) = map ID (pastes (base st))
    /\ pastes (base st')
       = map (fun p =>
                if match UserID p with
                   | Some o => (o =? userID)%N
                   | None => false
                   end && gorm.live p
                then mkPaste (ID p) (Title p) (Content p) (ContentHash p) (Language p)
                             (IsPrivate p) (Unlisted p) (ExpiresAt p) (UserID p)
                             (User_ p) (CreatedAt p) (UpdatedAt p) (Some now)
                else p)
             (pastes (base st))
    /\ (forall p, In p (pastes (base st)) -> UserID p = Some userID ->
                  gorm.live p = true ->
                  In (mkPaste (ID p) (Title p) (Content p) (ContentHash p) (Language p)
                              (IsPrivate p) (Unlisted p) (ExpiresAt p) (Some userID)
                              (User_ p) (CreatedAt p) (UpdatedAt p) (Some now))
                     (pastes (base st'))
                  /\ ~ In p (pastes (base st'))).
Proof.
  intros st now userID st'. subst st'.
  rewrite DeleteUser_store. cbn [base users pastes sessions api_keys].
  assert (forall p,
             In p (fst (gorm.Delete (owned_by userID) now (pastes (base st)))) ->
             UserID p = Some userID -> gorm.live p = false) as Hdead.
  { intros p Hp Ho. apply (Delete_selected_tombstoned (owned_by userID) now
                             (pastes (base st)) p); auto.
    now apply owned_by_true. }
  split; [|split; [|split; [|split; [|split; [|split; [|split; [|split; [|split;
    [|split; [|split]]]]]]]]]].
  - unfold DeleteUser. cbn [sql.Delete fst snd].
    destruct (Z.of_nat (List.length (filter (fun u => (uID u =? userID)%N)
                                            (users (base st)))) =? 0) eqn:E;
      cbn [fst]; split.
    + discriminate.
    + intros (u & Hu & Hid). apply length_zero_nil in E.
      assert (In u (filter (fun u => (uID u =? userID)%N) (users (base st)))) as Hin
          by (apply filter_In; split; [assumption|now apply N.eqb_eq]).
      rewrite E in Hin. destruct Hin.
    + intros _. destruct (filter (fun u => (uID u =? userID)%N) (users (base st)))
        as [|u l] eqn:F; [discriminate|].
      assert (In u (filter (fun u => (uID u =? userID)%N) (users (base st)))) as Hin
          by (rewrite F; now left).
      apply filter_In in Hin as [Hin Hid]. apply N.eqb_eq in Hid. eauto.
    + reflexivity.
  - unfold DeleteUser. cbn [sql.Delete fst snd].
    destruct (Z.of_nat _ =? 0); cbn [fst]; auto.
  - intros u. apply (In_filter_other User uID).
  - intros s. apply (In_filter_other Session sUserID).
  - intros k. apply (In_filter_other APIKey kUserID).
  - rewrite IsAdmin_existsb. cbn [admins]. apply existsb_filter_neg.
  - intros other Hne. rewrite !IsAdmin_existsb. cbn [admins].
    apply existsb_filter_other. intros x Hx. apply N.eqb_eq in Hx.
    apply N.eqb_neq. congruence.
  - exact Hdead.
  - intros p Hp Hno. apply Delete_untouched; [assumption|].
    destruct (owned_by userID p) eqn:E; [|reflexivity].
    apply owned_by_true in E. contradiction.
  - apply Delete_ids.
  - reflexivity.
  - intros p Hin Ho Hl. split.
    + cbn [fst gorm.Delete]. apply in_map_iff. exists p.
      assert (owned_by userID p = true) as -> by now apply owned_by_true.
      rewrite Hl, <- Ho. split; [reflexivity | assumption].
    + intros Hp. pose proof (Hdead p Hp Ho) as Hd. congruence.
Qed.

Lemma DeleteUser_cascade_witness :
  fst (DeleteUser (mkStore store_short 2 [] [] 0 [] 0) (t0 + one_hour) alice) = None
  /\ fst (DeleteUser (mkStore store_short 2 [] [] 0 [] 0) (t0 + one_hour) 9)
     = Some (errors_New "user not found")
  /\ In (mkPaste "bbbbbbbb" "diary" "secret" (computeFileHash "secret") "text" true
                 false None (Some alice) None t0 t0 (Some (t0 + one_hour)))
        (pastes (base (snd (DeleteUser (mkStore store_short 2 [] [] 0 [] 0)
                                       (t0 + one_hour) alice)))).
Proof.
  split; [|split].
  - pose proof (DeleteUser_cascade (mkStore store_short 2 [] [] 0 [] 0)
                  (t0 + one_hour) alice) as H.
    cbv zeta in H. destruct H as (Hiff & _). apply (proj2 Hiff).
    exists alice_row. split; [|reflexivity]. vm_compute. left. reflexivity.
  - pose proof (DeleteUser_cascade (mkStore store_short 2 [] [] 0 [] 0)
                  (t0 + one_hour) 9) as H.
    cbv zeta in H. destruct H as (Hiff & [Hnone|Herr] & _); [|exact Herr].
    apply (proj1 Hiff) in Hnone. destruct Hnone as (u & Hu & Hid). exfalso.
    vm_compute in Hu. destruct Hu as [<-|[<-|[]]]; discriminate.
  - pose proof (DeleteUser_cascade (mkStore store_short 2 [] [] 0 [] 0)
                  (t0 + one_hour) alice) as H.
    cbv zeta in H.
    destruct H as (_ & _ & _ & _ & _ & _ & _ & _ & _ & _ & _ & Himage).
    assert (In (mkPaste "bbbbbbbb" "diary" "secret" (computeFileHash "secret") "text"
                        true false None (Some alice) None t0 t0 None)
               (pastes (base (mkStore store_short 2 [] [] 0 [] 0)))) as Hin
        by (vm_compute; right; left; reflexivity).
    exact (proj1 (Himage _ Hin eq_refl eq_refl)).
Defined.

(** ** The current user of a request *)

Lemma substring_all (s : string) : String.substring 0 (String.length s) s = s.
Proof. induction s as [|c s IH]; simpl; congruence. Qed.

Lemma TrimPrefix_Bearer_prefixed key : TrimPrefix_Bearer ("Bearer " ++ key) = key.
Proof.
  unfold TrimPrefix_Bearer. simpl.
  assert (String.prefix "" key = true) as -> by (destruct key; reflexivity).
  rewrite Nat.sub_0_r. apply substring_all.
Qed.

Lemma TrimPrefix_Bearer_bare key :
  String.prefix "Bearer " key = false -> TrimPrefix_Bearer key = key.
Proof. intros H. unfold TrimPrefix_Bearer. now rewrite H. Qed.

(** X21.  A request with no Authorization header and no session cookie has
    no user.  A header whose key ValidateAPIKey accepts decides the user,
    whatever the cookie says; a header whose key is refused is ignored and
    the request is treated as if it carried the cookie alone.  A key may
    come bare or behind "Bearer ".  Looking up the user writes nothing but
    the last-used stamp of an accepted key. *)
Theorem getCurrentUser_credentials :
  forall st now authorization cookie,
    getCurrentUser st now "" None = (None, st)
    /\ (forall user st',
           authorization <> "" ->
           ValidateAPIKey st now (TrimPrefix_Bearer authorization) = (Ok user, st') ->
           getCurrentUser st now authorization cookie = (Some user, st'))
    /\ (forall e st',
           ValidateAPIKey st now (TrimPrefix_Bearer authorization) = (Err e, st') ->
           getCurrentUser st now authorization cookie
           = getCurrentUser st now "" cookie)
    /\ (forall session value,
           cookie = Some value -> GetSession st now value = Ok session ->
           getCurrentUser st now "" cookie = (Some (sUser session), st))
    /\ (forall key,
           key <> "" -> String.prefix "Bearer " key = false ->
           getCurrentUser st now ("Bearer " ++ key) cookie
           = getCurrentUser st now key cookie)
    /\ base (snd (getCurrentUser st now authorization cookie)) = base st
    /\ sessions (snd (getCurrentUser st now authorization cookie)) = sessions st.
Proof.
  intros st now authorization cookie.
  split; [reflexivity|]. split; [|split; [|split; [|split]]].
  - intros user st' Hne Hv. unfold getCurrentUser.
    apply String.eqb_neq in Hne. now rewrite Hne, Hv.
  - intros e st' Hv. unfold getCurrentUser. rewrite Hv. simpl.
    now destruct (authorization =? "")%string.
  - intros session value -> Hs. unfold getCurrentUser. simpl. now rewrite Hs.
  - intros key Hne Hbare. unfold getCurrentUser.
    rewrite TrimPrefix_Bearer_prefixed, (TrimPrefix_Bearer_bare key Hbare).
    apply String.eqb_neq in Hne. rewrite Hne. reflexivity.
  - unfold getCurrentUser. destruct (authorization =? "")%string; [split; reflexivity|].
    destruct (ValidateAPIKey st now (TrimPrefix_Bearer authorization))
      as [[user|e] st'] eqn:Hv; [|split; reflexivity].
    cbn [snd]. unfold ValidateAPIKey in Hv.
    destruct (sql.First _ _ _) as [k|]; [|discriminate].
    destruct (match kExpiresAt k with Some _ => _ | None => _ end); [discriminate|].
    injection Hv as _ <-. split; reflexivity.
Qed.

Lemma getCurrentUser_credentials_witness :
  getCurrentUser (mkStore registered 2 []
                          [mkAPIKey 1 "pb_aa" "laptop" alice zero_User None None t0] 1
                          [] 0) (t0 + one_hour) "Bearer pb_aa" None
  = getCurrentUser (mkStore registered 2 []
                            [mkAPIKey 1 "pb_aa" "laptop" alice zero_User None None t0] 1
                            [] 0) (t0 + one_hour) "pb_aa" None
  /\ fst (getCurrentUser (mkStore registered 2 []
                            [mkAPIKey 1 "pb_aa" "laptop" alice zero_User None None t0] 1
                            [] 0) (t0 + one_hour) "pb_aa" None) = Some alice_row.
Proof.
  split; [|reflexivity].
  destruct (getCurrentUser_credentials
              (mkStore registered 2 []
                       [mkAPIKey 1 "pb_aa" "laptop" alice zero_User None None t0] 1
                       [] 0) (t0 + one_hour) "" None)
    as (_ & _ & _ & _ & Hbearer & _).
  apply (Hbearer "pb_aa"); [discriminate | reflexivity].
Defined.

(** ** Keys are not reused; credentials of a deleted user *)

Lemma NoDup_map_inj (A B : Type) (f : A -> B) l a b :
  NoDup (map f l) -> In a l -> In b l -> f a = f b -> a = b.
Proof.
  induction l as [|x l IH]; simpl; [tauto|].
  intros Hnd Ha Hb Heq. inversion Hnd as [|? ? Hnotin Hnd']; subst.
  destruct Ha as [->|Ha], Hb as [->|Hb]; auto.
  - exfalso. apply Hnotin. rewrite Heq. now apply in_map.
  - exfalso. apply Hnotin. rewrite <- Heq. now apply in_map.
Qed.

(** X22.  User IDs are never handed out twice: the ID Register gives is
    larger than every ID a stored user has and than the last ID ever
    allotted, and DeleteUser does not wind that counter back; so whoever
    registers after a user was deleted gets a larger ID than that user
    had, and cannot come to own what the deleted user left behind. *)
Theorem Register_never_reuses_id :
  forall (GenerateFromPassword : string -> string -> result string)
         st now salt username password user st',
    Register GenerateFromPassword st now salt username password = (Ok user, st') ->
    (users_seq st < uID user)%N
    /\ users_seq st' = uID user
    /\ (forall u, In u (users (base st)) -> (uID u < uID user)%N)
    /\ (forall later deleted now2 salt2 username2 password2 user2 st2,
           Register GenerateFromPassword (snd (DeleteUser st' later deleted)) now2
                    salt2 username2 password2 = (Ok user2, st2) ->
           (uID user < uID user2)%N).
Proof.
  intros Gen st now salt username password user st' H.
  destruct (Register_Ok _ _ _ _ _ _ _ _ H) as (_ & _ & _ & (h & _ & Hu) & Hst).
  assert (uID user = sql.next_id (map uID (users (base st))) (users_seq st)) as Hid
      by (rewrite Hu; reflexivity).
  assert (forall later deleted s,
             users_seq (snd (DeleteUser s later deleted)) = users_seq s) as Hseq.
  { intros later deleted s. unfold DeleteUser. cbn [sql.Delete fst snd].
    now destruct (Z.of_nat _ =? 0). }
  assert (users_seq st' = uID user) as Hseq' by (rewrite Hst; reflexivity).
  split; [|split; [exact Hseq'|split]].
  - rewrite Hid. unfold sql.next_id. lia.
  - intros u Hin. rewrite Hid. apply next_id_fresh. now apply in_map.
  - intros later deleted now2 salt2 username2 password2 user2 st2 H2.
    destruct (Register_Ok _ _ _ _ _ _ _ _ H2) as (_ & _ & _ & (h2 & _ & Hu2) & _).
    rewrite Hu2. cbn [uID]. rewrite Hseq, Hseq'. unfold sql.next_id. lia.
Qed.

Lemma Register_never_reuses_id_witness :
  match Register (fun _ pw => Ok ("$2a$10$" ++ pw)%string)
                 (mkStore registered 2 [] [] 0 [] 0) t0 "salt" "carol" "hunter2x" with
  | (Ok user, st') =>
      match Register (fun _ pw => Ok ("$2a$10$" ++ pw)%string)
                     (snd (DeleteUser st' (t0 + one_hour) (uID user)))
                     (t0 + one_hour) "salt" "dave01" "hunter2x" with
      | (Ok user2, _) => (uID user < uID user2)%N
      | (Err _, _) => False
      end
  | (Err _, _) => False
  end.
Proof.
  destruct (Register (fun _ pw => Ok ("$2a$10$" ++ pw)%string)
                     (mkStore registered 2 [] [] 0 [] 0) t0 "salt" "carol" "hunter2x")
    as [[user|e] st'] eqn:H1; [|vm_compute in H1; discriminate].
  destruct (Register (fun _ pw => Ok ("$2a$10$" ++ pw)%string)
                     (snd (DeleteUser st' (t0 + one_hour) (uID user)))
                     (t0 + one_hour) "salt" "dave01" "hunter2x")
    as [[user2|e2] st2] eqn:H2.
  - destruct (Register_never_reuses_id _ _ _ _ _ _ _ _ H1) as (_ & _ & _ & Hnext).
    exact (Hnext _ _ _ _ _ _ _ _ H2).
  - vm_compute in H1. injection H1 as <- <-. vm_compute in H2. discriminate.
Defined.

(** X23.  A user's key listing holds exactly the API keys of that user,
    each as often as stored, most recent first, and no key of anybody
    else. *)
Theorem GetUserAPIKeys_lists :
  forall st userID,
    Permutation (GetUserAPIKeys st userID)
                (filter (fun k => (kUserID k =? userID)%N) (api_keys st))
    /\ StronglySorted (fun a b => kCreatedAt b <= kCreatedAt a)
                      (GetUserAPIKeys st userID)
    /\ (forall k, In k (GetUserAPIKeys st userID)
                  <-> In k (api_keys st) /\ kUserID k = userID).
Proof.
  intros st userID.
  assert (Permutation (GetUserAPIKeys st userID)
            (filter (fun k => (kUserID k =? userID)%N) (api_keys st))) as Hperm
      by apply Order_perm.
  split; [exact Hperm|]. split; [apply Order_sorted|].
  intros k. split.
  - intros Hk. apply (Permutation_in _ Hperm), filter_In in Hk as [Hin Hc].
    apply N.eqb_eq in Hc. auto.
  - intros [Hin Hu]. apply (Permutation_in _ (Permutation_sym Hperm)), filter_In.
    split; [assumption|]. now apply N.eqb_eq.
Qed.

Lemma First_None_of_not_live pasteID t :
  (forall q, In q t -> ID q = pasteID -> gorm.live q = false) ->
  gorm.First (has_id pasteID) t = None.
Proof.
  intros H. destruct (gorm.First (has_id pasteID) t) as [q|] eqn:E; [|reflexivity].
  apply First_Some in E as (Hq & Hid & Hl). apply String.eqb_eq in Hid.
  rewrite (H q Hq Hid) in Hl. discriminate.
Qed.

(** X24.  After DeleteUser nothing of the user works any more, in a
    database whose unique columns are unique: Login under the user's name
    fails with the generic error, the user's sessions are refused, the
    user's API keys are invalid, and Get reports every paste the user
    owned as not found, to every viewer and at every time. *)
Theorem DeleteUser_revokes :
  forall (CompareHashAndPassword : string -> string -> bool) st now userID,
    NoDup (map Username (users (base st))) ->
    NoDup (map sID (sessions st)) ->
    NoDup (map Key (api_keys st)) ->
    unique_ids (pastes (base st)) ->
    let st' := snd (DeleteUser st now userID) in
    (forall u password,
        In u (users (base st)) -> uID u = userID ->
        Login CompareHashAndPassword (base st') (Username u) password
        = Err (errors_New "invalid username or password"))
    /\ (forall s later,
           In s (sessions st) -> sUserID s = userID ->
           GetSession st' later (sID s) = Err (errors_New "invalid or expired session"))
    /\ (forall k later,
           In k (api_keys st) -> kUserID k = userID ->
           ValidateAPIKey st' later (Key k) = (Err (errors_New "invalid API key"), st'))
    /\ (forall p later viewerUserID,
           In p (pastes (base st)) -> UserID p = Some userID ->
           GetPaste (base st') later (ID p) viewerUserID
           = Err (errors_New "paste not found")).
Proof.
  intros Cmp st now userID Hnames Hsids Hkeys Hpids st'.
  pose proof (DeleteUser_store st now userID) as Hst. fold st' in Hst.
  assert (forall u, In u (users (base st')) -> In u (users (base st)) /\ uID u <> userID)
    as Husers by (intros u; rewrite Hst; apply (In_filter_other User uID)).
  assert (forall s, In s (sessions st') -> In s (sessions st) /\ sUserID s <> userID)
    as Hsess by (intros s; rewrite Hst; apply (In_filter_other Session sUserID)).
  assert (forall k, In k (api_keys st') -> In k (api_keys st) /\ kUserID k <> userID)
    as Hks by (intros k; rewrite Hst; apply (In_filter_other APIKey kUserID)).
  assert (pastes (base st')
          = fst (gorm.Delete (owned_by userID) now (pastes (base st)))) as Hps
      by (rewrite Hst; reflexivity).
  split; [|split; [|split]].
  - intros u password Hin Hid. unfold Login.
    rewrite First_user_absent; [reflexivity|].
    intros x Hx Hname. apply Husers in Hx as [Hx Hne]. apply Hne.
    rewrite (NoDup_map_inj _ _ Username _ x u Hnames Hx Hin Hname). exact Hid.
  - intros s later Hin Hown. unfold GetSession, sql.First.
    replace (filter (valid_session (sID s) later) (sessions st')) with (@nil Session);
      [reflexivity|].
    symmetry. apply filter_nil_of_existsb.
    destruct (existsb _ _) eqn:E; [|reflexivity].
    apply existsb_exists in E as (x & Hx & Hv). apply andb_true_iff in Hv as [Hv _].
    apply String.eqb_eq in Hv. apply Hsess in Hx as [Hx Hne]. exfalso. apply Hne.
    rewrite (NoDup_map_inj _ _ sID _ x s Hsids Hx Hin Hv). exact Hown.
  - intros k later Hin Hown. unfold ValidateAPIKey, sql.First.
    replace (filter (fun x => (Key x =? Key k)%string) (api_keys st'))
      with (@nil APIKey); [reflexivity|].
    symmetry. apply filter_nil_of_existsb.
    destruct (existsb _ _) eqn:E; [|reflexivity].
    apply existsb_exists in E as (x & Hx & Hv). apply String.eqb_eq in Hv.
    apply Hks in Hx as [Hx Hne]. exfalso. apply Hne.
    rewrite (NoDup_map_inj _ _ Key _ x k Hkeys Hx Hin Hv). exact Hown.
  - intros p later viewer Hin Hown. unfold GetPaste.
    rewrite First_None_of_not_live; [reflexivity|].
    intros q Hq Hid. rewrite Hps in Hq.
    apply (Delete_selected_tombstoned (owned_by userID) now (pastes (base st)) q);
      [reflexivity | exact Hq |].
    apply owned_by_true. simpl in Hq. apply in_map_iff in Hq as (r & Hr & Hrin).
    assert (ID r = ID p /\ UserID r = UserID q) as [Hrid Hru]
        by (destruct (owned_by userID r && gorm.live r); subst q; split; auto;
            simpl in *; congruence).
    rewrite <- Hru, (unique_ids_inj _ _ _ Hpids Hrin Hin Hrid). exact Hown.
Qed.

Lemma DeleteUser_revokes_witness :
  Login sample_compare
        (base (snd (DeleteUser (mkStore store_short 2 [] [] 0 [] 0) (t0 + one_hour)
                               alice))) "alice" "alice"
  = Err (errors_New "invalid username or password")
  /\ GetPaste (base (snd (DeleteUser (mkStore store_short 2 [] [] 0 [] 0)
                                     (t0 + one_hour) alice)))
              (t0 + one_hour) "bbbbbbbb" (Some alice)
     = Err (errors_New "paste not found").
Proof.
  pose proof (DeleteUser_revokes sample_compare (mkStore store_short 2 [] [] 0 [] 0)
                (t0 + one_hour) alice) as H.
  cbv zeta in H. destruct H as (Hlogin & _ & _ & Hget).
  - vm_compute. repeat constructor; simpl; intuition discriminate.
  - constructor.
  - constructor.
  - exact store_short_unique.
  - split.
    + apply (Hlogin alice_row "alice"); [|reflexivity]. vm_compute. left. reflexivity.
    + apply (Hget (mkPaste "bbbbbbbb" "diary" "secret" (computeFileHash "secret") "text"
                           true false None (Some alice) None t0 t0 None)
                  (t0 + one_hour) (Some alice)); [|reflexivity].
      vm_compute. right. left. reflexivity.
Defined.

(** ** The paste sweep and deletion, seen from reads and uploads *)

Lemma First_after_Delete_kept pasteID c now t p :
  unique_ids t ->
  gorm.First (has_id pasteID) t = Some p -> c p = false ->
  gorm.First (has_id pasteID) (fst (gorm.Delete c now t)) = Some p.
Proof.
  intros Hu Hf Hc. rewrite <- Hf. unfold gorm.First. rewrite Where_after_Delete.
  f_equal. unfold gorm.Where. apply filter_ext_in. intros q Hq.
  destruct (has_id pasteID q && gorm.live q) eqn:E.
  - apply andb_true_iff in E as [Hid Hl].
    destruct (First_Some _ _ _ Hf) as (Hin & Hidp & _).
    unfold has_id in Hid, Hidp. apply String.eqb_eq in Hid, Hidp.
    assert (q = p) as -> by (apply (unique_ids_inj _ _ _ Hu Hq Hin); congruence).
    unfold has_id. now rewrite Hc, Hl, Hidp, String.eqb_refl.
  - destruct (has_id pasteID q); simpl in *; [|reflexivity].
    now rewrite E, andb_false_r.
Qed.

Lemma First_after_Delete_gone cond c now t :
  (forall q, In q t -> gorm.live q = true -> cond q = true -> c q = true) ->
  gorm.First cond (fst (gorm.Delete c now t)) = None.
Proof.
  intros H. unfold gorm.First. rewrite Where_after_Delete. unfold gorm.Where.
  replace (filter _ t) with (@nil Paste); [reflexivity|].
  symmetry. apply filter_nil_of_existsb. destruct (existsb _ t) eqn:E; [|reflexivity].
  apply existsb_exists in E as (q & Hq & Hc). apply andb_true_iff in Hc as [Hc Hl].
  apply andb_true_iff in Hc as [Hc Hn]. rewrite (H q Hq Hl Hc) in Hn. discriminate.
Qed.

(** X25.  The paste sweep hides nothing a reader could still see: on a
    table with unique IDs, from the sweep's instant on GetPaste answers
    every request exactly as it would have without the sweep.  What the
    sweep does change is the public listing, which no longer shows the
    pastes that expired before the sweep. *)
Theorem CleanupExpiredPastes_invisible_to_GetPaste :
  forall db now,
    unique_ids (pastes db) ->
    let swept := snd (CleanupExpiredPastes db now) in
    (forall later pasteID viewerUserID,
        now <= later ->
        GetPaste swept later pasteID viewerUserID
        = GetPaste db later pasteID viewerUserID)
    /\ (forall q, In q (GetAllPublicPastes swept) -> expired_before now q = false).
Proof.
  intros db now Hu swept. subst swept. rewrite CleanupExpiredPastes_eq. cbn [snd].
  split.
  - intros later pasteID viewer Hle. unfold GetPaste. cbn [pastes users].
    destruct (gorm.First (has_id pasteID) (pastes db)) as [p|] eqn:Hf.
    + destruct (expired_before now p) eqn:Hc.
      * rewrite First_after_Delete_gone.
        -- unfold expired_before in Hc. simpl.
           destruct (ExpiresAt p) as [e|]; [|discriminate].
           apply Z.ltb_lt in Hc. unfold time.After.
           assert ((e <? later) = true) as -> by (apply Z.ltb_lt; lia). reflexivity.
        -- intros q Hq Hl Hid. destruct (First_Some _ _ _ Hf) as (Hin & Hidp & _).
           unfold has_id in Hid, Hidp. apply String.eqb_eq in Hid, Hidp.
           assert (q = p) as -> by (apply (unique_ids_inj _ _ _ Hu Hq Hin); congruence).
           exact Hc.
      * now rewrite (First_after_Delete_kept pasteID _ now _ p Hu Hf Hc).
    + rewrite First_after_Delete_gone; [reflexivity|].
      intros q Hq Hl Hid. rewrite (First_None _ _ _ Hf Hq Hid) in Hl. discriminate.
  - intros q Hq. unfold GetAllPublicPastes in Hq. cbn [pastes users] in Hq.
    apply in_map_iff in Hq as (p & <- & Hp).
    apply (Permutation_in _ (Order_perm Paste CreatedAt _)) in Hp.
    apply Where_In in Hp as (Hin & _ & Hl).
    change (expired_before now p = false).
    destruct (expired_before now p) eqn:E; [|reflexivity].
    rewrite (Delete_selected_tombstoned (expired_before now) now (pastes db) p) in Hl;
      [discriminate | reflexivity | exact Hin | exact E].
Qed.

Lemma CleanupExpiredPastes_invisible_to_GetPaste_witness :
  GetPaste (snd (CleanupExpiredPastes store_short (t0 + one_hour))) (t0 + one_hour)
           "cccccccc" (Some alice)
  = GetPaste store_short (t0 + one_hour) "cccccccc" (Some alice).
Proof.
  pose proof (CleanupExpiredPastes_invisible_to_GetPaste store_short (t0 + one_hour)
                store_short_unique) as H.
  cbv zeta in H. destruct H as (Hget & _). apply Hget. apply Z.le_refl.
Defined.

(** X26.  A tombstoned paste no longer takes part in deduplication.  When
    the only live paste of a fingerprint in an owner scope is deleted by
    its owner, or has expired and is swept, the next valid Create of that
    content in that scope whose generated ID is free stores a new row and
    returns it, under an ID different from the old one; before, Create
    returned the old paste. *)
Theorem tombstoned_paste_is_not_deduplicated :
  forall db now p content,
    unique_ids (pastes db) ->
    In p (pastes db) -> gorm.live p = true ->
    ContentHash p = computeFileHash content ->
    (forall q, In q (pastes db) -> gorm.live q = true ->
               ContentHash q = ContentHash p -> UserID q = UserID p -> q = p) ->
    forall db',
      (expired_before now p = true /\ db' = snd (CleanupExpiredPastes db now))
      \/ (exists owner, UserID p = Some owner
                        /\ db' = snd (DeletePaste db now (ID p) owner)) ->
      forall later draws title language isPrivate unlisted expiresIn,
        passes_validation content isPrivate (UserID p) ->
        ~ In (randfilename draws 8 "") (map ID (pastes db)) ->
        exists fresh,
          CreatePaste db' later draws title content language isPrivate unlisted
                      expiresIn (UserID p)
          = (Ok fresh, mkDB (users db) (pastes db' ++ [fresh]))
          /\ ID fresh = randfilename draws 8 "" /\ ID fresh <> ID p
          /\ Content fresh = content.
Proof.
  intros db now p content Hu Hin Hl Hh Honly db' Hdb'
         later draws title language isPrivate unlisted expiresIn Hv Hfresh.
  assert (exists c, pastes db' = fst (gorm.Delete c now (pastes db))
                    /\ users db' = users db /\ c p = true) as (c & Hps & Hus & Hc).
  { destruct Hdb' as [[Hexp ->] | (owner & Ho & ->)].
    - exists (expired_before now). rewrite CleanupExpiredPastes_eq. auto.
    - exists (has_id (ID p)). unfold DeletePaste.
      rewrite (First_by_id _ _ Hu Hin Hl).
      assert (owned_by owner p = true) as -> by now apply owned_by_true.
      simpl. repeat split. apply String.eqb_refl. }
  rewrite (CreatePaste_valid _ _ _ _ _ _ _ _ _ _ Hv), Hps.
  rewrite First_after_Delete_gone.
  - cbv zeta. unfold gorm.Create.
    assert (existsb (fun q => (ID q =? randfilename draws 8 "")%string)
                    (fst (gorm.Delete c now (pastes db))) = false) as Hex.
    { destruct (existsb _ _) eqn:E; [|reflexivity].
      apply existsb_exists in E as (q & Hq & Hid). apply String.eqb_eq in Hid.
      exfalso. apply Hfresh. rewrite <- Hid, <- (Delete_ids c now (pastes db)).
      now apply in_map. }
    cbn [ID]. rewrite Hex, Hus. eexists. split; [reflexivity|]. cbn [ID Content].
    repeat split. intros Heq. apply Hfresh. rewrite Heq. now apply in_map.
  - intros q Hq Hlq Hm. apply same_hash_and_scope_true in Hm as [Hqh Hqs].
    rewrite (Honly q Hq Hlq); [exact Hc | congruence | exact Hqs].
Qed.

Lemma tombstoned_paste_is_not_deduplicated_witness :
  exists fresh,
    CreatePaste (snd (DeletePaste store_secret (t0 + one_hour) "bbbbbbbb" alice))
                (t0 + one_hour + one_hour) draws_c "" "secret" "text" true false None
                (Some alice)
    = (Ok fresh,
       mkDB (users store_secret)
            (pastes (snd (DeletePaste store_secret (t0 + one_hour) "bbbbbbbb" alice))
             ++ [fresh]))
    /\ ID fresh = "cccccccc" /\ ID fresh <> "bbbbbbbb" /\ Content fresh = "secret".
Proof.
  apply (tombstoned_paste_is_not_deduplicated store_secret (t0 + one_hour)
           (mkPaste "bbbbbbbb" "diary" "secret" (computeFileHash "secret") "text"
                    true false None (Some alice) None t0 t0 None) "secret").
  - repeat apply CreatePaste_keeps_unique. constructor.
  - vm_compute. right. left. reflexivity.
  - reflexivity.
  - reflexivity.
  - intros q Hq _ Hh _. vm_compute in Hq, Hh.
    destruct Hq as [<-|[<-|[]]]; [discriminate Hh | reflexivity].
  - right. exists alice. split; reflexivity.
  - unfold passes_validation. vm_compute. repeat split; discriminate.
  - vm_compute. intros [H|[H|[]]]; discriminate.
Defined.
